(** * The OpenAI large-language-model adapter, embedded in Rocq

    A shallow embedding of [models/openai/models/llm/llm.py]: the message
    codec ([_convert_prompt_message_to_dict]), the token estimator
    ([_num_tokens_from_string], [_num_tokens_from_messages],
    [_num_tokens_for_tools], [get_num_tokens]), the two stream handlers
    ([_handle_generate_stream_response],
    [_handle_chat_generate_stream_response]) and the two block handlers, the
    dispatchers ([_invoke], [_chat_generate], [_chat_generate_o3_pro],
    [_generate]), the code-block wrapper with its two prompt transforms, the
    listing of fine-tuned models ([remote_models]) and the validation of
    credentials.

    Python values are modelled by value.  The two places where the source
    keeps a reference to an object of a fragment it has already consumed
    (the legacy function-call buffer and the entries of the index-keyed
    tool-call map) are the only owners of those objects once the fragment has
    been processed, so in-place mutation is rendered as replacing the stored
    value.  The stop list of the code-block wrapper is shared between the
    caller, the wrapper and the transforms: it lives in a store of list
    objects.  Exceptions are values of [exn]; a generator is its list of
    yielded chunks together with how it ended.  The tokenizer library, the
    remote client and the framework's helpers are parameters; an encoding of
    the tokenizer is a partial function, since the library refuses a text
    that spells one of its special tokens. *)

From Stdlib Require Import String Ascii List ZArith Bool Lia.
Import ListNotations.
Local Open Scope Z_scope.
Local Open Scope string_scope.
Local Open Scope list_scope.

Set Implicit Arguments.
Set Warnings "-register-all".

(** ** Python exceptions and the error monad *)

Inductive exn : Type :=
| ValueError (msg : string)
| NotImplementedError (msg : string)
| AssertionError
| KeyError (key : string)
| IndexError
| TypeError
| AttributeError
| RemoteError (msg : string).

Inductive result (A : Type) : Type :=
| Ok (a : A)
| Raise (e : exn).

Arguments Ok {A} a.
Arguments Raise {A} e.

Definition bind {A B : Type} (m : result A) (k : A -> result B) : result B :=
  match m with
  | Ok a => k a
  | Raise e => Raise e
  end.

Notation "x <- m ;; k" := (bind m (fun x => k))
  (at level 61, m at next level, right associativity).

Fixpoint mapM {A B : Type} (f : A -> result B) (l : list A) : result (list B) :=
  match l with
  | [] => Ok []
  | x :: xs => y <- f x ;; ys <- mapM f xs ;; Ok (y :: ys)
  end.

(** ** Python strings *)

Module Py.

(** [s.startswith(p)] *)
Fixpoint startswith (p s : string) : bool :=
  match p, s with
  | EmptyString, _ => true
  | String a p', String b s' => Ascii.eqb a b && startswith p' s'
  | String _ _, EmptyString => false
  end.

(** [s.startswith((p1, ..., pn))] *)
Definition startswith_any (ps : list string) (s : string) : bool :=
  existsb (fun p => startswith p s) ps.

(** [p in s] for strings *)
Fixpoint contains (p s : string) : bool :=
  startswith p s ||
  match s with
  | EmptyString => false
  | String _ s' => contains p s'
  end.

(** [s.split(sep)] for a non-empty separator: [skip] counts the characters of
    a separator occurrence still to be dropped, [cur] is the piece being
    read. *)
Fixpoint split_aux (sep : string) (skip : nat) (cur : string) (s : string)
  : list string :=
  match s with
  | EmptyString => [cur]
  | String c s' =>
      match skip with
      | S k => split_aux sep k cur s'
      | O =>
          if startswith sep s
          then cur :: split_aux sep (String.length sep - 1)%nat "" s'
          else split_aux sep 0 (cur ++ String c "")%string s'
      end
  end.

Definition split (sep s : string) : list string := split_aux sep 0 "" s.

(** [l[i]] on a list, raising [IndexError] out of range *)
Definition index {A : Type} (l : list A) (i : nat) : result A :=
  match nth_error l i with
  | Some x => Ok x
  | None => Raise IndexError
  end.

(** Truth value of an [Optional[str]]: [None] and [""] are falsy. *)
Definition truthy (o : option string) : bool :=
  match o with
  | Some s => negb (s =? "")
  | None => false
  end.

(** [o or ""] on an [Optional[str]] *)
Definition or_empty (o : option string) : string :=
  match o with
  | Some s => s
  | None => ""
  end.

(** A [dict] with string keys, in insertion order. *)
Definition dict (V : Type) : Type := list (string * V).

Fixpoint get {V : Type} (k : string) (d : dict V) : option V :=
  match d with
  | [] => None
  | (k', v) :: d' => if k' =? k then Some v else get k d'
  end.

Definition mem {V : Type} (k : string) (d : dict V) : bool :=
  match get k d with
  | Some _ => true
  | None => false
  end.

(** [d[k] = v]: an existing key keeps its position, a new key goes last. *)
Fixpoint set {V : Type} (k : string) (v : V) (d : dict V) : dict V :=
  match d with
  | [] => [(k, v)]
  | (k', v') :: d' => if k' =? k then (k, v) :: d' else (k', v') :: set k v d'
  end.

(** [del d[k]] for a key known to be present, [d.pop(k)] without its value *)
Fixpoint del {V : Type} (k : string) (d : dict V) : dict V :=
  match d with
  | [] => []
  | (k', v') :: d' => if k' =? k then d' else (k', v') :: del k d'
  end.

End Py.

(** ** JSON-like Python values (model parameters, tool schemas) *)

Inductive json : Type :=
| JNull
| JBool (b : bool)
| JInt (z : Z)
| JFloat (mantissa exponent : Z)
| JStr (s : string)
| JArr (l : list json)
| JObj (d : list (string * json)).

(** Python truth value of such a value *)
Definition json_truthy (j : json) : bool :=
  match j with
  | JNull => false
  | JBool b => b
  | JInt z => negb (z =? 0)%Z
  | JFloat m _ => negb (m =? 0)%Z
  | JStr s => negb (s =? "")%string
  | JArr l => match l with [] => false | _ => true end
  | JObj d => match d with [] => false | _ => true end
  end.

(** [v == s] for a string [s] *)
Definition json_is_str (v : json) (s : string) : bool :=
  match v with
  | JStr s' => s' =? s
  | _ => false
  end.

(** ** Data model: prompt messages (dify_plugin.entities.model.message) *)

Module ToolCallFunction.
Record t : Type := { name : string; arguments : string }.
End ToolCallFunction.

Module ToolCall.
Record t : Type := { id : string; type : string; function : ToolCallFunction.t }.
End ToolCall.

(** Content parts.  [OtherPromptMessageContent] stands for the part types the
    codec has no branch for (video, document). *)
Inductive PromptMessageContent : Type :=
| TextPromptMessageContent (data : string)
| ImagePromptMessageContent (data : string) (detail : string)
| AudioPromptMessageContent (data : string) (format : string)
| OtherPromptMessageContent (data : string).

Inductive Content : Type :=
| CNone
| CStr (s : string)
| CParts (parts : list PromptMessageContent).

(** [OtherPromptMessage] stands for any message class outside the four the
    codec knows. *)
Inductive PromptMessage : Type :=
| UserPromptMessage (content : Content) (name : option string)
| AssistantPromptMessage (content : Content) (name : option string)
    (tool_calls : list ToolCall.t)
| SystemPromptMessage (content : Content) (name : option string)
| ToolPromptMessage (content : Content) (name : option string)
    (tool_call_id : string)
| OtherPromptMessage (content : Content) (name : option string).

Definition message_content (m : PromptMessage) : Content :=
  match m with
  | UserPromptMessage c _ | AssistantPromptMessage c _ _
  | SystemPromptMessage c _ | ToolPromptMessage c _ _
  | OtherPromptMessage c _ => c
  end.

Definition message_name (m : PromptMessage) : option string :=
  match m with
  | UserPromptMessage _ n | AssistantPromptMessage _ n _
  | SystemPromptMessage _ n | ToolPromptMessage _ n _
  | OtherPromptMessage _ n => n
  end.

Module PromptMessageTool.
Record t : Type := { name : string; description : string; parameters : Py.dict json }.
End PromptMessageTool.

(** ** Wire records produced by the codec *)

(** A value inside a sub-record: a string, or a nested record of strings
    ([image_url], [input_audio], [function]). *)
Inductive item_value : Type :=
| IStr (s : string)
| IDict (d : Py.dict string).

(** An element of a list-valued field: a sub-record, or (assistant, system and
    tool messages pass [message.content] through unchanged) a content-part
    object. *)
Inductive wire_item : Type :=
| DictItem (d : Py.dict item_value)
| ObjItem (c : PromptMessageContent).

Inductive wire_value : Type :=
| WNone
| WStr (s : string)
| WList (l : list wire_item).

Definition message_dict : Type := Py.dict wire_value.

(** ** Message codec *)

Definition raw_content (c : Content) : wire_value :=
  match c with
  | CNone => WNone
  | CStr s => WStr s
  | CParts parts => WList (map ObjItem parts)
  end.

(** One iteration of the loop over [message.content]: the sub-record appended
    to [sub_messages], if any. *)
Definition convert_content_part (message_content : PromptMessageContent)
  : result (option wire_item) :=
  match message_content with
  | TextPromptMessageContent data =>
      Ok (Some (DictItem [("type", IStr "text"); ("text", IStr data)]))
  | ImagePromptMessageContent data detail =>
      Ok (Some (DictItem [("type", IStr "image_url");
                          ("image_url", IDict [("url", data); ("detail", detail)])]))
  | AudioPromptMessageContent data format =>
      let data_split := Py.split ";base64," data in
      base64_data <- Py.index data_split 1 ;;
      Ok (Some (DictItem [("type", IStr "input_audio");
                          ("input_audio", IDict [("data", base64_data); ("format", format)])]))
  | OtherPromptMessageContent _ => Ok None
  end.

Fixpoint convert_content_parts (parts : list PromptMessageContent)
  : result (list wire_item) :=
  match parts with
  | [] => Ok []
  | p :: ps =>
      o <- convert_content_part p ;;
      rest <- convert_content_parts ps ;;
      Ok (match o with Some d => d :: rest | None => rest end)
  end.

Definition tool_call_dict (tool_call : ToolCall.t) : wire_item :=
  DictItem
    [("id", IStr (ToolCall.id tool_call));
     ("type", IStr (if (ToolCall.type tool_call =? "")%string then "function"
                    else ToolCall.type tool_call));
     ("function",
      IDict [("name", ToolCallFunction.name (ToolCall.function tool_call));
             ("arguments", ToolCallFunction.arguments (ToolCall.function tool_call))])].

Definition is_wire_str (o : option wire_value) (s : string) : bool :=
  match o with
  | Some (WStr s') => (s' =? s)%string
  | _ => false
  end.

(** The message of the [ValueError] for an unknown message class ends with the
    rendering of the message, which is left out here. *)
Definition _convert_prompt_message_to_dict (message : PromptMessage)
  : result message_dict :=
  message_dict <-
    match message with
    | UserPromptMessage content _ =>
        match content with
        | CStr s => Ok [("role", WStr "user"); ("content", WStr s)]
        | CParts parts =>
            sub_messages <- convert_content_parts parts ;;
            Ok [("role", WStr "user"); ("content", WList sub_messages)]
        | CNone => Raise AssertionError
        end
    | AssistantPromptMessage content _ tool_calls =>
        let message_dict := [("role", WStr "assistant"); ("content", raw_content content)] in
        Ok (match tool_calls with
            | [] => message_dict
            | _ => Py.set "tool_calls" (WList (map tool_call_dict tool_calls)) message_dict
            end)
    | SystemPromptMessage content _ =>
        Ok [("role", WStr "system"); ("content", raw_content content)]
    | ToolPromptMessage content _ tool_call_id =>
        Ok [("role", WStr "tool"); ("content", raw_content content);
            ("tool_call_id", WStr tool_call_id)]
    | OtherPromptMessage _ _ => Raise (ValueError "Got unknown type")
    end ;;
  Ok (if Py.truthy (message_name message)
         && negb (is_wire_str (Py.get "role" message_dict) "tool")
      then Py.set "name" (WStr (Py.or_empty (message_name message))) message_dict
      else message_dict).

(** ** Token estimator *)

(** A tiktoken encoding.  [encode] is partial: called as the source calls it,
    without [allowed_special] or [disallowed_special], the library refuses a
    text that spells one of its special tokens (such as [<|endoftext|>]);
    [None] stands for that refusal. *)
Module Encoding.
Record t : Type := { encode : string -> option (list Z) }.
End Encoding.

(** The [ValueError] of a refused text; its message, which quotes the token,
    is cut short. *)
Definition disallowed_special_token : exn :=
  ValueError "Encountered text corresponding to disallowed special token".

(** [len(encoding.encode(text))] *)
Definition num_encoded (encoding : Encoding.t) (text : string) : result Z :=
  match Encoding.encode encoding text with
  | Some tokens => Ok (Z.of_nat (List.length tokens))
  | None => Raise disallowed_special_token
  end.

Fixpoint sumM {A : Type} (f : A -> result Z) (l : list A) : result Z :=
  match l with
  | [] => Ok 0
  | x :: xs => a <- f x ;; b <- sumM f xs ;; Ok (a + b)
  end.

(** The model name the estimator works with: a fine-tune name [ft:base:...]
    gives its base, and the names the tokenizer library does not know are
    counted as [gpt-4o]. *)
Definition normalize_model (model : string) : result string :=
  model <- (if Py.startswith "ft:" model
            then Py.index (Py.split ":" model) 1
            else Ok model) ;;
  Ok (if (model =? "chatgpt-4o-latest")
         || Py.startswith_any ["o1"; "o3"; "o4"; "gpt-4.1"; "gpt-4.5"] model
      then "gpt-4o"
      else model).

(** The per-message accounting constants [(tokens_per_message,
    tokens_per_name)] of a model family, [None] where the source raises. *)
Definition accounting_family (model : string) : option (Z * Z) :=
  if Py.startswith "gpt-3.5-turbo-0301" model then Some (4, -1)
  else if Py.startswith "gpt-3.5-turbo" model
          || Py.startswith "gpt-4" model
          || Py.startswith_any ["o1"; "o3"; "o4"] model
  then Some (3, 1)
  else None.

Definition not_implemented_message (model : string) : string :=
  ("get_num_tokens_from_messages() is not presently implemented for model "
   ++ model
   ++ ".See https://platform.openai.com/docs/advanced-usage/managing-tokens for for information on how messages are converted to tokens.")%string.

(** The text a list-valued field is replaced by: the concatenation of the
    [text] of its sub-records of type [text]. *)
Fixpoint flatten_items (text : string) (items : list wire_item) : result string :=
  match items with
  | [] => Ok text
  | DictItem d :: rest =>
      match Py.get "type" d with
      | None => Raise (KeyError "type")
      | Some (IStr type) =>
          if type =? "text"
          then match Py.get "text" d with
               | None => Raise (KeyError "text")
               | Some (IStr t) => flatten_items (text ++ t)%string rest
               | Some (IDict _) => Raise TypeError
               end
          else flatten_items text rest
      | Some (IDict _) => flatten_items text rest
      end
  | ObjItem _ :: rest => flatten_items text rest
  end.

(** What one [key, value] of a wire record adds to [num_tokens].  A list is
    first replaced by its flattened text, also under the key [tool_calls]:
    the loop over the calls then runs over the characters of that text, which
    is empty for every list the codec builds, so the calls add nothing. *)
Definition item_tokens (encoding : Encoding.t) (tokens_per_name : Z)
    (key : string) (value : wire_value) : result Z :=
  value <- match value with
           | WList items => text <- flatten_items "" items ;; Ok (Some text)
           | WStr s => Ok (Some s)
           | WNone => Ok None
           end ;;
  n <- (if key =? "tool_calls"
        then match value with
             | Some text => if text =? "" then Ok 0 else Raise AttributeError
             | None => Raise TypeError
             end
        else num_encoded encoding
               (match value with Some s => s | None => "None" end)) ;;
  Ok (if key =? "name" then n + tokens_per_name else n).

Definition message_tokens (encoding : Encoding.t) (tokens_per_message tokens_per_name : Z)
    (message : message_dict) : result Z :=
  n <- sumM (fun kv => item_tokens encoding tokens_per_name (fst kv) (snd kv)) message ;;
  Ok (tokens_per_message + n).

(** [encoding.encode(v)] on a value of a tool schema: only a string encodes. *)
Definition encode_json (encoding : Encoding.t) (v : option json) : result Z :=
  match v with
  | Some (JStr s) => num_encoded encoding s
  | _ => Raise TypeError
  end.

(** [for x in v] on a value of a tool schema *)
Definition json_iter (v : json) : result (list json) :=
  match v with
  | JArr l => Ok l
  | JObj d => Ok (map (fun kv => JStr (fst kv)) d)
  | JStr s => Ok (map (fun c => JStr (String c "")) (list_ascii_of_string s))
  | _ => Raise TypeError
  end.

(** [v.items()] on a value of a tool schema *)
Definition json_items (v : option json) : result (list (string * json)) :=
  match v with
  | Some (JObj d) => Ok d
  | _ => Raise AttributeError
  end.

(** Python's [str()] on a JSON-like value, given [py_repr] for the numbers and
    containers. *)
Definition py_str (py_repr : json -> string) (v : json) : string :=
  match v with
  | JStr s => s
  | JNull => "None"
  | JBool true => "True"
  | JBool false => "False"
  | _ => py_repr v
  end.

Section TokenEstimator.

(** [tiktoken.encoding_for_model], [None] for its [KeyError]; and
    [tiktoken.get_encoding]. *)
Variable encoding_for_model : string -> option Encoding.t.
Variable get_encoding : string -> Encoding.t.
(** Python's rendering of numbers, lists and dicts. *)
Variable py_repr : json -> string.

Definition listed_tokens (encoding : Encoding.t) (v : json) : result Z :=
  fields <- json_iter v ;;
  sumM (fun field => n <- encode_json encoding (Some field) ;; Ok (3 + n)) fields.

Definition field_tokens (encoding : Encoding.t) (field : string * json) : result Z :=
  let '(field_key, field_value) := field in
  k <- num_encoded encoding field_key ;;
  n <- (if field_key =? "enum"
        then listed_tokens encoding field_value
        else a <- num_encoded encoding field_key ;;
             b <- num_encoded encoding (py_str py_repr field_value) ;;
             Ok (a + b)) ;;
  Ok (k + n).

Definition property_tokens (encoding : Encoding.t) (property : string * json) : result Z :=
  let '(key, value) := property in
  k <- num_encoded encoding key ;;
  fields <- json_items (Some value) ;;
  n <- sumM (field_tokens encoding) fields ;;
  Ok (k + n).

Definition tool_tokens (encoding : Encoding.t) (tool : PromptMessageTool.t) : result Z :=
  fixed <- sumM (num_encoded encoding)
             ["type"; "function"; "name"; PromptMessageTool.name tool;
              "description"; PromptMessageTool.description tool] ;;
  let parameters := PromptMessageTool.parameters tool in
  key <- num_encoded encoding "parameters" ;;
  title <- (if Py.mem "title" parameters
            then k <- num_encoded encoding "title" ;;
                 n <- encode_json encoding (Py.get "title" parameters) ;;
                 Ok (k + n)
            else Ok 0) ;;
  type_key <- num_encoded encoding "type" ;;
  type <- encode_json encoding (Py.get "type" parameters) ;;
  properties <- (if Py.mem "properties" parameters
                 then k <- num_encoded encoding "properties" ;;
                      props <- json_items (Py.get "properties" parameters) ;;
                      n <- sumM (property_tokens encoding) props ;;
                      Ok (k + n)
                 else Ok 0) ;;
  required <- (match Py.get "required" parameters with
               | Some v => k <- num_encoded encoding "required" ;;
                           n <- listed_tokens encoding v ;;
                           Ok (k + n)
               | None => Ok 0
               end) ;;
  Ok (fixed + key + title + (type_key + type) + properties + required).

Definition _num_tokens_for_tools (encoding : Encoding.t)
    (tools : list PromptMessageTool.t) : result Z :=
  sumM (tool_tokens encoding) tools.

Definition resolve_encoding (model : string) : Encoding.t :=
  match encoding_for_model model with
  | Some encoding => encoding
  | None => get_encoding "cl100k_base"
  end.

(** [if tools:] on an optional list *)
Definition tools_given (tools : option (list PromptMessageTool.t))
  : option (list PromptMessageTool.t) :=
  match tools with
  | Some (_ :: _) => tools
  | _ => None
  end.

Definition _num_tokens_from_string (model text : string)
    (tools : option (list PromptMessageTool.t)) : result Z :=
  let encoding := resolve_encoding model in
  num_tokens <- num_encoded encoding text ;;
  match tools_given tools with
  | Some tools => n <- _num_tokens_for_tools encoding tools ;; Ok (num_tokens + n)
  | None => Ok num_tokens
  end.

Definition _num_tokens_from_messages (model : string) (messages : list PromptMessage)
    (tools : option (list PromptMessageTool.t)) : result Z :=
  model <- normalize_model model ;;
  let encoding := resolve_encoding model in
  family <- match accounting_family model with
            | Some family => Ok family
            | None => Raise (NotImplementedError (not_implemented_message model))
            end ;;
  let '(tokens_per_message, tokens_per_name) := family in
  messages_dict <- mapM _convert_prompt_message_to_dict messages ;;
  num_tokens <- sumM (message_tokens encoding tokens_per_message tokens_per_name)
                  messages_dict ;;
  let num_tokens := num_tokens + 3 in
  match tools_given tools with
  | Some tools => n <- _num_tokens_for_tools encoding tools ;; Ok (num_tokens + n)
  | None => Ok num_tokens
  end.

End TokenEstimator.

(** ** Wire fragments (openai.types) and result chunks (dify_plugin) *)

Module ChoiceDeltaFunctionCall.
Record t : Type := { name : option string; arguments : option string }.
End ChoiceDeltaFunctionCall.

Module ChoiceDeltaToolCallFunction.
Record t : Type := { name : option string; arguments : option string }.
End ChoiceDeltaToolCallFunction.

Module ChoiceDeltaToolCall.
Record t : Type :=
  { index : Z;
    id : option string;
    type : option string;
    function : option ChoiceDeltaToolCallFunction.t }.
End ChoiceDeltaToolCall.

Module ChoiceDelta.
Record t : Type :=
  { content : option string;
    tool_calls : option (list ChoiceDeltaToolCall.t);
    function_call : option ChoiceDeltaFunctionCall.t }.
End ChoiceDelta.

Module Choice.
Record t : Type :=
  { index : Z; delta : ChoiceDelta.t; finish_reason : option string }.
End Choice.

Module CompletionUsage.
Record t : Type := { prompt_tokens : Z; completion_tokens : Z }.
End CompletionUsage.

Module ChatCompletionChunk.
Record t : Type :=
  { choices : list Choice.t;
    usage : option CompletionUsage.t;
    model : string;
    system_fingerprint : option string }.
End ChatCompletionChunk.

Module CompletionChoice.
Record t : Type :=
  { text : option string; index : Z; finish_reason : option string }.
End CompletionChoice.

Module Completion.
Record t : Type :=
  { choices : list CompletionChoice.t;
    usage : option CompletionUsage.t;
    model : string;
    system_fingerprint : option string }.
End Completion.

(** Result chunks, over the type [U] of the usage record that the framework's
    [_calc_response_usage] builds. *)
Module LLMResultChunkDelta.
Record t (U : Type) : Type :=
  { index : Z;
    message : PromptMessage;
    finish_reason : option string;
    usage : option U }.
End LLMResultChunkDelta.

Module LLMResultChunk.
Record t (U : Type) : Type :=
  { model : string;
    prompt_messages : list PromptMessage;
    system_fingerprint : option string;
    delta : LLMResultChunkDelta.t U }.
End LLMResultChunk.

(** [chunk.delta.usage] *)
Definition chunk_usage {U : Type} (chunk : LLMResultChunk.t U) : option U :=
  LLMResultChunkDelta.usage (LLMResultChunk.delta chunk).

(** The tool calls of a message; only assistant messages carry any. *)
Definition message_tool_calls (m : PromptMessage) : list ToolCall.t :=
  match m with
  | AssistantPromptMessage _ _ tool_calls => tool_calls
  | _ => []
  end.

(** [final_chunk.delta.usage = usage] *)
Definition set_usage {U : Type} (chunk : LLMResultChunk.t U) (usage : U)
  : LLMResultChunk.t U :=
  let delta := LLMResultChunk.delta chunk in
  {| LLMResultChunk.model := LLMResultChunk.model chunk;
     LLMResultChunk.prompt_messages := LLMResultChunk.prompt_messages chunk;
     LLMResultChunk.system_fingerprint := LLMResultChunk.system_fingerprint chunk;
     LLMResultChunk.delta :=
       {| LLMResultChunkDelta.index := LLMResultChunkDelta.index delta;
          LLMResultChunkDelta.message := LLMResultChunkDelta.message delta;
          LLMResultChunkDelta.finish_reason := LLMResultChunkDelta.finish_reason delta;
          LLMResultChunkDelta.usage := Some usage |} |}.

(** What a generator did: the chunks it yielded, in order, and the exception
    that ended it, if one did. *)
Module Generator.
Record t (C : Type) : Type := { yielded : list C; raised : option exn }.
End Generator.

(** Block responses: a chat completion (each choice is represented by its
    [message]), and the object the responses endpoint returns. *)
Module ChatCompletionMessage.
Record t : Type :=
  { content : option string;
    tool_calls : option (list ChoiceDeltaToolCall.t);
    function_call : option ChoiceDeltaFunctionCall.t }.
End ChatCompletionMessage.

Module ChatCompletion.
Record t : Type :=
  { choices : list ChatCompletionMessage.t;
    usage : option CompletionUsage.t;
    model : string;
    system_fingerprint : option string }.
End ChatCompletion.

Module ResponseUsage.
Record t : Type := { input_tokens : Z; output_tokens : Z }.
End ResponseUsage.

Module Response.
Record t : Type :=
  { output_text : option string;
    usage : option ResponseUsage.t;
    model : string }.
End Response.

Module LLMResult.
Record t (U : Type) : Type :=
  { model : string;
    prompt_messages : list PromptMessage;
    message : PromptMessage;
    usage : option U;
    system_fingerprint : option string }.
End LLMResult.

(** What [client.chat.completions.create] returns: a stream of fragments when
    called with [stream=True], a completion otherwise. *)
Definition chat_response (stream : bool) : Type :=
  if stream then list ChatCompletionChunk.t else ChatCompletion.t.

(** The calls made on the remote client, with their keyword arguments. *)
Inductive remote_call : Type :=
| ChatCompletionsCreate (messages : list message_dict) (model : string)
    (stream : bool) (kwargs : Py.dict json)
| ResponsesCreate (model : string) (input : string) (kwargs : Py.dict json).

(** What [_chat_generate] returns: a generator or a block result. *)
Inductive generate_result (U : Type) : Type :=
| StreamResult (g : Generator.t (LLMResultChunk.t U))
| BlockResult (r : LLMResult.t U).

Arguments StreamResult {U} g.
Arguments BlockResult {U} r.

(** Computations that may call the remote client: they take and return the
    log of the calls made so far. *)
Definition io (A : Type) : Type := list remote_call -> list remote_call * result A.

Definition io_ret {A : Type} (a : A) : io A := fun log => (log, Ok a).

Definition io_bind {A B : Type} (m : io A) (k : A -> io B) : io B :=
  fun log =>
    match m log with
    | (log', Ok a) => k a log'
    | (log', Raise e) => (log', Raise e)
    end.

Definition io_lift {A : Type} (r : result A) : io A := fun log => (log, r).

(** A remote call: it is logged, then answers or raises. *)
Definition io_call {A : Type} (call : remote_call) (answer : result A) : io A :=
  fun log => (log ++ [call], answer).

Notation "x <~ m ;; k" := (io_bind m (fun x => k))
  (at level 61, m at next level, right associativity).

(** Python's newline *)
Definition nl : string := String (ascii_of_nat 10) "".

(** [sep.join(parts)] *)
Definition join (sep : string) (parts : list string) : string := String.concat sep parts.

(** A call that unpacks two keyword dictionaries [a] and [b] next to the
    explicit keywords [taken]: a keyword given twice is a [TypeError] raised by
    the call itself, before the callee runs. *)
Fixpoint merge_kwargs (taken : list string) (a b : Py.dict json) : result (Py.dict json) :=
  match b with
  | [] =>
      if existsb (fun k => Py.mem k a) taken then Raise TypeError else Ok a
  | (k, v) :: b' =>
      if Py.mem k a then Raise TypeError
      else merge_kwargs taken (a ++ [(k, v)]) b'
  end.

Definition credentials : Type := Py.dict string.

(** ** Extraction of tool calls from a response *)

Definition _extract_response_tool_calls
    (response_tool_calls : list ChoiceDeltaToolCall.t) : list ToolCall.t :=
  flat_map
    (fun response_tool_call =>
       match ChoiceDeltaToolCall.function response_tool_call with
       | Some f =>
           [{| ToolCall.id := Py.or_empty (ChoiceDeltaToolCall.id response_tool_call);
               ToolCall.type := Py.or_empty (ChoiceDeltaToolCall.type response_tool_call);
               ToolCall.function :=
                 {| ToolCallFunction.name :=
                      Py.or_empty (ChoiceDeltaToolCallFunction.name f);
                    ToolCallFunction.arguments :=
                      Py.or_empty (ChoiceDeltaToolCallFunction.arguments f) |} |}]
       | None => []
       end)
    response_tool_calls.

Definition _extract_response_function_call
    (response_function_call : option ChoiceDeltaFunctionCall.t) : option ToolCall.t :=
  match response_function_call with
  | Some fc =>
      Some {| ToolCall.id := Py.or_empty (ChoiceDeltaFunctionCall.name fc);
              ToolCall.type := "function";
              ToolCall.function :=
                {| ToolCallFunction.name := Py.or_empty (ChoiceDeltaFunctionCall.name fc);
                   ToolCallFunction.arguments :=
                     Py.or_empty (ChoiceDeltaFunctionCall.arguments fc) |} |}
  | None => None
  end.

(** ** Chat stream aggregator: the tool-call map *)

(** [aggregated_tool_calls]: keyed by integer index, in first-seen order. *)
Definition tool_call_map : Type := list (Z * ChoiceDeltaToolCall.t).

Fixpoint map_get (index : Z) (m : tool_call_map) : option ChoiceDeltaToolCall.t :=
  match m with
  | [] => None
  | (i, c) :: m' => if (i =? index)%Z then Some c else map_get index m'
  end.

Fixpoint map_replace (index : Z) (c : ChoiceDeltaToolCall.t) (m : tool_call_map)
  : tool_call_map :=
  match m with
  | [] => []
  | (i, c') :: m' =>
      if (i =? index)%Z then (i, c) :: m' else (i, c') :: map_replace index c m'
  end.

(** [list(aggregated_tool_calls.values())] *)
Definition map_values (m : tool_call_map) : list ChoiceDeltaToolCall.t := map snd m.

(** The body of the [elif] branch: the fields of the fragment that are set
    update the stored call.  Writing through a stored call without a
    [function], or appending to stored arguments that are [None], raises. *)
Definition merge_tool_call (existing_call tool_call_chunk : ChoiceDeltaToolCall.t)
  : result ChoiceDeltaToolCall.t :=
  let id := if Py.truthy (ChoiceDeltaToolCall.id tool_call_chunk)
            then ChoiceDeltaToolCall.id tool_call_chunk
            else ChoiceDeltaToolCall.id existing_call in
  let type := if Py.truthy (ChoiceDeltaToolCall.type tool_call_chunk)
              then ChoiceDeltaToolCall.type tool_call_chunk
              else ChoiceDeltaToolCall.type existing_call in
  function <-
    match ChoiceDeltaToolCall.function tool_call_chunk with
    | None => Ok (ChoiceDeltaToolCall.function existing_call)
    | Some f =>
        named <-
          (if Py.truthy (ChoiceDeltaToolCallFunction.name f)
           then match ChoiceDeltaToolCall.function existing_call with
                | None => Raise AttributeError
                | Some ef =>
                    Ok (Some {| ChoiceDeltaToolCallFunction.name :=
                                  ChoiceDeltaToolCallFunction.name f;
                                ChoiceDeltaToolCallFunction.arguments :=
                                  ChoiceDeltaToolCallFunction.arguments ef |})
                end
           else Ok (ChoiceDeltaToolCall.function existing_call)) ;;
        if Py.truthy (ChoiceDeltaToolCallFunction.arguments f)
        then match named with
             | None => Raise AttributeError
             | Some ef =>
                 match ChoiceDeltaToolCallFunction.arguments ef with
                 | None => Raise TypeError
                 | Some a =>
                     Ok (Some {| ChoiceDeltaToolCallFunction.name :=
                                   ChoiceDeltaToolCallFunction.name ef;
                                 ChoiceDeltaToolCallFunction.arguments :=
                                   Some (a ++ Py.or_empty
                                           (ChoiceDeltaToolCallFunction.arguments f))%string |})
                 end
             end
        else Ok named
    end ;;
  Ok {| ChoiceDeltaToolCall.index := ChoiceDeltaToolCall.index existing_call;
        ChoiceDeltaToolCall.id := id;
        ChoiceDeltaToolCall.type := type;
        ChoiceDeltaToolCall.function := function |}.

(** One iteration of the loop over the tool-call fragments of a chunk. *)
Definition aggregate_tool_call (aggregated_tool_calls : tool_call_map)
    (tool_call_chunk : ChoiceDeltaToolCall.t) : result tool_call_map :=
  let index := ChoiceDeltaToolCall.index tool_call_chunk in
  match map_get index aggregated_tool_calls with
  | None =>
      if Py.truthy (ChoiceDeltaToolCall.id tool_call_chunk)
      then Ok (aggregated_tool_calls ++ [(index, tool_call_chunk)])
      else Ok aggregated_tool_calls
  | Some existing_call =>
      merged <- merge_tool_call existing_call tool_call_chunk ;;
      Ok (map_replace index merged aggregated_tool_calls)
  end.

Fixpoint aggregate_tool_calls (aggregated_tool_calls : tool_call_map)
    (chunks : list ChoiceDeltaToolCall.t) : result tool_call_map :=
  match chunks with
  | [] => Ok aggregated_tool_calls
  | c :: cs =>
      m <- aggregate_tool_call aggregated_tool_calls c ;;
      aggregate_tool_calls m cs
  end.

(** ** Chat stream aggregator: the legacy function-call buffer *)

(** How the legacy branch leaves an iteration: [Suspend] is its [continue],
    [Proceed] goes on with the function call to extract.  Both carry the new
    value of [delta_assistant_message_function_call_storage]. *)
Inductive legacy_flow : Type :=
| Suspend (storage : option ChoiceDeltaFunctionCall.t)
| Proceed (storage : option ChoiceDeltaFunctionCall.t)
    (assistant_message_function_call : option ChoiceDeltaFunctionCall.t).

Definition legacy_function_call
    (storage assistant_message_function_call : option ChoiceDeltaFunctionCall.t)
    (has_finish_reason : bool) : result legacy_flow :=
  match storage with
  | Some stored =>
      match assistant_message_function_call with
      | Some fc =>
          match ChoiceDeltaFunctionCall.arguments stored,
                ChoiceDeltaFunctionCall.arguments fc with
          | Some a, Some b =>
              Ok (Suspend
                    (Some {| ChoiceDeltaFunctionCall.name := ChoiceDeltaFunctionCall.name stored;
                             ChoiceDeltaFunctionCall.arguments := Some (a ++ b)%string |}))
          | _, _ => Raise AssertionError
          end
      | None => Ok (Proceed None (Some stored))
      end
  | None =>
      match assistant_message_function_call with
      | Some fc =>
          let opened :=
            {| ChoiceDeltaFunctionCall.name := ChoiceDeltaFunctionCall.name fc;
               ChoiceDeltaFunctionCall.arguments :=
                 Some (Py.or_empty (ChoiceDeltaFunctionCall.arguments fc)) |} in
          if negb has_finish_reason
          then Ok (Suspend (Some opened))
          else Ok (Proceed (Some opened) (Some opened))
      | None => Ok (Proceed None None)
      end
  end.

(** ** Chat stream aggregator: the loop *)

(** [has_finish_reason], with the special case for the yi- models *)
Definition has_finish_reason (model : string) (finish_reason : option string) : bool :=
  match finish_reason with
  | None => false
  | Some r =>
      if Py.startswith "yi-" model
      then Py.startswith_any ["length"; "stop"; "content_filter"] r
      else true
  end.

(** [finish_reason == r] *)
Definition finish_reason_is (finish_reason : option string) (r : string) : bool :=
  match finish_reason with
  | Some r' => r' =? r
  | None => false
  end.

Definition is_none {A : Type} (o : option A) : bool :=
  match o with
  | None => true
  | Some _ => false
  end.

(** The local variables of [_handle_chat_generate_stream_response] that live
    across iterations. *)
Module ChatState.
Record t (U : Type) : Type :=
  { full_assistant_content : string;
    delta_assistant_message_function_call_storage : option ChoiceDeltaFunctionCall.t;
    prompt_tokens : Z;
    completion_tokens : Z;
    final_tool_calls : list ToolCall.t;
    aggregated_tool_calls : tool_call_map;
    final_chunk : LLMResultChunk.t U }.
End ChatState.

(** ** Model schemas (dify_plugin.entities.model) *)

(** A price list; the decimals are kept as their literals. *)
Module PriceConfig.
Record t : Type :=
  { input : string; output : string; unit : string; currency : string }.
End PriceConfig.

Module I18nObject.
Record t : Type := { zh_Hans : string; en_US : string }.
End I18nObject.

Inductive FetchFrom : Type :=
| PREDEFINED_MODEL
| CUSTOMIZABLE_MODEL.

(** The schema of a model, over the framework's types of model types,
    features, model properties and parameter rules. *)
Module AIModelEntity.
Record t (T F P R : Type) : Type :=
  { model : string;
    label : I18nObject.t;
    model_type : T;
    features : F;
    fetch_from : FetchFrom;
    model_properties : P;
    parameter_rules : R;
    pricing : option PriceConfig.t }.
End AIModelEntity.

Section Handlers.

Variable U : Type.
(** The framework's usage record builder. *)
Variable _calc_response_usage : string -> credentials -> Z -> Z -> U.
Variable encoding_for_model : string -> option Encoding.t.
Variable get_encoding : string -> Encoding.t.
Variable py_repr : json -> string.

Definition initial_final_chunk (model : string) (prompt_messages : list PromptMessage)
  : LLMResultChunk.t U :=
  {| LLMResultChunk.model := model;
     LLMResultChunk.prompt_messages := prompt_messages;
     LLMResultChunk.system_fingerprint := None;
     LLMResultChunk.delta :=
       {| LLMResultChunkDelta.index := 0;
          LLMResultChunkDelta.message := AssistantPromptMessage (CStr "") None [];
          LLMResultChunkDelta.finish_reason := None;
          LLMResultChunkDelta.usage := None |} |}.

Definition chat_initial_state (model : string) (prompt_messages : list PromptMessage)
  : ChatState.t U :=
  {| ChatState.full_assistant_content := "";
     ChatState.delta_assistant_message_function_call_storage := None;
     ChatState.prompt_tokens := 0;
     ChatState.completion_tokens := 0;
     ChatState.final_tool_calls := [];
     ChatState.aggregated_tool_calls := [];
     ChatState.final_chunk := initial_final_chunk model prompt_messages |}.

(** The chunk built from a fragment and its first choice. *)
Definition result_chunk (prompt_messages : list PromptMessage)
    (chunk : ChatCompletionChunk.t) (delta : Choice.t)
    (message : PromptMessage) (finish_reason : option string) : LLMResultChunk.t U :=
  {| LLMResultChunk.model := ChatCompletionChunk.model chunk;
     LLMResultChunk.prompt_messages := prompt_messages;
     LLMResultChunk.system_fingerprint := ChatCompletionChunk.system_fingerprint chunk;
     LLMResultChunk.delta :=
       {| LLMResultChunkDelta.index := Choice.index delta;
          LLMResultChunkDelta.message := message;
          LLMResultChunkDelta.finish_reason := finish_reason;
          LLMResultChunkDelta.usage := None |} |}.

(** The part of an iteration after the legacy branch: the extracted
    [tool_calls] and the new buffer are known. *)
Definition chat_stream_emit (prompt_messages : list PromptMessage)
    (st : ChatState.t U) (chunk : ChatCompletionChunk.t) (delta : Choice.t)
    (has_finish : bool)
    (storage : option ChoiceDeltaFunctionCall.t) (tool_calls : list ToolCall.t)
  : result (ChatState.t U * list (LLMResultChunk.t U)) :=
  let final_tool_calls := ChatState.final_tool_calls st ++ tool_calls in
  aggregated <-
    match ChoiceDelta.tool_calls (Choice.delta delta) with
    | Some (c :: cs) => aggregate_tool_calls (ChatState.aggregated_tool_calls st) (c :: cs)
    | _ => Ok (ChatState.aggregated_tool_calls st)
    end ;;
  if has_finish && finish_reason_is (Choice.finish_reason delta) "tool_calls"
  then
    let tool_calls := _extract_response_tool_calls (map_values aggregated) in
    Ok ({| ChatState.full_assistant_content := ChatState.full_assistant_content st;
           ChatState.delta_assistant_message_function_call_storage := storage;
           ChatState.prompt_tokens := ChatState.prompt_tokens st;
           ChatState.completion_tokens := ChatState.completion_tokens st;
           ChatState.final_tool_calls := final_tool_calls ++ tool_calls;
           ChatState.aggregated_tool_calls := aggregated;
           ChatState.final_chunk := ChatState.final_chunk st |},
        [result_chunk prompt_messages chunk delta
           (AssistantPromptMessage (CStr "") None tool_calls) (Some "tool_calls")])
  else
    let content := Py.or_empty (ChoiceDelta.content (Choice.delta delta)) in
    let assistant_prompt_message := AssistantPromptMessage (CStr content) None [] in
    let held := result_chunk prompt_messages chunk delta assistant_prompt_message
                  (Choice.finish_reason delta) in
    Ok ({| ChatState.full_assistant_content :=
             (ChatState.full_assistant_content st ++ content)%string;
           ChatState.delta_assistant_message_function_call_storage := storage;
           ChatState.prompt_tokens := ChatState.prompt_tokens st;
           ChatState.completion_tokens := ChatState.completion_tokens st;
           ChatState.final_tool_calls := final_tool_calls;
           ChatState.aggregated_tool_calls := aggregated;
           ChatState.final_chunk :=
             if has_finish then held else ChatState.final_chunk st |},
        if has_finish then []
        else [result_chunk prompt_messages chunk delta assistant_prompt_message None]).

Definition with_storage (st : ChatState.t U)
    (storage : option ChoiceDeltaFunctionCall.t) : ChatState.t U :=
  {| ChatState.full_assistant_content := ChatState.full_assistant_content st;
     ChatState.delta_assistant_message_function_call_storage := storage;
     ChatState.prompt_tokens := ChatState.prompt_tokens st;
     ChatState.completion_tokens := ChatState.completion_tokens st;
     ChatState.final_tool_calls := ChatState.final_tool_calls st;
     ChatState.aggregated_tool_calls := ChatState.aggregated_tool_calls st;
     ChatState.final_chunk := ChatState.final_chunk st |}.

Definition with_usage (st : ChatState.t U) (usage : CompletionUsage.t) : ChatState.t U :=
  {| ChatState.full_assistant_content := ChatState.full_assistant_content st;
     ChatState.delta_assistant_message_function_call_storage :=
       ChatState.delta_assistant_message_function_call_storage st;
     ChatState.prompt_tokens := CompletionUsage.prompt_tokens usage;
     ChatState.completion_tokens := CompletionUsage.completion_tokens usage;
     ChatState.final_tool_calls := ChatState.final_tool_calls st;
     ChatState.aggregated_tool_calls := ChatState.aggregated_tool_calls st;
     ChatState.final_chunk := ChatState.final_chunk st |}.

(** One iteration of [for chunk in response]: the new state and the chunks
    yielded during it (none or one). *)
Definition chat_stream_step (model : string) (prompt_messages : list PromptMessage)
    (st : ChatState.t U) (chunk : ChatCompletionChunk.t)
  : result (ChatState.t U * list (LLMResultChunk.t U)) :=
  match ChatCompletionChunk.choices chunk with
  | [] =>
      Ok (match ChatCompletionChunk.usage chunk with
          | Some usage => with_usage st usage
          | None => st
          end, [])
  | delta :: _ =>
      let has_finish := has_finish_reason model (Choice.finish_reason delta) in
      let d := Choice.delta delta in
      if negb has_finish
         && negb (Py.truthy (ChoiceDelta.content d))
         && is_none (ChoiceDelta.tool_calls d)
         && is_none (ChoiceDelta.function_call d)
      then Ok (st, [])
      else
        match ChoiceDelta.tool_calls d with
        | Some (c :: cs) =>
            chat_stream_emit prompt_messages st chunk delta has_finish
              (ChatState.delta_assistant_message_function_call_storage st)
              (_extract_response_tool_calls (c :: cs))
        | _ =>
            flow <- legacy_function_call
                      (ChatState.delta_assistant_message_function_call_storage st)
                      (ChoiceDelta.function_call d) has_finish ;;
            match flow with
            | Suspend storage => Ok (with_storage st storage, [])
            | Proceed storage assistant_message_function_call =>
                chat_stream_emit prompt_messages st chunk delta has_finish storage
                  (match _extract_response_function_call assistant_message_function_call with
                   | Some function_call => [function_call]
                   | None => []
                   end)
            end
        end
  end.

(** The [for] loop: the chunks yielded, and the state it ends in or the
    exception that stops it. *)
Fixpoint chat_stream_loop (model : string) (prompt_messages : list PromptMessage)
    (st : ChatState.t U) (response : list ChatCompletionChunk.t)
  : list (LLMResultChunk.t U) * result (ChatState.t U) :=
  match response with
  | [] => ([], Ok st)
  | chunk :: rest =>
      match chat_stream_step model prompt_messages st chunk with
      | Raise e => ([], Raise e)
      | Ok (st', out) =>
          let '(more, r) := chat_stream_loop model prompt_messages st' rest in
          (out ++ more, r)
      end
  end.

(** The code after the loop: the counters the wire left at zero are estimated,
    and the held final chunk receives the usage. *)
Definition chat_stream_final (model : string) (creds : credentials)
    (prompt_messages : list PromptMessage) (tools : option (list PromptMessageTool.t))
    (st : ChatState.t U) : result (LLMResultChunk.t U) :=
  prompt_tokens <-
    (if (ChatState.prompt_tokens st =? 0)%Z
     then _num_tokens_from_messages encoding_for_model get_encoding py_repr
            model prompt_messages tools
     else Ok (ChatState.prompt_tokens st)) ;;
  completion_tokens <-
    (if (ChatState.completion_tokens st =? 0)%Z
     then _num_tokens_from_messages encoding_for_model get_encoding py_repr model
            [AssistantPromptMessage (CStr (ChatState.full_assistant_content st)) None
               (ChatState.final_tool_calls st)]
            None
     else Ok (ChatState.completion_tokens st)) ;;
  let usage := _calc_response_usage model creds prompt_tokens completion_tokens in
  Ok (set_usage (ChatState.final_chunk st) usage).

Definition _handle_chat_generate_stream_response (model : string) (creds : credentials)
    (response : list ChatCompletionChunk.t) (prompt_messages : list PromptMessage)
    (tools : option (list PromptMessageTool.t)) : Generator.t (LLMResultChunk.t U) :=
  match chat_stream_loop model prompt_messages
          (chat_initial_state model prompt_messages) response with
  | (chunks, Raise e) => {| Generator.yielded := chunks; Generator.raised := Some e |}
  | (chunks, Ok st) =>
      match chat_stream_final model creds prompt_messages tools st with
      | Raise e => {| Generator.yielded := chunks; Generator.raised := Some e |}
      | Ok final_chunk =>
          {| Generator.yielded := chunks ++ [final_chunk]; Generator.raised := None |}
      end
  end.

(** ** Text-completion stream handler *)

Definition text_result_chunk (prompt_messages : list PromptMessage)
    (chunk : Completion.t) (delta : CompletionChoice.t)
    (message : PromptMessage) (finish_reason : option string) : LLMResultChunk.t U :=
  {| LLMResultChunk.model := Completion.model chunk;
     LLMResultChunk.prompt_messages := prompt_messages;
     LLMResultChunk.system_fingerprint := Completion.system_fingerprint chunk;
     LLMResultChunk.delta :=
       {| LLMResultChunkDelta.index := CompletionChoice.index delta;
          LLMResultChunkDelta.message := message;
          LLMResultChunkDelta.finish_reason := finish_reason;
          LLMResultChunkDelta.usage := None |} |}.

(** The locals of [_handle_generate_stream_response]: [full_text],
    [prompt_tokens], [completion_tokens], [final_chunk]. *)
Definition text_state : Type := (string * Z * Z * LLMResultChunk.t U)%type.

Definition text_stream_step (prompt_messages : list PromptMessage)
    (st : text_state) (chunk : Completion.t)
  : text_state * list (LLMResultChunk.t U) :=
  let '(full_text, prompt_tokens, completion_tokens, final_chunk) := st in
  match Completion.choices chunk with
  | [] =>
      (match Completion.usage chunk with
       | Some usage =>
           (full_text, CompletionUsage.prompt_tokens usage,
            CompletionUsage.completion_tokens usage, final_chunk)
       | None => st
       end, [])
  | delta :: _ =>
      if is_none (CompletionChoice.finish_reason delta)
         && negb (Py.truthy (CompletionChoice.text delta))
      then (st, [])
      else
        let text := if Py.truthy (CompletionChoice.text delta)
                    then Py.or_empty (CompletionChoice.text delta) else "" in
        let assistant_prompt_message := AssistantPromptMessage (CStr text) None [] in
        let full_text := (full_text ++ text)%string in
        match CompletionChoice.finish_reason delta with
        | Some _ =>
            ((full_text, prompt_tokens, completion_tokens,
              text_result_chunk prompt_messages chunk delta assistant_prompt_message
                (CompletionChoice.finish_reason delta)), [])
        | None =>
            ((full_text, prompt_tokens, completion_tokens, final_chunk),
             [text_result_chunk prompt_messages chunk delta assistant_prompt_message None])
        end
  end.

Fixpoint text_stream_loop (prompt_messages : list PromptMessage)
    (st : text_state) (response : list Completion.t)
  : list (LLMResultChunk.t U) * text_state :=
  match response with
  | [] => ([], st)
  | chunk :: rest =>
      let '(st', out) := text_stream_step prompt_messages st chunk in
      let '(more, final) := text_stream_loop prompt_messages st' rest in
      (out ++ more, final)
  end.

(** [prompt_messages[0].content], asserted to be a [str] *)
Definition first_prompt_text (prompt_messages : list PromptMessage) : result string :=
  m <- Py.index prompt_messages 0 ;;
  match message_content m with
  | CStr s => Ok s
  | _ => Raise AssertionError
  end.

Definition text_stream_final (model : string) (creds : credentials)
    (prompt_messages : list PromptMessage) (st : text_state)
  : result (LLMResultChunk.t U) :=
  let '(full_text, prompt_tokens, completion_tokens, final_chunk) := st in
  prompt_tokens <-
    (if (prompt_tokens =? 0)%Z
     then content <- first_prompt_text prompt_messages ;;
          _num_tokens_from_string encoding_for_model get_encoding py_repr model content None
     else Ok prompt_tokens) ;;
  completion_tokens <-
    (if (completion_tokens =? 0)%Z
     then _num_tokens_from_string encoding_for_model get_encoding py_repr model full_text None
     else Ok completion_tokens) ;;
  let usage := _calc_response_usage model creds prompt_tokens completion_tokens in
  Ok (set_usage final_chunk usage).

Definition _handle_generate_stream_response (model : string) (creds : credentials)
    (response : list Completion.t) (prompt_messages : list PromptMessage)
  : Generator.t (LLMResultChunk.t U) :=
  let '(chunks, st) :=
    text_stream_loop prompt_messages
      ("", 0, 0, initial_final_chunk model prompt_messages) response in
  match text_stream_final model creds prompt_messages st with
  | Raise e => {| Generator.yielded := chunks; Generator.raised := Some e |}
  | Ok final_chunk =>
      {| Generator.yielded := chunks ++ [final_chunk]; Generator.raised := None |}
  end.

(** ** Block responses *)

Definition _handle_chat_generate_response (model : string) (creds : credentials)
    (response : ChatCompletion.t) (prompt_messages : list PromptMessage)
    (tools : option (list PromptMessageTool.t)) : result (LLMResult.t U) :=
  assistant_message <- Py.index (ChatCompletion.choices response) 0 ;;
  let tool_calls :=
    match ChatCompletionMessage.tool_calls assistant_message with
    | Some (c :: cs) => _extract_response_tool_calls (c :: cs)
    | _ =>
        match _extract_response_function_call
                (ChatCompletionMessage.function_call assistant_message) with
        | Some function_call => [function_call]
        | None => []
        end
    end in
  let assistant_prompt_message :=
    AssistantPromptMessage
      (match ChatCompletionMessage.content assistant_message with
       | Some s => CStr s
       | None => CNone
       end) None tool_calls in
  counts <-
    match ChatCompletion.usage response with
    | Some usage =>
        Ok (CompletionUsage.prompt_tokens usage, CompletionUsage.completion_tokens usage)
    | None =>
        prompt_tokens <- _num_tokens_from_messages encoding_for_model get_encoding py_repr
                           model prompt_messages tools ;;
        completion_tokens <- _num_tokens_from_messages encoding_for_model get_encoding
                               py_repr model [assistant_prompt_message] None ;;
        Ok (prompt_tokens, completion_tokens)
    end ;;
  Ok {| LLMResult.model := ChatCompletion.model response;
        LLMResult.prompt_messages := prompt_messages;
        LLMResult.message := assistant_prompt_message;
        LLMResult.usage := Some (_calc_response_usage model creds (fst counts) (snd counts));
        LLMResult.system_fingerprint := ChatCompletion.system_fingerprint response |}.

(** ** Chat dispatcher *)

(** [json.loads], [None] where it raises. *)
Variable json_loads : string -> option json.
(** Building the client object from the credentials (the helper that turns
    them into keyword arguments is in the common module); no request is sent
    by it. *)
Variable new_client : credentials -> result unit.
(** The remote client. *)
Variable chat_completions_create :
  list message_dict -> string -> forall stream : bool, Py.dict json ->
  result (chat_response stream).
Variable responses_create : string -> string -> Py.dict json -> result Response.t.

Definition is_user (m : PromptMessage) : bool :=
  match m with
  | UserPromptMessage _ _ => true
  | _ => false
  end.

Definition _clear_illegal_prompt_messages (model : string)
    (prompt_messages : list PromptMessage) : list PromptMessage :=
  if existsb (fun m => m =? model) ["gpt-4-turbo"; "gpt-4-turbo-2024-04-09"]
     && (1 <? List.length (filter is_user prompt_messages))%nat
  then
    map (fun prompt_message =>
           match prompt_message with
           | UserPromptMessage (CParts parts) name =>
               UserPromptMessage
                 (CStr (join nl
                          (map (fun item =>
                                  match item with
                                  | TextPromptMessageContent data => data
                                  | ImagePromptMessageContent _ _ => "[IMAGE]"
                                  | _ => ""
                                  end) parts)))
                 name
           | _ => prompt_message
           end)
        prompt_messages
  else prompt_messages.

(** The [response_format] block at the head of [_chat_generate]. *)
Definition prepare_response_format (model_parameters : Py.dict json)
  : result (Py.dict json) :=
  let drop_schema :=
    if Py.mem "json_schema" model_parameters
    then Py.del "json_schema" model_parameters
    else model_parameters in
  match Py.get "response_format" model_parameters with
  | Some response_format =>
      if json_truthy response_format
      then
        if json_is_str response_format "json_schema"
        then
          match Py.get "json_schema" model_parameters with
          | Some json_schema =>
              if json_truthy json_schema
              then
                match (match json_schema with
                       | JStr text => json_loads text
                       | _ => None
                       end) with
                | Some schema =>
                    Ok (Py.set "response_format"
                          (JObj [("type", JStr "json_schema"); ("json_schema", schema)])
                          (Py.del "json_schema" model_parameters))
                | None =>
                    Raise (ValueError ("not correct json_schema format: "
                                       ++ py_str py_repr json_schema)%string)
                end
              else Raise (ValueError
                            "Must define JSON Schema when the response format is json_schema")
          | None =>
              Raise (ValueError
                       "Must define JSON Schema when the response format is json_schema")
          end
        else
          Ok (Py.set "response_format" (JObj [("type", response_format)]) model_parameters)
      else Ok drop_schema
  | None => Ok drop_schema
  end.

Definition tool_payload (tool : PromptMessageTool.t) : json :=
  JObj [("type", JStr "function");
        ("function",
         JObj [("name", JStr (PromptMessageTool.name tool));
               ("description", JStr (PromptMessageTool.description tool));
               ("parameters", JObj (PromptMessageTool.parameters tool))])].

(** The role prefix of a message in the flat input of the responses
    endpoint. *)
Definition role_map (m : PromptMessage) : option string :=
  match m with
  | UserPromptMessage _ _ => Some "user"
  | AssistantPromptMessage _ _ _ => Some "assistant"
  | ToolPromptMessage _ _ _ => Some "tool"
  | _ => None
  end.

Definition input_part (m : PromptMessage) : list string :=
  match role_map m with
  | None => []
  | Some role =>
      let content_str :=
        match message_content m with
        | CStr s => s
        | CParts parts =>
            join nl (flat_map (fun item =>
                                 match item with
                                 | TextPromptMessageContent data => [data]
                                 | _ => []
                                 end) parts)
        | CNone => ""
        end in
      if content_str =? "" then [] else [(role ++ ": " ++ content_str)%string]
  end.

Definition _chat_generate_o3_pro (model : string) (creds : credentials)
    (prompt_messages : list PromptMessage) (model_parameters : Py.dict json)
    (user : option string) : io (LLMResult.t U) :=
  let final_input := join (nl ++ nl)%string (flat_map input_part prompt_messages) in
  let response_params :=
    match Py.get "max_completion_tokens" model_parameters with
    | Some v => Py.set "max_output_tokens" v (Py.del "max_completion_tokens" model_parameters)
    | None => model_parameters
    end in
  let response_params :=
    if Py.truthy user then Py.set "user" (JStr (Py.or_empty user)) response_params
    else response_params in
  kwargs <~ io_lift (merge_kwargs ["model"; "input"] response_params []) ;;
  resp_obj <~ io_call (ResponsesCreate model final_input kwargs)
                (responses_create model final_input kwargs) ;;
  let text_content := Py.or_empty (Response.output_text resp_obj) in
  io_ret
    {| LLMResult.model := Response.model resp_obj;
       LLMResult.prompt_messages := prompt_messages;
       LLMResult.message := AssistantPromptMessage (CStr text_content) None [];
       LLMResult.usage :=
         match Response.usage resp_obj with
         | Some usage =>
             Some (_calc_response_usage model creds
                     (ResponseUsage.input_tokens usage) (ResponseUsage.output_tokens usage))
         | None => None
         end;
       LLMResult.system_fingerprint := None |}.

Definition O_SERIES_COMPATIBILITY : list string := ["o1"; "o3"; "o4"].

Definition _chat_generate (model : string) (creds : credentials)
    (prompt_messages : list PromptMessage) (model_parameters : Py.dict json)
    (tools : option (list PromptMessageTool.t)) (stop : option (list string))
    (stream : bool) (user : option string) : io (generate_result U) :=
  client <~ io_lift (new_client creds) ;;
  model_parameters <~ io_lift (prepare_response_format model_parameters) ;;
  let extra_model_kwargs : Py.dict json := [] in
  let extra_model_kwargs :=
    match tools_given tools with
    | Some tools => Py.set "tools" (JArr (map tool_payload tools)) extra_model_kwargs
    | None => extra_model_kwargs
    end in
  let model_parameters :=
    match tools_given tools with
    | Some _ =>
        if Py.mem "tool_choice" model_parameters then model_parameters
        else Py.set "tool_choice" (JStr "auto") model_parameters
    | None => model_parameters
    end in
  let extra_model_kwargs :=
    match stop with
    | Some (w :: ws) => Py.set "stop" (JArr (map JStr (w :: ws))) extra_model_kwargs
    | _ => extra_model_kwargs
    end in
  let extra_model_kwargs :=
    if Py.truthy user then Py.set "user" (JStr (Py.or_empty user)) extra_model_kwargs
    else extra_model_kwargs in
  let extra_model_kwargs :=
    if stream
    then Py.set "stream_options" (JObj [("include_usage", JBool true)]) extra_model_kwargs
    else extra_model_kwargs in
  let prompt_messages := _clear_illegal_prompt_messages model prompt_messages in
  let o_series := Py.startswith_any O_SERIES_COMPATIBILITY model in
  let model_parameters :=
    if o_series
    then match Py.get "max_tokens" model_parameters with
         | Some v => Py.del "max_tokens" (Py.set "max_completion_tokens" v model_parameters)
         | None => model_parameters
         end
    else model_parameters in
  let extra_model_kwargs :=
    if o_series && Py.mem "stop" extra_model_kwargs
    then Py.del "stop" extra_model_kwargs
    else extra_model_kwargs in
  if Py.contains "o3-pro" model
  then
    block_result <~ _chat_generate_o3_pro model creds prompt_messages model_parameters user ;;
    io_ret (BlockResult block_result)
  else
    messages <~ io_lift (mapM _convert_prompt_message_to_dict prompt_messages) ;;
    kwargs <~ io_lift (merge_kwargs ["messages"; "model"; "stream"]
                         model_parameters extra_model_kwargs) ;;
    if stream
    then
      response <~ io_call (ChatCompletionsCreate messages model true kwargs)
                    (chat_completions_create messages model true kwargs) ;;
      io_ret (StreamResult
                (_handle_chat_generate_stream_response model creds response
                   prompt_messages tools))
    else
      response <~ io_call (ChatCompletionsCreate messages model false kwargs)
                    (chat_completions_create messages model false kwargs) ;;
      block_result <~ io_lift (_handle_chat_generate_response model creds response
                                 prompt_messages tools) ;;
      io_ret (BlockResult block_result).

(** ** Observations on chunks and stored calls *)

Definition has_usage (chunk : LLMResultChunk.t U) : bool :=
  negb (is_none (chunk_usage chunk)).

(** The number of usage-bearing chunks of a sequence. *)
Definition usage_count (chunks : list (LLMResultChunk.t U)) : nat :=
  List.length (filter has_usage chunks).

Definition chunk_finish_reason (chunk : LLMResultChunk.t U) : option string :=
  LLMResultChunkDelta.finish_reason (LLMResultChunk.delta chunk).

Definition chunk_tool_calls (chunk : LLMResultChunk.t U) : list ToolCall.t :=
  message_tool_calls (LLMResultChunkDelta.message (LLMResultChunk.delta chunk)).


(** [tool_call.function.name] and [tool_call.function.arguments] of a stored
    or streamed call, [None] when there is no [function]. *)
Definition call_name (c : ChoiceDeltaToolCall.t) : option string :=
  match ChoiceDeltaToolCall.function c with
  | Some f => ChoiceDeltaToolCallFunction.name f
  | None => None
  end.

Definition call_arguments (c : ChoiceDeltaToolCall.t) : option string :=
  match ChoiceDeltaToolCall.function c with
  | Some f => ChoiceDeltaToolCallFunction.arguments f
  | None => None
  end.

(** The value a field has after a run of fragments: the last non-empty one,
    or the one it started with. *)
Definition last_set (start : option string) (arrivals : list (option string))
  : option string :=
  fold_left (fun acc x => if Py.truthy x then x else acc) arrivals start.

(** The strings of a list, concatenated in order. *)
Definition concat_all (l : list string) : string := fold_right String.append "" l.

(** The fragments of a run that are addressed to [index]. *)
Definition for_index (index : Z) (chunks : list ChoiceDeltaToolCall.t)
  : list ChoiceDeltaToolCall.t :=
  filter (fun c => (ChoiceDeltaToolCall.index c =? index)%Z) chunks.

Definition is_tool (m : PromptMessage) : bool :=
  match m with
  | ToolPromptMessage _ _ _ => true
  | _ => false
  end.


(** Messages whose wire record the estimator walks up to the tokenizer: the
    codec converts them (no user message without content, no audio part,
    whose payload is split on the base64 marker, no message class unknown to
    the codec), and the flattening of their lists does not fail (no tool call
    whose type is the literal [text]). *)
Definition estimable_part (p : PromptMessageContent) : bool :=
  match p with
  | AudioPromptMessageContent _ _ => false
  | _ => true
  end.

Definition estimable (m : PromptMessage) : bool :=
  match m with
  | UserPromptMessage (CStr _) _ => true
  | UserPromptMessage (CParts parts) _ => forallb estimable_part parts
  | UserPromptMessage CNone _ => false
  | AssistantPromptMessage _ _ tool_calls =>
      forallb (fun tc => negb (ToolCall.type tc =? "text")) tool_calls
  | SystemPromptMessage _ _ | ToolPromptMessage _ _ _ => true
  | OtherPromptMessage _ _ => false
  end.

(** What every chunk yielded inside the loop satisfies: no usage, and no tool
    calls unless it is the terminal tool-calls chunk. *)
Definition loop_chunk (chunk : LLMResultChunk.t U) : Prop :=
  chunk_usage chunk = None
  /\ (chunk_finish_reason chunk = Some "tool_calls" \/ chunk_tool_calls chunk = []).

(** What the held final chunk satisfies before the usage is attached. *)
Definition held_chunk (chunk : LLMResultChunk.t U) : Prop :=
  chunk_usage chunk = None /\ chunk_tool_calls chunk = [].

(** Fragments on which the loop of the chat handler cannot fail: a legacy
    function call comes with string arguments, and a tool-call fragment comes
    with a function that has string arguments. *)
Definition benign_tool_call (c : ChoiceDeltaToolCall.t) : bool :=
  negb (is_none (call_arguments c)).

Definition benign_delta (d : ChoiceDelta.t) : bool :=
  match ChoiceDelta.function_call d with
  | Some fc => negb (is_none (ChoiceDeltaFunctionCall.arguments fc))
  | None => true
  end
  && match ChoiceDelta.tool_calls d with
     | Some calls => forallb benign_tool_call calls
     | None => true
     end.

Definition benign (chunk : ChatCompletionChunk.t) : bool :=
  match ChatCompletionChunk.choices chunk with
  | [] => true
  | delta :: _ => benign_delta (Choice.delta delta)
  end.

(** States the loop reaches on benign fragments: the buffered legacy call and
    the stored tool calls have string arguments. *)
Definition sound_storage (storage : option ChoiceDeltaFunctionCall.t) : Prop :=
  forall stored, storage = Some stored ->
                 is_none (ChoiceDeltaFunctionCall.arguments stored) = false.

Definition sound_state (st : ChatState.t U) : Prop :=
  sound_storage (ChatState.delta_assistant_message_function_call_storage st)
  /\ Forall (fun kv => is_none (call_arguments (snd kv)) = false)
       (ChatState.aggregated_tool_calls st).

(** A completed call whose type is not the literal [text]. *)
Definition plain_type (tc : ToolCall.t) : bool := negb (ToolCall.type tc =? "text").

(** ** Sample inputs *)

(** A tokenizer with one token per character, known for the [gpt-] models;
    as the library's encodings do, it refuses a text that spells the special
    token [<|endoftext|>]. *)
Definition char_encoding : Encoding.t :=
  {| Encoding.encode :=
       fun s => if Py.contains "<|endoftext|>" s
                then None
                else Some (map (fun c => Z.of_nat (nat_of_ascii c))
                             (list_ascii_of_string s)) |}.

Definition sample_encoding_for_model (model : string) : option Encoding.t :=
  if Py.startswith "gpt-" model then Some char_encoding else None.

Definition sample_get_encoding (name : string) : Encoding.t := char_encoding.

Definition sample_repr (v : json) : string := "".

(** A usage record that keeps the two counts. *)
Definition sample_usage (model : string) (creds : credentials)
    (prompt_tokens completion_tokens : Z) : Z * Z :=
  (prompt_tokens, completion_tokens).

Definition hi_message : PromptMessage := UserPromptMessage (CStr "hi") None.

(** A chat fragment with one choice. *)
Definition fragment (delta : ChoiceDelta.t) (finish_reason : option string)
  : ChatCompletionChunk.t :=
  {| ChatCompletionChunk.choices :=
       [{| Choice.index := 0; Choice.delta := delta; Choice.finish_reason := finish_reason |}];
     ChatCompletionChunk.usage := None;
     ChatCompletionChunk.model := "gpt-4";
     ChatCompletionChunk.system_fingerprint := None |}.

Definition content_fragment (text : string) : ChatCompletionChunk.t :=
  fragment {| ChoiceDelta.content := Some text;
              ChoiceDelta.tool_calls := None;
              ChoiceDelta.function_call := None |} None.

(** The three fragments of a legacy function call. *)
Definition legacy_fragment (name arguments : option string) : ChatCompletionChunk.t :=
  fragment {| ChoiceDelta.content := None;
              ChoiceDelta.tool_calls := None;
              ChoiceDelta.function_call :=
                Some {| ChoiceDeltaFunctionCall.name := name;
                        ChoiceDeltaFunctionCall.arguments := arguments |} |} None.

Definition finish_fragment (reason : string) : ChatCompletionChunk.t :=
  fragment {| ChoiceDelta.content := None;
              ChoiceDelta.tool_calls := None;
              ChoiceDelta.function_call := None |} (Some reason).

(** A choice-less trailer carrying usage. *)
Definition usage_fragment (prompt_tokens completion_tokens : Z) : ChatCompletionChunk.t :=
  {| ChatCompletionChunk.choices := [];
     ChatCompletionChunk.usage :=
       Some {| CompletionUsage.prompt_tokens := prompt_tokens;
               CompletionUsage.completion_tokens := completion_tokens |};
     ChatCompletionChunk.model := "gpt-4";
     ChatCompletionChunk.system_fingerprint := None |}.

(** Fragments of a text completion. *)
Definition text_fragment (text : option string) (finish_reason : option string)
  : Completion.t :=
  {| Completion.choices :=
       [{| CompletionChoice.text := text;
           CompletionChoice.index := 0;
           CompletionChoice.finish_reason := finish_reason |}];
     Completion.usage := None;
     Completion.model := "gpt-3.5-turbo-instruct";
     Completion.system_fingerprint := None |}.

(** The legacy function call [f] with arguments [{}], streamed in three
    fragments, and in one block response. *)
Definition legacy_stream : list ChatCompletionChunk.t :=
  [legacy_fragment (Some "f") (Some "{"); legacy_fragment None (Some "}");
   finish_fragment "function_call"].

Definition legacy_completion : ChatCompletion.t :=
  {| ChatCompletion.choices :=
       [{| ChatCompletionMessage.content := None;
           ChatCompletionMessage.tool_calls := None;
           ChatCompletionMessage.function_call :=
             Some {| ChoiceDeltaFunctionCall.name := Some "f";
                     ChoiceDeltaFunctionCall.arguments := Some "{}" |} |}];
     ChatCompletion.usage := None;
     ChatCompletion.model := "gpt-4";
     ChatCompletion.system_fingerprint := None |}.

Definition tool_call_fragment (index : Z) (id name arguments : option string)
  : ChoiceDeltaToolCall.t :=
  {| ChoiceDeltaToolCall.index := index;
     ChoiceDeltaToolCall.id := id;
     ChoiceDeltaToolCall.type := None;
     ChoiceDeltaToolCall.function :=
       Some {| ChoiceDeltaToolCallFunction.name := name;
               ChoiceDeltaToolCallFunction.arguments := arguments |} |}.

Definition sample_new_client (creds : credentials) : result unit := Ok tt.

(** A transport that answers every request with an error. *)
Definition sample_chat_create (messages : list message_dict) (model : string)
    (stream : bool) (kwargs : Py.dict json) : result (chat_response stream) :=
  Raise (RemoteError "connection refused").

Definition sample_responses_create (model input : string) (kwargs : Py.dict json)
  : result Response.t :=
  Raise (RemoteError "connection refused").

Definition sample_json_loads (text : string) : option json :=
  if text =? "{}" then Some (JObj []) else None.

(** A stored call, a run of fragments that follows it, and the map the run
    leaves. *)
Definition sample_entry : ChoiceDeltaToolCall.t :=
  tool_call_fragment 0 (Some "call_1") (Some "get_weather") (Some "").



(** Parameters asking for a JSON schema that does not parse. *)
Definition sample_parameters : Py.dict json :=
  [("temperature", JFloat 7 (-1));
   ("response_format", JStr "json_schema");
   ("json_schema", JStr "{oops")].

Definition named_system_message : PromptMessage :=
  SystemPromptMessage (CStr "be brief") (Some "ops").

Definition named_tool_message : PromptMessage :=
  ToolPromptMessage (CStr "42") (Some "calculator") "call_1".

(** * Properties *)

Unset Implicit Arguments.

(** ** The error monad and the Python helpers *)

Lemma bind_ok {A B : Type} (m : result A) (k : A -> result B) (b : B) :
  bind m k = Ok b -> exists a, m = Ok a /\ k a = Ok b.
Proof.
  destruct m as [a|e]; simpl; intros H; [eauto | discriminate].
Qed.


Lemma get_set_same {V : Type} (k : string) (v : V) (d : Py.dict V) :
  Py.get k (Py.set k v d) = Some v.
Proof.
  induction d as [|[k' v'] d IH]; simpl.
  - now rewrite String.eqb_refl.
  - destruct (k' =? k) eqn:E; simpl.
    + now rewrite String.eqb_refl.
    + now rewrite E.
Qed.

Lemma get_set_other {V : Type} (k k0 : string) (v : V) (d : Py.dict V) :
  (k0 =? k) = false -> Py.get k (Py.set k0 v d) = Py.get k d.
Proof.
  intros Hne. induction d as [|[k' v'] d IH]; simpl.
  - now rewrite Hne.
  - destruct (k' =? k0) eqn:E; simpl.
    + apply String.eqb_eq in E; subst k'. now rewrite Hne.
    + destruct (k' =? k); [reflexivity | exact IH].
Qed.

Lemma sumM_ok {A : Type} (f : A -> result Z) (l : list A) :
  (forall x, In x l -> exists n, f x = Ok n) -> exists n, sumM f l = Ok n.
Proof.
  induction l as [|x l IH]; simpl; intros H.
  - eauto.
  - destruct (H x (or_introl eq_refl)) as [a Ha]. rewrite Ha; simpl.
    destruct IH as [b Hb]; [intros y Hy; apply H; now right |].
    rewrite Hb; simpl. eauto.
Qed.

Lemma mapM_ok {A B : Type} (f : A -> result B) (l : list A) :
  (forall x, In x l -> exists y, f x = Ok y) ->
  exists ys, mapM f l = Ok ys /\ (forall y, In y ys -> exists x, In x l /\ f x = Ok y).
Proof.
  induction l as [|x l IH]; simpl; intros H.
  - exists []. split; [reflexivity | intros y []].
  - destruct (H x (or_introl eq_refl)) as [y Hy]. rewrite Hy; simpl.
    destruct IH as [ys [Hys Hin]]; [intros z Hz; apply H; now right |].
    rewrite Hys; simpl. exists (y :: ys). split; [reflexivity |].
    intros z [<-|Hz]; [eauto | destruct (Hin z Hz) as [x' [Hx' Hf]]; eauto].
Qed.

Lemma split_aux_nonempty (sep : string) (s : string) :
  forall skip cur, exists x l, Py.split_aux sep skip cur s = x :: l.
Proof.
  induction s as [|c s IH]; intros skip cur; simpl.
  - eauto.
  - destruct skip as [|k]; [|apply IH].
    match goal with
    | |- context [if ?b then _ else _] => destruct b; [eauto | apply IH]
    end.
Qed.

(** A fine-tune name always has a second component, so the normalisation
    never raises. *)
Lemma normalize_model_total (model : string) :
  exists m, normalize_model model = Ok m.
Proof.
  unfold normalize_model.
  destruct (Py.startswith "ft:" model) eqn:E; [|simpl; eauto].
  destruct model as [|a [|b [|c rest]]]; cbn [Py.startswith] in E;
    rewrite ?andb_false_r in E; try discriminate.
  apply andb_true_iff in E as [Ea E]. apply andb_true_iff in E as [Eb E].
  apply andb_true_iff in E as [Ec _].
  apply Ascii.eqb_eq in Ea, Eb, Ec. subst a b c.
  unfold Py.split. simpl.
  destruct (split_aux_nonempty ":" rest 0 "") as [x [l Hx]].
  simpl in Hx. rewrite Hx. simpl. eauto.
Qed.

(** ** Message codec *)

(** Before the name is attached, the record of a message has no [name] key,
    and its role is [tool] exactly for a tool message. *)
Lemma convert_name_key (message : PromptMessage) (d : message_dict) :
  _convert_prompt_message_to_dict message = Ok d ->
  Py.get "name" d =
    if Py.truthy (message_name message) && negb (is_tool message)
    then Some (WStr (Py.or_empty (message_name message)))
    else None.
Proof.
  unfold _convert_prompt_message_to_dict. intros H.
  apply bind_ok in H as [d0 [Hd0 Hd]]. injection Hd as <-.
  assert (Hbase : Py.get "name" d0 = None
                  /\ is_wire_str (Py.get "role" d0) "tool" = is_tool message).
  { destruct message as [c n|c n tcs|c n|c n id|c n]; simpl in Hd0.
    - destruct c as [|s|parts]; try discriminate.
      + injection Hd0 as <-. split; reflexivity.
      + apply bind_ok in Hd0 as [subs [_ Hd0]]. injection Hd0 as <-.
        split; reflexivity.
    - injection Hd0 as <-. destruct tcs; split; reflexivity.
    - injection Hd0 as <-. split; reflexivity.
    - injection Hd0 as <-. split; reflexivity.
    - discriminate. }
  destruct Hbase as [Hname Hrole]. rewrite Hrole.
  destruct (Py.truthy (message_name message) && negb (is_tool message)).
  - apply get_set_same.
  - exact Hname.
Qed.

(** The codec fails only on user messages (missing content, an audio payload
    without the base64 marker) and on message classes it does not know. *)
Lemma convert_total (message : PromptMessage) :
  estimable message = true ->
  exists d, _convert_prompt_message_to_dict message = Ok d.
Proof.
  unfold _convert_prompt_message_to_dict.
  destruct message as [c n|c n tcs|c n|c n id|c n]; simpl; intros H;
    try discriminate; try (eexists; reflexivity).
  destruct c as [|s|parts]; try discriminate; [eexists; reflexivity|].
  assert (Hparts : exists subs, convert_content_parts parts = Ok subs).
  { induction parts as [|p ps IH]; simpl in *; [eauto|].
    apply andb_true_iff in H as [Hp Hps].
    destruct (IH Hps) as [subs Hsubs]. rewrite Hsubs.
    destruct p; try discriminate; simpl; eauto. }
  destruct Hparts as [subs ->]. simpl. eauto.
Qed.

(** C8.  Whenever the codec produces the wire record of a message: a
    non-empty name of a System, User or Assistant message (every message the
    codec converts that is not a Tool message) is in the record under [name],
    and the record of a Tool message has no [name] field, whether or not the
    message has a name. *)
Theorem name_attached_except_tool (message : PromptMessage) (d : message_dict) :
  _convert_prompt_message_to_dict message = Ok d ->
  (forall n, message_name message = Some n -> n <> "" -> is_tool message = false ->
             Py.get "name" d = Some (WStr n))
  /\ (is_tool message = true -> Py.get "name" d = None).
Proof.
  intros H. rewrite (convert_name_key _ _ H). split.
  - intros n Hn Hne Htool. rewrite Hn, Htool. simpl.
    destruct (n =? "") eqn:E; [apply String.eqb_eq in E; contradiction | reflexivity].
  - intros Htool. rewrite Htool, andb_false_r. reflexivity.
Qed.

(** ** Token estimator *)












(** Flattening what the codec builds never fails: content parts pass
    through, text sub-records add their text, tool-call records are skipped
    unless their type is the literal [text]. *)
Lemma flatten_objects (parts : list PromptMessageContent) (text : string) :
  flatten_items text (map ObjItem parts) = Ok text.
Proof.
  induction parts as [|p ps IH]; simpl; [reflexivity | exact IH].
Qed.

Lemma flatten_tool_calls (tool_calls : list ToolCall.t) (text : string) :
  forallb (fun tc => negb (ToolCall.type tc =? "text")) tool_calls = true ->
  flatten_items text (map tool_call_dict tool_calls) = Ok text.
Proof.
  induction tool_calls as [|tc tcs IH]; simpl; intros H; [reflexivity|].
  apply andb_true_iff in H as [Htc Htcs].
  destruct (ToolCall.type tc =? "") eqn:E; simpl; [auto|].
  apply negb_true_iff in Htc. rewrite Htc. auto.
Qed.

Lemma flatten_converted_parts (parts : list PromptMessageContent)
    (subs : list wire_item) :
  convert_content_parts parts = Ok subs ->
  forall text, exists t, flatten_items text subs = Ok t.
Proof.
  revert subs. induction parts as [|p ps IH]; simpl; intros subs H text.
  - injection H as <-. simpl. eauto.
  - apply bind_ok in H as [o [Ho H]]. apply bind_ok in H as [rest [Hrest H]].
    injection H as <-.
    destruct p as [data|data detail|data format|data]; simpl in Ho.
    + injection Ho as <-. simpl. eauto.
    + injection Ho as <-. simpl. eauto.
    + apply bind_ok in Ho as [b [_ Ho]]. injection Ho as <-. simpl. eauto.
    + injection Ho as <-. eauto.
Qed.

Lemma in_set {V : Type} (k : string) (v : V) (d : Py.dict V) (kv : string * V) :
  In kv (Py.set k v d) -> kv = (k, v) \/ In kv d.
Proof.
  induction d as [|[k' v'] d IH]; simpl.
  - intros [<-|[]]. now left.
  - destruct (k' =? k); simpl.
    + intros [<-|H]; [now left | right; now right].
    + intros [<-|H]; [right; now left |].
      destruct (IH H) as [->|H']; [now left | right; now right].
Qed.

(** C4 (as amended).  For the single user message ["hi"] without a name, no
    tools, and a model of the current convention (3 tokens per message), the
    estimate is the per-message surcharge, the tokens of the role value
    ["user"], the tokens of ["hi"], no name surcharge, and 3 tokens of
    priming: the walk over the wire record encodes the value of every key,
    [role] included, in the order of the record. *)
Theorem single_user_message_estimate (model m : string) :
  normalize_model model = Ok m ->
  accounting_family m = Some (3, 1) ->
  _num_tokens_from_messages encoding_for_model get_encoding py_repr model
    [hi_message] None
  = (role <- num_encoded (resolve_encoding encoding_for_model get_encoding m) "user" ;;
     content <- num_encoded (resolve_encoding encoding_for_model get_encoding m) "hi" ;;
     Ok (3 + role + content + 0 + 3)).
Proof.
  intros Hm Hfam. unfold _num_tokens_from_messages.
  rewrite Hm. cbn -[Z.add num_encoded]. rewrite Hfam. cbn -[Z.add num_encoded].
  unfold message_tokens, item_tokens. cbn -[Z.add num_encoded].
  destruct (num_encoded (resolve_encoding encoding_for_model get_encoding m) "user")
    as [role|e]; [|reflexivity].
  destruct (num_encoded (resolve_encoding encoding_for_model get_encoding m) "hi")
    as [content|e]; [|reflexivity].
  cbn -[Z.add]. f_equal. lia.
Qed.



(** ** Stream aggregator: fragments without choices *)

(** C6.  A fragment with zero choices yields no chunk; its usage block, when
    present, sets the two running counters; the text accumulator, the
    tool-call map, the legacy buffer, the list of completed calls and the
    held final chunk are unchanged.  The text-completion handler treats
    such a fragment the same way. *)
Theorem choiceless_fragment_only_sets_usage (model : string)
    (prompt_messages : list PromptMessage) (st : ChatState.t U)
    (usage : option CompletionUsage.t) (chunk_model : string)
    (fingerprint : option string) :
  (exists st',
      chat_stream_step model prompt_messages st
        {| ChatCompletionChunk.choices := [];
           ChatCompletionChunk.usage := usage;
           ChatCompletionChunk.model := chunk_model;
           ChatCompletionChunk.system_fingerprint := fingerprint |}
      = Ok (st', [])
      /\ ChatState.prompt_tokens st'
         = match usage with
           | Some u => CompletionUsage.prompt_tokens u
           | None => ChatState.prompt_tokens st
           end
      /\ ChatState.completion_tokens st'
         = match usage with
           | Some u => CompletionUsage.completion_tokens u
           | None => ChatState.completion_tokens st
           end
      /\ ChatState.full_assistant_content st' = ChatState.full_assistant_content st
      /\ ChatState.aggregated_tool_calls st' = ChatState.aggregated_tool_calls st
      /\ ChatState.delta_assistant_message_function_call_storage st'
         = ChatState.delta_assistant_message_function_call_storage st
      /\ ChatState.final_tool_calls st' = ChatState.final_tool_calls st
      /\ ChatState.final_chunk st' = ChatState.final_chunk st)
  /\ (forall full_text prompt_tokens completion_tokens final_chunk,
        text_stream_step prompt_messages
          (full_text, prompt_tokens, completion_tokens, final_chunk)
          {| Completion.choices := [];
             Completion.usage := usage;
             Completion.model := chunk_model;
             Completion.system_fingerprint := fingerprint |}
        = ((full_text,
            match usage with
            | Some u => CompletionUsage.prompt_tokens u
            | None => prompt_tokens
            end,
            match usage with
            | Some u => CompletionUsage.completion_tokens u
            | None => completion_tokens
            end,
            final_chunk), [])).
Proof.
  split.
  - unfold chat_stream_step. simpl.
    eexists. split; [reflexivity|].
    destruct usage as [u|]; simpl; repeat split; reflexivity.
  - intros full_text prompt_tokens completion_tokens final_chunk.
    unfold text_stream_step. simpl. destruct usage; reflexivity.
Qed.

(** ** Stream aggregator: the tool-call map *)

Lemma append_empty_r (s : string) : (s ++ "")%string = s.
Proof.
  induction s as [|c s IH]; simpl; [reflexivity | now rewrite IH].
Qed.

Lemma append_assoc (a b c : string) : ((a ++ b) ++ c)%string = (a ++ (b ++ c))%string.
Proof.
  induction a as [|x a IH]; simpl; [reflexivity | now rewrite IH].
Qed.

Lemma falsy_or_empty (o : option string) : Py.truthy o = false -> Py.or_empty o = "".
Proof.
  destruct o as [s|]; simpl; [|reflexivity].
  intros H. apply negb_false_iff, String.eqb_eq in H. exact H.
Qed.

(** What a successful merge leaves in the stored call. *)
Lemma merge_tool_call_fields (existing_call tool_call_chunk merged : ChoiceDeltaToolCall.t) :
  merge_tool_call existing_call tool_call_chunk = Ok merged ->
  ChoiceDeltaToolCall.index merged = ChoiceDeltaToolCall.index existing_call
  /\ ChoiceDeltaToolCall.id merged
     = (if Py.truthy (ChoiceDeltaToolCall.id tool_call_chunk)
        then ChoiceDeltaToolCall.id tool_call_chunk
        else ChoiceDeltaToolCall.id existing_call)
  /\ ChoiceDeltaToolCall.type merged
     = (if Py.truthy (ChoiceDeltaToolCall.type tool_call_chunk)
        then ChoiceDeltaToolCall.type tool_call_chunk
        else ChoiceDeltaToolCall.type existing_call)
  /\ call_name merged
     = (if Py.truthy (call_name tool_call_chunk)
        then call_name tool_call_chunk
        else call_name existing_call)
  /\ Py.or_empty (call_arguments merged)
     = (Py.or_empty (call_arguments existing_call)
        ++ Py.or_empty (call_arguments tool_call_chunk))%string.
Proof.
  unfold merge_tool_call, call_name, call_arguments. intros H.
  apply bind_ok in H as [function [Hf H]]. injection H as <-. simpl.
  repeat (split; [reflexivity|]).
  destruct (ChoiceDeltaToolCall.function tool_call_chunk) as [f|].
  - apply bind_ok in Hf as [named [Hnamed Hf]].
    destruct (Py.truthy (ChoiceDeltaToolCallFunction.name f)) eqn:En.
    + destruct (ChoiceDeltaToolCall.function existing_call) as [ef|]; [|discriminate].
      injection Hnamed as <-.
      destruct (Py.truthy (ChoiceDeltaToolCallFunction.arguments f)) eqn:Ea.
      * simpl in Hf.
        destruct (ChoiceDeltaToolCallFunction.arguments ef) as [a|]; [|discriminate].
        injection Hf as <-. simpl. split; reflexivity.
      * injection Hf as <-. simpl. rewrite (falsy_or_empty _ Ea), append_empty_r.
        split; reflexivity.
    + injection Hnamed as <-.
      destruct (Py.truthy (ChoiceDeltaToolCallFunction.arguments f)) eqn:Ea.
      * destruct (ChoiceDeltaToolCall.function existing_call) as [ef|]; [|discriminate].
        destruct (ChoiceDeltaToolCallFunction.arguments ef) as [a|]; [|discriminate].
        injection Hf as <-. simpl. split; reflexivity.
      * injection Hf as <-. rewrite (falsy_or_empty _ Ea), append_empty_r.
        split; reflexivity.
  - injection Hf as <-. simpl. rewrite append_empty_r. split; reflexivity.
Qed.

(** A stored call with string arguments accepts every fragment. *)
Lemma merge_tool_call_total (existing_call tool_call_chunk : ChoiceDeltaToolCall.t) :
  is_none (call_arguments existing_call) = false ->
  exists merged, merge_tool_call existing_call tool_call_chunk = Ok merged
                 /\ is_none (call_arguments merged) = false.
Proof.
  unfold merge_tool_call, call_arguments. intros H.
  destruct (ChoiceDeltaToolCall.function existing_call) as [ef|]; [|discriminate].
  destruct (ChoiceDeltaToolCallFunction.arguments ef) as [a|] eqn:Ea; [|discriminate].
  destruct (ChoiceDeltaToolCall.function tool_call_chunk) as [f|]; simpl.
  - destruct (Py.truthy (ChoiceDeltaToolCallFunction.name f)),
             (Py.truthy (ChoiceDeltaToolCallFunction.arguments f));
      simpl; rewrite ?Ea; simpl; eexists; (split; [reflexivity|]);
      simpl; rewrite ?Ea; reflexivity.
  - eexists. split; [reflexivity|]. simpl. now rewrite Ea.
Qed.

Lemma map_get_app (m : tool_call_map) (i j : Z) (c : ChoiceDeltaToolCall.t) :
  map_get i (m ++ [(j, c)])
  = match map_get i m with
    | Some e => Some e
    | None => if (j =? i)%Z then Some c else None
    end.
Proof.
  induction m as [|[k e] m IH]; simpl; [reflexivity|].
  destruct (k =? i)%Z; [reflexivity | exact IH].
Qed.

Lemma map_get_replace (m : tool_call_map) (i j : Z) (c : ChoiceDeltaToolCall.t) :
  map_get i (map_replace j c m)
  = match map_get i m with
    | Some e => if (j =? i)%Z then Some c else Some e
    | None => None
    end.
Proof.
  induction m as [|[k e] m IH]; simpl; [reflexivity|].
  destruct (k =? j)%Z eqn:Ekj; simpl.
  - apply Z.eqb_eq in Ekj; subst k.
    destruct (j =? i)%Z; [reflexivity | now destruct (map_get i m)].
  - destruct (k =? i)%Z eqn:Eki; [|exact IH].
    apply Z.eqb_eq in Eki; subst k. rewrite Z.eqb_sym, Ekj. reflexivity.
Qed.

(** A fragment leaves the entries of the other indices alone. *)
Lemma aggregate_other_index (m m' : tool_call_map) (c : ChoiceDeltaToolCall.t) (i : Z) :
  aggregate_tool_call m c = Ok m' ->
  (ChoiceDeltaToolCall.index c =? i)%Z = false ->
  map_get i m' = map_get i m.
Proof.
  unfold aggregate_tool_call. intros H Hne.
  destruct (map_get (ChoiceDeltaToolCall.index c) m) as [e|].
  - apply bind_ok in H as [merged [_ H]]. injection H as <-.
    rewrite map_get_replace, Hne. now destruct (map_get i m).
  - destruct (Py.truthy (ChoiceDeltaToolCall.id c)); injection H as <-; [|reflexivity].
    rewrite map_get_app, Hne. now destruct (map_get i m).
Qed.

(** A fragment for a known index is merged into its entry. *)
Lemma aggregate_known_index (m m' : tool_call_map) (c e : ChoiceDeltaToolCall.t) :
  map_get (ChoiceDeltaToolCall.index c) m = Some e ->
  aggregate_tool_call m c = Ok m' ->
  exists merged, merge_tool_call e c = Ok merged
                 /\ map_get (ChoiceDeltaToolCall.index c) m' = Some merged.
Proof.
  unfold aggregate_tool_call. intros He H. rewrite He in H.
  apply bind_ok in H as [merged [Hm H]]. injection H as <-.
  exists merged. split; [exact Hm|].
  rewrite map_get_replace, He, Z.eqb_refl. reflexivity.
Qed.


Lemma aggregate_run (chunks : list ChoiceDeltaToolCall.t) :
  forall (m m' : tool_call_map) (i : Z) (e : ChoiceDeltaToolCall.t),
    map_get i m = Some e ->
    aggregate_tool_calls m chunks = Ok m' ->
    exists e',
      map_get i m' = Some e'
      /\ ChoiceDeltaToolCall.id e'
         = last_set (ChoiceDeltaToolCall.id e)
             (map ChoiceDeltaToolCall.id (for_index i chunks))
      /\ ChoiceDeltaToolCall.type e'
         = last_set (ChoiceDeltaToolCall.type e)
             (map ChoiceDeltaToolCall.type (for_index i chunks))
      /\ call_name e' = last_set (call_name e) (map call_name (for_index i chunks))
      /\ Py.or_empty (call_arguments e')
         = (Py.or_empty (call_arguments e)
            ++ concat_all (map (fun c => Py.or_empty (call_arguments c))
                             (for_index i chunks)))%string.
Proof.
  induction chunks as [|c cs IH]; intros m m' i e He H.
  - simpl in H. injection H as <-. exists e. simpl.
    rewrite append_empty_r. repeat split; auto.
  - simpl in H. apply bind_ok in H as [m1 [Hstep Hrest]].
    unfold for_index. simpl.
    destruct (ChoiceDeltaToolCall.index c =? i)%Z eqn:Ei.
    + apply Z.eqb_eq in Ei. subst i.
      destruct (aggregate_known_index _ _ _ _ He Hstep) as [merged [Hmerge Hget]].
      destruct (IH _ _ _ _ Hget Hrest) as [e' [He' [Hid [Hty [Hnm Hargs]]]]].
      destruct (merge_tool_call_fields _ _ _ Hmerge) as [_ [Mid [Mty [Mnm Margs]]]].
      exists e'. split; [exact He'|].
      unfold for_index in *. simpl.
      rewrite Hid, Hty, Hnm, Hargs, Mid, Mty, Mnm, Margs, append_assoc.
      repeat split; reflexivity.
    + rewrite <- (aggregate_other_index _ _ _ _ Hstep Ei) in He.
      exact (IH _ _ _ _ He Hrest).
Qed.

Lemma map_get_in (m : tool_call_map) (i : Z) (e : ChoiceDeltaToolCall.t) :
  map_get i m = Some e -> exists j, In (j, e) m.
Proof.
  induction m as [|[k c] m IH]; simpl; intros H; [discriminate|].
  destruct (k =? i)%Z.
  - injection H as <-. eauto.
  - destruct (IH H) as [j Hj]. eauto.
Qed.

Lemma map_replace_forall (P : Z * ChoiceDeltaToolCall.t -> Prop) (m : tool_call_map)
    (i : Z) (c : ChoiceDeltaToolCall.t) :
  Forall P m -> (forall j, P (j, c)) -> Forall P (map_replace i c m).
Proof.
  intros Hm Hc. induction Hm as [|[k e] m Hk Hm IH]; simpl; [constructor|].
  destruct (k =? i)%Z; constructor; auto.
Qed.

(** A fragment cannot fail on a map whose stored calls have string
    arguments, and when it has string arguments itself the new map is such a
    map again. *)
Lemma aggregate_with_arguments (m : tool_call_map) (c : ChoiceDeltaToolCall.t) :
  Forall (fun kv => is_none (call_arguments (snd kv)) = false) m ->
  is_none (call_arguments c) = false ->
  exists m', aggregate_tool_call m c = Ok m'
             /\ Forall (fun kv => is_none (call_arguments (snd kv)) = false) m'.
Proof.
  intros Hm Hc. unfold aggregate_tool_call.
  destruct (map_get (ChoiceDeltaToolCall.index c) m) as [e|] eqn:Hget.
  - destruct (map_get_in _ _ _ Hget) as [j Hj].
    pose proof (proj1 (Forall_forall _ _) Hm _ Hj) as He. simpl in He.
    destruct (merge_tool_call_total e c He) as [merged [Hmerge Hargs]].
    rewrite Hmerge. simpl. eexists. split; [reflexivity|].
    apply map_replace_forall; [exact Hm|]. intros k. exact Hargs.
  - destruct (Py.truthy (ChoiceDeltaToolCall.id c)); eexists; (split; [reflexivity|]);
      [|exact Hm].
    apply Forall_app. split; [exact Hm|]. constructor; [exact Hc | constructor].
Qed.

Lemma aggregate_all_with_arguments (chunks : list ChoiceDeltaToolCall.t) :
  forall m,
    Forall (fun kv => is_none (call_arguments (snd kv)) = false) m ->
    Forall (fun c => is_none (call_arguments c) = false) chunks ->
    exists m', aggregate_tool_calls m chunks = Ok m'
               /\ Forall (fun kv => is_none (call_arguments (snd kv)) = false) m'.
Proof.
  induction chunks as [|c cs IH]; simpl; intros m Hm H; [eauto|].
  inversion H as [|? ? Hc Hcs]; subst.
  destruct (aggregate_with_arguments m c Hm Hc) as [m1 [-> Hm1]]. simpl. auto.
Qed.


(** A run of fragments for one index cannot fail when the entry of that
    index has string arguments. *)
Lemma aggregate_run_total (chunks : list ChoiceDeltaToolCall.t) :
  forall (m : tool_call_map) (i : Z) (e : ChoiceDeltaToolCall.t),
    map_get i m = Some e ->
    is_none (call_arguments e) = false ->
    Forall (fun c => ChoiceDeltaToolCall.index c = i) chunks ->
    exists m', aggregate_tool_calls m chunks = Ok m'.
Proof.
  induction chunks as [|c cs IH]; intros m i e Hget He Hall;
    cbn [aggregate_tool_calls]; [eauto|].
  inversion Hall as [|? ? Hc Hcs]; subst.
  unfold aggregate_tool_call. rewrite Hget.
  destruct (merge_tool_call_total e c He) as [merged [-> Hm]]. cbn [bind].
  apply (IH _ (ChoiceDeltaToolCall.index c) merged); [|exact Hm|exact Hcs].
  rewrite map_get_replace, Hget, Z.eqb_refl. reflexivity.
Qed.

(** C10.  A tool-call fragment for an index that is not in the map and
    without a non-empty id leaves the map as it is; an index enters the map
    only through a fragment for that index carrying a non-empty id, which is
    then stored as it came; the terminal tool-calls chunk carries the calls
    extracted from the map, nothing else; and an iteration of the handler on
    a fragment whose one tool call is such an id-less newcomer ends with the
    map it started with, so the name and arguments of that call are lost. *)
Theorem idless_fragment_for_new_index_is_dropped :
  (forall (m : tool_call_map) (c : ChoiceDeltaToolCall.t),
      map_get (ChoiceDeltaToolCall.index c) m = None ->
      Py.truthy (ChoiceDeltaToolCall.id c) = false ->
      aggregate_tool_call m c = Ok m)
  /\ (forall (m m' : tool_call_map) (c e : ChoiceDeltaToolCall.t) (i : Z),
        aggregate_tool_call m c = Ok m' ->
        map_get i m = None ->
        map_get i m' = Some e ->
        ChoiceDeltaToolCall.index c = i
        /\ Py.truthy (ChoiceDeltaToolCall.id c) = true
        /\ e = c)
  /\ (forall (prompt_messages : list PromptMessage) (st st' : ChatState.t U)
             (chunk : ChatCompletionChunk.t) (delta : Choice.t)
             (storage : option ChoiceDeltaFunctionCall.t)
             (tool_calls : list ToolCall.t) (out : list (LLMResultChunk.t U)),
        finish_reason_is (Choice.finish_reason delta) "tool_calls" = true ->
        chat_stream_emit prompt_messages st chunk delta true storage tool_calls
          = Ok (st', out) ->
        out = [result_chunk prompt_messages chunk delta
                 (AssistantPromptMessage (CStr "") None
                    (_extract_response_tool_calls
                       (map_values (ChatState.aggregated_tool_calls st'))))
                 (Some "tool_calls")])
  /\ (forall (model : string) (prompt_messages : list PromptMessage)
             (st st' : ChatState.t U) (chunk : ChatCompletionChunk.t)
             (delta : Choice.t) (rest : list Choice.t) (c : ChoiceDeltaToolCall.t)
             (out : list (LLMResultChunk.t U)),
        ChatCompletionChunk.choices chunk = delta :: rest ->
        ChoiceDelta.tool_calls (Choice.delta delta) = Some [c] ->
        map_get (ChoiceDeltaToolCall.index c) (ChatState.aggregated_tool_calls st) = None ->
        Py.truthy (ChoiceDeltaToolCall.id c) = false ->
        chat_stream_step model prompt_messages st chunk = Ok (st', out) ->
        ChatState.aggregated_tool_calls st' = ChatState.aggregated_tool_calls st).
Proof.
  split; [|split; [|split]].
  - intros m c Hnew Hid. unfold aggregate_tool_call. now rewrite Hnew, Hid.
  - intros m m' c e i H Hnew Hget.
    destruct (ChoiceDeltaToolCall.index c =? i)%Z eqn:Ei.
    + apply Z.eqb_eq in Ei. subst i.
      unfold aggregate_tool_call in H. rewrite Hnew in H.
      destruct (Py.truthy (ChoiceDeltaToolCall.id c)); injection H as <-.
      * rewrite map_get_app, Hnew, Z.eqb_refl in Hget. injection Hget as <-. auto.
      * congruence.
    + rewrite (aggregate_other_index _ _ _ _ H Ei) in Hget. congruence.
  - intros prompt_messages st st' chunk delta storage tool_calls out Hfin H.
    unfold chat_stream_emit in H.
    apply bind_ok in H as [aggregated [_ H]].
    rewrite Hfin in H. simpl in H. injection H as <- <-. reflexivity.
  - intros model prompt_messages st st' chunk delta rest c out Hchoices Hcalls Hnew Hid H.
    unfold chat_stream_step in H. rewrite Hchoices, Hcalls in H.
    cbn [is_none] in H. rewrite andb_false_r in H. cbn [andb] in H.
    unfold chat_stream_emit in H. rewrite Hcalls in H.
    cbn [aggregate_tool_calls] in H. unfold aggregate_tool_call in H.
    rewrite Hnew, Hid in H. cbn [bind] in H.
    match type of H with
    | (if ?b then _ else _) = _ => destruct b
    end; injection H as <- _; reflexivity.
Qed.

(** ** Stream aggregator: what the chunks carry *)

Lemma emit_chunks (prompt_messages : list PromptMessage) (st st' : ChatState.t U)
    (chunk : ChatCompletionChunk.t) (delta : Choice.t) (has_finish : bool)
    (storage : option ChoiceDeltaFunctionCall.t) (tool_calls : list ToolCall.t)
    (out : list (LLMResultChunk.t U)) :
  chat_stream_emit prompt_messages st chunk delta has_finish storage tool_calls
    = Ok (st', out) ->
  held_chunk (ChatState.final_chunk st) ->
  Forall loop_chunk out /\ held_chunk (ChatState.final_chunk st').
Proof.
  unfold chat_stream_emit. intros H Hheld.
  apply bind_ok in H as [aggregated [_ H]].
  destruct (has_finish && finish_reason_is (Choice.finish_reason delta) "tool_calls").
  - injection H as <- <-. split; [|exact Hheld].
    constructor; [split; [reflexivity | left; reflexivity] | constructor].
  - injection H as <- <-. destruct has_finish; simpl.
    + split; [constructor | split; reflexivity].
    + split; [|exact Hheld].
      constructor; [split; [reflexivity | right; reflexivity] | constructor].
Qed.

Lemma step_chunks (model : string) (prompt_messages : list PromptMessage)
    (st st' : ChatState.t U) (chunk : ChatCompletionChunk.t)
    (out : list (LLMResultChunk.t U)) :
  chat_stream_step model prompt_messages st chunk = Ok (st', out) ->
  held_chunk (ChatState.final_chunk st) ->
  Forall loop_chunk out /\ held_chunk (ChatState.final_chunk st').
Proof.
  unfold chat_stream_step. intros H Hheld.
  destruct (ChatCompletionChunk.choices chunk) as [|delta rest].
  - injection H as <- <-. split; [constructor|].
    destruct (ChatCompletionChunk.usage chunk); exact Hheld.
  - match type of H with
    | (if ?b then _ else _) = _ => destruct b
    end.
    + injection H as <- <-. split; [constructor | exact Hheld].
    + destruct (ChoiceDelta.tool_calls (Choice.delta delta)) as [[|c cs]|].
      * apply bind_ok in H as [flow [_ H]].
        destruct flow as [storage|storage fc].
        -- injection H as <- <-. split; [constructor | exact Hheld].
        -- eapply emit_chunks; eauto.
      * eapply emit_chunks; eauto.
      * apply bind_ok in H as [flow [_ H]].
        destruct flow as [storage|storage fc].
        -- injection H as <- <-. split; [constructor | exact Hheld].
        -- eapply emit_chunks; eauto.
Qed.

Lemma loop_chunks (model : string) (prompt_messages : list PromptMessage)
    (response : list ChatCompletionChunk.t) :
  forall (st : ChatState.t U) (chunks : list (LLMResultChunk.t U))
         (r : result (ChatState.t U)),
    chat_stream_loop model prompt_messages st response = (chunks, r) ->
    held_chunk (ChatState.final_chunk st) ->
    Forall loop_chunk chunks
    /\ (forall st', r = Ok st' -> held_chunk (ChatState.final_chunk st')).
Proof.
  induction response as [|chunk rest IH]; intros st chunks r H Hheld; simpl in H.
  - injection H as <- <-. split; [constructor|].
    intros st' Hst. injection Hst as <-. exact Hheld.
  - destruct (chat_stream_step model prompt_messages st chunk) as [[st1 out]|e] eqn:Hstep.
    + destruct (chat_stream_loop model prompt_messages st1 rest) as [more r1] eqn:Hloop.
      injection H as <- <-.
      destruct (step_chunks _ _ _ _ _ _ Hstep Hheld) as [Hout Hheld1].
      destruct (IH _ _ _ Hloop Hheld1) as [Hmore Hr].
      split; [apply Forall_app; split; assumption | exact Hr].
    + injection H as <- <-. split; [constructor | intros st' Hst; discriminate].
Qed.

Lemma usage_count_app (a b : list (LLMResultChunk.t U)) :
  usage_count (a ++ b) = (usage_count a + usage_count b)%nat.
Proof.
  unfold usage_count. now rewrite filter_app, length_app.
Qed.

Lemma loop_chunks_no_usage (chunks : list (LLMResultChunk.t U)) :
  Forall loop_chunk chunks -> usage_count chunks = 0%nat.
Proof.
  unfold usage_count.
  induction 1 as [|c cs [Hu _] _ IH]; simpl; [reflexivity|].
  unfold has_usage. rewrite Hu. exact IH.
Qed.

Lemma set_usage_has_usage (chunk : LLMResultChunk.t U) (usage : U) :
  has_usage (set_usage chunk usage) = true
  /\ chunk_tool_calls (set_usage chunk usage) = chunk_tool_calls chunk
  /\ chunk_finish_reason (set_usage chunk usage) = chunk_finish_reason chunk.
Proof.
  repeat split.
Qed.

(** ** Stream aggregator: when the chat handler completes *)

Lemma benign_tool_calls (calls : list ChoiceDeltaToolCall.t) :
  forallb benign_tool_call calls = true ->
  Forall (fun c => is_none (call_arguments c) = false) calls.
Proof.
  intros H. apply Forall_forall. intros c Hc.
  apply negb_true_iff. exact (proj1 (forallb_forall _ _) H c Hc).
Qed.

Lemma legacy_sound (storage fc : option ChoiceDeltaFunctionCall.t) (has_finish : bool) :
  sound_storage storage ->
  match fc with
  | Some f => is_none (ChoiceDeltaFunctionCall.arguments f) = false
  | None => True
  end ->
  exists flow,
    legacy_function_call storage fc has_finish = Ok flow
    /\ match flow with
       | Suspend storage' => sound_storage storage'
       | Proceed storage' _ => sound_storage storage'
       end.
Proof.
  unfold legacy_function_call, sound_storage. intros Hst Hfc.
  destruct storage as [stored|].
  - specialize (Hst stored eq_refl).
    destruct fc as [f|].
    + destruct (ChoiceDeltaFunctionCall.arguments stored) as [a|]; [|discriminate].
      destruct (ChoiceDeltaFunctionCall.arguments f) as [b|]; [|discriminate].
      eexists. split; [reflexivity|]. intros s Hs. injection Hs as <-. reflexivity.
    + eexists. split; [reflexivity|]. intros s Hs. discriminate.
  - destruct fc as [f|].
    + destruct has_finish; simpl; eexists; (split; [reflexivity|]);
        intros s Hs; injection Hs as <-; reflexivity.
    + eexists. split; [reflexivity|]. intros s Hs. discriminate.
Qed.

Lemma emit_sound (prompt_messages : list PromptMessage) (st : ChatState.t U)
    (chunk : ChatCompletionChunk.t) (delta : Choice.t) (has_finish : bool)
    (storage : option ChoiceDeltaFunctionCall.t) (tool_calls : list ToolCall.t) :
  sound_state st ->
  sound_storage storage ->
  benign_delta (Choice.delta delta) = true ->
  exists st' out,
    chat_stream_emit prompt_messages st chunk delta has_finish storage tool_calls
      = Ok (st', out)
    /\ sound_state st'.
Proof.
  intros [_ Hmap] Hstorage Hbenign.
  unfold chat_stream_emit.
  assert (Hagg : exists m',
             match ChoiceDelta.tool_calls (Choice.delta delta) with
             | Some (c :: cs) =>
                 aggregate_tool_calls (ChatState.aggregated_tool_calls st) (c :: cs)
             | _ => Ok (ChatState.aggregated_tool_calls st)
             end = Ok m'
             /\ Forall (fun kv => is_none (call_arguments (snd kv)) = false) m').
  { unfold benign_delta in Hbenign. apply andb_true_iff in Hbenign as [_ Hb].
    destruct (ChoiceDelta.tool_calls (Choice.delta delta)) as [[|c cs]|]; eauto.
    apply aggregate_all_with_arguments; [exact Hmap|].
    apply benign_tool_calls. exact Hb. }
  destruct Hagg as [m' [-> Hm']]. simpl.
  destruct (has_finish && finish_reason_is (Choice.finish_reason delta) "tool_calls");
    eexists _, _; (split; [reflexivity|]); split; assumption.
Qed.

Lemma step_sound (model : string) (prompt_messages : list PromptMessage)
    (st : ChatState.t U) (chunk : ChatCompletionChunk.t) :
  sound_state st ->
  benign chunk = true ->
  exists st' out,
    chat_stream_step model prompt_messages st chunk = Ok (st', out)
    /\ sound_state st'.
Proof.
  intros Hst Hbenign. unfold chat_stream_step. unfold benign in Hbenign.
  destruct (ChatCompletionChunk.choices chunk) as [|delta rest].
  - eexists _, _. split; [reflexivity|].
    destruct (ChatCompletionChunk.usage chunk); exact Hst.
  - match goal with
    | |- context [if ?b then Ok (st, []) else _] => destruct b
    end; [eauto|].
    assert (Hlegacy : exists st' out,
               (flow <- legacy_function_call
                          (ChatState.delta_assistant_message_function_call_storage st)
                          (ChoiceDelta.function_call (Choice.delta delta))
                          (has_finish_reason model (Choice.finish_reason delta)) ;;
                match flow with
                | Suspend storage => Ok (with_storage st storage, [])
                | Proceed storage assistant_message_function_call =>
                    chat_stream_emit prompt_messages st chunk delta
                      (has_finish_reason model (Choice.finish_reason delta)) storage
                      (match _extract_response_function_call
                               assistant_message_function_call with
                       | Some function_call => [function_call]
                       | None => []
                       end)
                end) = Ok (st', out)
               /\ sound_state st').
    { destruct (legacy_sound
                  (ChatState.delta_assistant_message_function_call_storage st)
                  (ChoiceDelta.function_call (Choice.delta delta))
                  (has_finish_reason model (Choice.finish_reason delta)))
        as [flow [-> Hflow]].
      - exact (proj1 Hst).
      - unfold benign_delta in Hbenign. apply andb_true_iff in Hbenign as [Hb _].
        destruct (ChoiceDelta.function_call (Choice.delta delta)); [|exact I].
        now apply negb_true_iff in Hb.
      - simpl. destruct flow as [storage|storage fc].
        + eexists _, _. split; [reflexivity|].
          destruct Hst as [_ Hmap]. split; [exact Hflow | exact Hmap].
        + apply emit_sound; assumption. }
    destruct (ChoiceDelta.tool_calls (Choice.delta delta)) as [[|c cs]|] eqn:Hcalls;
      try exact Hlegacy.
    apply emit_sound; try assumption. exact (proj1 Hst).
Qed.

Lemma loop_sound (model : string) (prompt_messages : list PromptMessage)
    (response : list ChatCompletionChunk.t) :
  forall st,
    sound_state st ->
    forallb benign response = true ->
    exists chunks st',
      chat_stream_loop model prompt_messages st response = (chunks, Ok st')
      /\ sound_state st'.
Proof.
  induction response as [|chunk rest IH]; simpl; intros st Hst H; [eauto|].
  apply andb_true_iff in H as [Hchunk Hrest].
  destruct (step_sound model prompt_messages st chunk Hst Hchunk) as [st1 [out [-> Hst1]]].
  destruct (IH st1 Hst1 Hrest) as [more [st' [-> Hst']]]. eauto.
Qed.

(** The two counters change only where a usage block is read. *)
Lemma emit_counters (prompt_messages : list PromptMessage) (st st' : ChatState.t U)
    (chunk : ChatCompletionChunk.t) (delta : Choice.t) (has_finish : bool)
    (storage : option ChoiceDeltaFunctionCall.t) (tool_calls : list ToolCall.t)
    (out : list (LLMResultChunk.t U)) :
  chat_stream_emit prompt_messages st chunk delta has_finish storage tool_calls
    = Ok (st', out) ->
  ChatState.prompt_tokens st' = ChatState.prompt_tokens st
  /\ ChatState.completion_tokens st' = ChatState.completion_tokens st.
Proof.
  unfold chat_stream_emit. intros H.
  apply bind_ok in H as [aggregated [_ H]].
  destruct (has_finish && finish_reason_is (Choice.finish_reason delta) "tool_calls");
    injection H as <- _; split; reflexivity.
Qed.

Lemma step_counters (model : string) (prompt_messages : list PromptMessage)
    (st st' : ChatState.t U) (chunk : ChatCompletionChunk.t)
    (out : list (LLMResultChunk.t U)) :
  chat_stream_step model prompt_messages st chunk = Ok (st', out) ->
  ChatCompletionChunk.usage chunk = None ->
  ChatState.prompt_tokens st' = ChatState.prompt_tokens st
  /\ ChatState.completion_tokens st' = ChatState.completion_tokens st.
Proof.
  unfold chat_stream_step. intros H Husage.
  destruct (ChatCompletionChunk.choices chunk) as [|delta rest].
  - rewrite Husage in H. injection H as <- _. split; reflexivity.
  - match type of H with
    | (if ?b then _ else _) = _ => destruct b
    end.
    + injection H as <- _. split; reflexivity.
    + destruct (ChoiceDelta.tool_calls (Choice.delta delta)) as [[|c cs]|].
      * apply bind_ok in H as [flow [_ H]].
        destruct flow as [storage|storage fc].
        -- injection H as <- _. split; reflexivity.
        -- eapply emit_counters; eauto.
      * eapply emit_counters; eauto.
      * apply bind_ok in H as [flow [_ H]].
        destruct flow as [storage|storage fc].
        -- injection H as <- _. split; reflexivity.
        -- eapply emit_counters; eauto.
Qed.

Lemma loop_counters (model : string) (prompt_messages : list PromptMessage)
    (response : list ChatCompletionChunk.t) :
  forall (st st' : ChatState.t U) (chunks : list (LLMResultChunk.t U)),
    chat_stream_loop model prompt_messages st response = (chunks, Ok st') ->
    forallb (fun chunk => is_none (ChatCompletionChunk.usage chunk)) response = true ->
    ChatState.prompt_tokens st' = ChatState.prompt_tokens st
    /\ ChatState.completion_tokens st' = ChatState.completion_tokens st.
Proof.
  induction response as [|chunk rest IH]; intros st st' chunks H Hnone; simpl in H.
  - injection H as _ <-. split; reflexivity.
  - simpl in Hnone. apply andb_true_iff in Hnone as [Hchunk Hrest].
    destruct (chat_stream_step model prompt_messages st chunk) as [[st1 out]|e] eqn:Hstep;
      [|discriminate].
    destruct (chat_stream_loop model prompt_messages st1 rest) as [more r1] eqn:Hloop.
    injection H as _ ->.
    destruct (IH _ _ _ Hloop Hrest) as [Hp Hc].
    destruct (ChatCompletionChunk.usage chunk) eqn:Husage; [discriminate|].
    destruct (step_counters _ _ _ _ _ _ Hstep Husage) as [Hp1 Hc1].
    split; congruence.
Qed.

(** The code after the loop of the chat handler: each counter is the one
    the wire left, or the fallback estimate where the wire left zero. *)
Lemma chat_final_counts (model : string) (creds : credentials)
    (prompt_messages : list PromptMessage) (tools : option (list PromptMessageTool.t))
    (st : ChatState.t U) (p c : Z) :
  (ChatState.prompt_tokens st = 0 ->
   _num_tokens_from_messages encoding_for_model get_encoding py_repr
     model prompt_messages tools = Ok p) ->
  (ChatState.prompt_tokens st <> 0 -> ChatState.prompt_tokens st = p) ->
  (ChatState.completion_tokens st = 0 ->
   _num_tokens_from_messages encoding_for_model get_encoding py_repr model
     [AssistantPromptMessage (CStr (ChatState.full_assistant_content st)) None
        (ChatState.final_tool_calls st)] None = Ok c) ->
  (ChatState.completion_tokens st <> 0 -> ChatState.completion_tokens st = c) ->
  chat_stream_final model creds prompt_messages tools st
  = Ok (set_usage (ChatState.final_chunk st) (_calc_response_usage model creds p c)).
Proof.
  intros Hp0 Hp1 Hc0 Hc1. unfold chat_stream_final.
  destruct (ChatState.prompt_tokens st =? 0)%Z eqn:Ep.
  - apply Z.eqb_eq in Ep. rewrite (Hp0 Ep). cbn [bind].
    destruct (ChatState.completion_tokens st =? 0)%Z eqn:Ec.
    + apply Z.eqb_eq in Ec. now rewrite (Hc0 Ec).
    + apply Z.eqb_neq in Ec. now rewrite (Hc1 Ec).
  - apply Z.eqb_neq in Ep. rewrite (Hp1 Ep). cbn [bind].
    destruct (ChatState.completion_tokens st =? 0)%Z eqn:Ec.
    + apply Z.eqb_eq in Ec. now rewrite (Hc0 Ec).
    + apply Z.eqb_neq in Ec. now rewrite (Hc1 Ec).
Qed.

(** ** Stream aggregator: usage and tool calls of the yielded chunks *)

(** C9.  When the stream finishes with a reason other than [tool_calls]
    while a legacy function call is buffered, the call is closed and appended
    to the list of completed calls used by the fallback estimation, the
    fragment yields nothing and the held final chunk has no tool calls; and
    every chunk the handler yields either is a terminal [tool_calls] chunk or
    carries an empty list of tool calls. *)
Theorem legacy_call_is_counted_but_never_emitted :
  (forall (model : string) (prompt_messages : list PromptMessage) (st : ChatState.t U)
          (chunk : ChatCompletionChunk.t) (delta : Choice.t) (rest : list Choice.t)
          (stored : ChoiceDeltaFunctionCall.t),
      ChatCompletionChunk.choices chunk = delta :: rest ->
      ChatState.delta_assistant_message_function_call_storage st = Some stored ->
      ChoiceDelta.tool_calls (Choice.delta delta) = None
      \/ ChoiceDelta.tool_calls (Choice.delta delta) = Some [] ->
      ChoiceDelta.function_call (Choice.delta delta) = None ->
      has_finish_reason model (Choice.finish_reason delta) = true ->
      finish_reason_is (Choice.finish_reason delta) "tool_calls" = false ->
      exists st',
        chat_stream_step model prompt_messages st chunk = Ok (st', [])
        /\ ChatState.final_tool_calls st'
           = ChatState.final_tool_calls st
             ++ [{| ToolCall.id := Py.or_empty (ChoiceDeltaFunctionCall.name stored);
                    ToolCall.type := "function";
                    ToolCall.function :=
                      {| ToolCallFunction.name :=
                           Py.or_empty (ChoiceDeltaFunctionCall.name stored);
                         ToolCallFunction.arguments :=
                           Py.or_empty (ChoiceDeltaFunctionCall.arguments stored) |} |}]
        /\ ChatState.delta_assistant_message_function_call_storage st' = None
        /\ chunk_tool_calls (ChatState.final_chunk st') = [])
  /\ (forall (model : string) (creds : credentials)
             (response : list ChatCompletionChunk.t)
             (prompt_messages : list PromptMessage)
             (tools : option (list PromptMessageTool.t)) (chunk : LLMResultChunk.t U),
        In chunk
           (Generator.yielded
              (_handle_chat_generate_stream_response model creds response
                 prompt_messages tools)) ->
        chunk_finish_reason chunk = Some "tool_calls" \/ chunk_tool_calls chunk = []).
Proof.
  split.
  - intros model prompt_messages st chunk delta rest stored Hchoices Hstored Hcalls
      Hfc Hfin Hreason.
    unfold chat_stream_step. rewrite Hchoices, Hfin.
    destruct Hcalls as [Hcalls|Hcalls]; rewrite Hcalls, Hfc, Hstored;
      cbn [negb andb legacy_function_call bind];
      unfold chat_stream_emit; rewrite Hcalls, Hreason; cbn;
      eexists; (split; [reflexivity|]); repeat split.
  - intros model creds response prompt_messages tools chunk Hin.
    unfold _handle_chat_generate_stream_response in Hin.
    destruct (chat_stream_loop model prompt_messages
                (chat_initial_state model prompt_messages) response)
      as [chunks r] eqn:Hloop.
    destruct (loop_chunks model prompt_messages response _ _ _ Hloop)
      as [Hchunks Hheld]; [split; reflexivity|].
    assert (Hloop_chunk : forall c, In c chunks ->
              chunk_finish_reason c = Some "tool_calls" \/ chunk_tool_calls c = []).
    { intros c Hc. exact (proj2 (proj1 (Forall_forall _ _) Hchunks c Hc)). }
    destruct r as [st|e]; [|auto].
    destruct (chat_stream_final model creds prompt_messages tools st) as [final|e] eqn:Hf;
      simpl in Hin; [|auto].
    apply in_app_or in Hin as [Hin|[<-|[]]]; [auto|].
    right. unfold chat_stream_final in Hf.
    apply bind_ok in Hf as [p [_ Hf]]. apply bind_ok in Hf as [c [_ Hf]].
    injection Hf as <-.
    exact (proj2 (Hheld st eq_refl)).
Qed.

Lemma text_loop_no_usage (prompt_messages : list PromptMessage)
    (response : list Completion.t) :
  forall (st st' : text_state) (chunks : list (LLMResultChunk.t U)),
    text_stream_loop prompt_messages st response = (chunks, st') ->
    usage_count chunks = 0%nat.
Proof.
  induction response as [|chunk rest IH]; intros st st' chunks H; simpl in H.
  - injection H as <- _. reflexivity.
  - destruct (text_stream_step prompt_messages st chunk) as [st1 out] eqn:Hstep.
    destruct (text_stream_loop prompt_messages st1 rest) as [more final] eqn:Hloop.
    injection H as <- _.
    rewrite usage_count_app, (IH _ _ _ Hloop), Nat.add_0_r.
    unfold text_stream_step in Hstep.
    destruct st as [[[full_text prompt_tokens] completion_tokens] final_chunk].
    destruct (Completion.choices chunk) as [|delta others].
    + injection Hstep as _ <-. reflexivity.
    + match type of Hstep with
      | (if ?b then _ else _) = _ => destruct b
      end.
      * injection Hstep as _ <-. reflexivity.
      * destruct (CompletionChoice.finish_reason delta);
          injection Hstep as _ <-; reflexivity.
Qed.

Lemma text_loop_counters (prompt_messages : list PromptMessage)
    (response : list Completion.t) :
  forall (st st' : text_state) (chunks : list (LLMResultChunk.t U)),
    text_stream_loop prompt_messages st response = (chunks, st') ->
    forallb (fun chunk => is_none (Completion.usage chunk)) response = true ->
    snd (fst (fst st')) = snd (fst (fst st)) /\ snd (fst st') = snd (fst st).
Proof.
  induction response as [|chunk rest IH]; intros st st' chunks H Hnone; simpl in H.
  - injection H as _ <-. split; reflexivity.
  - simpl in Hnone. apply andb_true_iff in Hnone as [Hchunk Hrest].
    destruct (text_stream_step prompt_messages st chunk) as [st1 out] eqn:Hstep.
    destruct (text_stream_loop prompt_messages st1 rest) as [more final] eqn:Hloop.
    injection H as _ <-.
    destruct (IH _ _ _ Hloop Hrest) as [Hp Hc]. rewrite Hp, Hc.
    unfold text_stream_step in Hstep.
    destruct st as [[[full_text prompt_tokens] completion_tokens] final_chunk].
    destruct (Completion.choices chunk) as [|delta others].
    + destruct (Completion.usage chunk); [discriminate|].
      injection Hstep as <- _. split; reflexivity.
    + match type of Hstep with
      | (if ?b then _ else _) = _ => destruct b
      end.
      * injection Hstep as <- _. split; reflexivity.
      * destruct (CompletionChoice.finish_reason delta);
          injection Hstep as <- _; split; reflexivity.
Qed.

(** The code after the loop of the text-completion handler: each counter is
    the one the wire left, or the fallback estimate where the wire left zero,
    of the first prompt message for the prompt and of the streamed text for
    the completion. *)
Lemma text_final_counts (model : string) (creds : credentials)
    (prompt_messages : list PromptMessage) (full_text : string) (p0 c0 : Z)
    (held : LLMResultChunk.t U) (p c : Z) :
  (p0 = 0 ->
   exists text,
     first_prompt_text prompt_messages = Ok text
     /\ _num_tokens_from_string encoding_for_model get_encoding py_repr
          model text None = Ok p) ->
  (p0 <> 0 -> p0 = p) ->
  (c0 = 0 ->
   _num_tokens_from_string encoding_for_model get_encoding py_repr
     model full_text None = Ok c) ->
  (c0 <> 0 -> c0 = c) ->
  text_stream_final model creds prompt_messages (full_text, p0, c0, held)
  = Ok (set_usage held (_calc_response_usage model creds p c)).
Proof.
  intros Hp0 Hp1 Hc0 Hc1. unfold text_stream_final.
  destruct (p0 =? 0)%Z eqn:Ep.
  - apply Z.eqb_eq in Ep. destruct (Hp0 Ep) as [text [Htext Hest]].
    rewrite Htext. cbn [bind]. rewrite Hest. cbn [bind].
    destruct (c0 =? 0)%Z eqn:Ec.
    + apply Z.eqb_eq in Ec. now rewrite (Hc0 Ec).
    + apply Z.eqb_neq in Ec. now rewrite (Hc1 Ec).
  - apply Z.eqb_neq in Ep. rewrite (Hp1 Ep). cbn [bind].
    destruct (c0 =? 0)%Z eqn:Ec.
    + apply Z.eqb_eq in Ec. now rewrite (Hc0 Ec).
    + apply Z.eqb_neq in Ec. now rewrite (Hc1 Ec).
Qed.

(** C1 (as amended).  Each stream handler yields at most one usage-bearing
    chunk.  A handler that completes yields exactly one, as its last chunk,
    and a handler that raises has yielded none.  The chat handler completes
    on well-formed fragments when the counts it needs are there: each of the
    two counts is the one of the last usage block on the wire or, where the
    wire left it at zero, the fallback estimate, of the prompt messages and
    tools, and of the accumulated content with the completed calls; when no
    fragment carries a usage block both counts are estimates.  The
    text-completion handler behaves alike, on every fragment sequence, with
    the estimates of the first prompt message's text and of the streamed
    text. *)
Theorem one_usage_chunk_last_when_completed :
  (forall (model : string) (creds : credentials) (response : list Completion.t)
          (prompt_messages : list PromptMessage),
      let g := _handle_generate_stream_response model creds response prompt_messages in
      (Generator.raised g = None ->
       exists init final,
         Generator.yielded g = init ++ [final]
         /\ usage_count init = 0%nat
         /\ has_usage final = true
         /\ usage_count (Generator.yielded g) = 1%nat)
      /\ (forall e, Generator.raised g = Some e ->
                    usage_count (Generator.yielded g) = 0%nat)
      /\ exists init full_text p0 c0 held,
           text_stream_loop prompt_messages
             ("", 0, 0, initial_final_chunk model prompt_messages) response
           = (init, (full_text, p0, c0, held))
           /\ (forallb (fun chunk => is_none (Completion.usage chunk)) response = true ->
               p0 = 0 /\ c0 = 0)
           /\ (forall p c,
                 (p0 = 0 ->
                  exists text,
                    first_prompt_text prompt_messages = Ok text
                    /\ _num_tokens_from_string encoding_for_model get_encoding py_repr
                         model text None = Ok p) ->
                 (p0 <> 0 -> p0 = p) ->
                 (c0 = 0 ->
                  _num_tokens_from_string encoding_for_model get_encoding py_repr
                    model full_text None = Ok c) ->
                 (c0 <> 0 -> c0 = c) ->
                 g = {| Generator.yielded :=
                          init ++ [set_usage held (_calc_response_usage model creds p c)];
                        Generator.raised := None |}))
  /\ (forall (model : string) (creds : credentials)
             (response : list ChatCompletionChunk.t)
             (prompt_messages : list PromptMessage)
             (tools : option (list PromptMessageTool.t)),
        let g := _handle_chat_generate_stream_response model creds response
                   prompt_messages tools in
        (Generator.raised g = None ->
         exists init final,
           Generator.yielded g = init ++ [final]
           /\ usage_count init = 0%nat
           /\ has_usage final = true
           /\ usage_count (Generator.yielded g) = 1%nat)
        /\ (forall e, Generator.raised g = Some e ->
                      usage_count (Generator.yielded g) = 0%nat)
        /\ (forallb benign response = true ->
            exists init st,
              chat_stream_loop model prompt_messages
                (chat_initial_state model prompt_messages) response
              = (init, Ok st)
              /\ (forallb (fun chunk => is_none (ChatCompletionChunk.usage chunk))
                    response = true ->
                  ChatState.prompt_tokens st = 0 /\ ChatState.completion_tokens st = 0)
              /\ (forall p c,
                    (ChatState.prompt_tokens st = 0 ->
                     _num_tokens_from_messages encoding_for_model get_encoding py_repr
                       model prompt_messages tools = Ok p) ->
                    (ChatState.prompt_tokens st <> 0 -> ChatState.prompt_tokens st = p) ->
                    (ChatState.completion_tokens st = 0 ->
                     _num_tokens_from_messages encoding_for_model get_encoding py_repr
                       model
                       [AssistantPromptMessage
                          (CStr (ChatState.full_assistant_content st)) None
                          (ChatState.final_tool_calls st)] None = Ok c) ->
                    (ChatState.completion_tokens st <> 0 ->
                     ChatState.completion_tokens st = c) ->
                    g = {| Generator.yielded :=
                             init ++ [set_usage (ChatState.final_chunk st)
                                        (_calc_response_usage model creds p c)];
                           Generator.raised := None |}))).
Proof.
  split.
  - intros model creds response prompt_messages g. subst g.
    unfold _handle_generate_stream_response.
    destruct (text_stream_loop prompt_messages
                ("", 0, 0, initial_final_chunk model prompt_messages) response)
      as [chunks [[[full_text p0] c0] held]] eqn:Hloop.
    pose proof (text_loop_no_usage prompt_messages response _ _ _ Hloop) as Hchunks.
    split; [|split].
    + destruct (text_stream_final model creds prompt_messages (full_text, p0, c0, held))
        as [final|e] eqn:Hf; simpl; [|discriminate]. intros _.
      assert (Hfinal : has_usage final = true).
      { unfold text_stream_final in Hf.
        apply bind_ok in Hf as [p [_ Hf]]. apply bind_ok in Hf as [c [_ Hf]].
        injection Hf as <-. reflexivity. }
      exists chunks, final. repeat split; try assumption.
      rewrite usage_count_app, Hchunks. unfold usage_count. simpl. now rewrite Hfinal.
    + destruct (text_stream_final model creds prompt_messages (full_text, p0, c0, held))
        as [final|e0] eqn:Hf; simpl; [discriminate | intros _ _; exact Hchunks].
    + exists chunks, full_text, p0, c0, held. split; [reflexivity|]. split.
      * intros Hnone.
        exact (text_loop_counters prompt_messages response _ _ _ Hloop Hnone).
      * intros p c Hp0 Hp1 Hc0 Hc1.
        now rewrite (text_final_counts model creds prompt_messages full_text p0 c0 held
                       p c Hp0 Hp1 Hc0 Hc1).
  - intros model creds response prompt_messages tools g. subst g.
    unfold _handle_chat_generate_stream_response.
    destruct (chat_stream_loop model prompt_messages
                (chat_initial_state model prompt_messages) response)
      as [chunks r] eqn:Hloop.
    destruct (loop_chunks model prompt_messages response _ _ _ Hloop)
      as [Hchunks _]; [split; reflexivity|].
    apply loop_chunks_no_usage in Hchunks.
    split; [|split].
    + destruct r as [st|e]; [|discriminate].
      destruct (chat_stream_final model creds prompt_messages tools st)
        as [final|e] eqn:Hf; simpl; [|discriminate]. intros _.
      assert (Hfinal : has_usage final = true).
      { unfold chat_stream_final in Hf.
        apply bind_ok in Hf as [p [_ Hf]]. apply bind_ok in Hf as [c [_ Hf]].
        injection Hf as <-. reflexivity. }
      exists chunks, final. repeat split; try assumption.
      rewrite usage_count_app, Hchunks. unfold usage_count. simpl. now rewrite Hfinal.
    + destruct r as [st|e0]; [|intros e _; exact Hchunks].
      destruct (chat_stream_final model creds prompt_messages tools st)
        as [final|e0] eqn:Hf; simpl; [discriminate | intros _ _; exact Hchunks].
    + intros Hbenign.
      destruct (loop_sound model prompt_messages response
                  (chat_initial_state model prompt_messages))
        as [chunks' [st [Hloop' _]]]; [|exact Hbenign|].
      { split; [intros s Hs; discriminate | constructor]. }
      rewrite Hloop in Hloop'. injection Hloop' as -> ->.
      exists chunks', st. split; [reflexivity|]. split.
      * intros Hnone.
        exact (loop_counters model prompt_messages response _ _ _ Hloop Hnone).
      * intros p c Hp0 Hp1 Hc0 Hc1.
        now rewrite (chat_final_counts model creds prompt_messages tools st p c
                       Hp0 Hp1 Hc0 Hc1).
Qed.

(** ** Chat dispatcher *)

(** C7.  A chat invocation whose parameters ask for the response format
    [json_schema] while the [json_schema] parameter is missing, is not a
    string, or is a string that is not parseable JSON, raises with the log of
    remote calls unchanged: the client is never invoked.  Once the client
    object is built, the exception is the [ValueError] of the schema check. *)
Theorem malformed_json_schema_fails_before_dispatch
    (model : string) (creds : credentials) (prompt_messages : list PromptMessage)
    (model_parameters : Py.dict json) (tools : option (list PromptMessageTool.t))
    (stop : option (list string)) (stream : bool) (user : option string)
    (log : list remote_call) :
  Py.get "response_format" model_parameters = Some (JStr "json_schema") ->
  (forall text, Py.get "json_schema" model_parameters = Some (JStr text) ->
                json_loads text = None) ->
  exists e,
    _chat_generate model creds prompt_messages model_parameters tools stop stream user log
    = (log, Raise e)
    /\ (new_client creds = Ok tt -> exists msg, e = ValueError msg).
Proof.
  intros Hformat Hschema.
  unfold _chat_generate, io_bind, io_lift.
  destruct (new_client creds) as [[]|e0]; [|exists e0; split; [reflexivity | discriminate]].
  unfold prepare_response_format.
  rewrite Hformat. cbn [json_truthy json_is_str String.eqb Ascii.eqb Bool.eqb negb].
  destruct (Py.get "json_schema" model_parameters) as [json_schema|]; [|eauto].
  destruct (json_truthy json_schema); [|eauto].
  destruct json_schema as [|b|z|mantissa exponent|text|l|d]; eauto.
  rewrite (Hschema text eq_refl). eauto.
Qed.

(** * Further properties of the adapter *)

(** ** Token estimator: what is counted *)

(** The text of a multi-part content: its text parts, concatenated. *)
Definition text_of_parts (parts : list PromptMessageContent) : string :=
  concat_all
    (flat_map (fun p => match p with
                        | TextPromptMessageContent data => [data]
                        | _ => []
                        end) parts).

(** A message with another name. *)
Definition with_name (m : PromptMessage) (name : option string) : PromptMessage :=
  match m with
  | UserPromptMessage c _ => UserPromptMessage c name
  | AssistantPromptMessage c _ tool_calls => AssistantPromptMessage c name tool_calls
  | SystemPromptMessage c _ => SystemPromptMessage c name
  | ToolPromptMessage c _ tool_call_id => ToolPromptMessage c name tool_call_id
  | OtherPromptMessage c _ => OtherPromptMessage c name
  end.

(** Two messages the estimator cannot tell apart: the same message, or two
    messages the codec converts and whose records cost the same under every
    encoding and every accounting family. *)
Definition same_cost (m m' : PromptMessage) : Prop :=
  m = m'
  \/ exists d d',
      _convert_prompt_message_to_dict m = Ok d
      /\ _convert_prompt_message_to_dict m' = Ok d'
      /\ forall encoding tokens_per_message tokens_per_name,
          message_tokens encoding tokens_per_message tokens_per_name d
          = message_tokens encoding tokens_per_message tokens_per_name d'.

(** The tokens the tool declarations add. *)
Definition tools_tokens (encoding : Encoding.t)
    (tools : option (list PromptMessageTool.t)) : result Z :=
  match tools_given tools with
  | Some tools => _num_tokens_for_tools py_repr encoding tools
  | None => Ok 0
  end.

Lemma mapM_app {A B : Type} (f : A -> result B) (a b : list A) :
  mapM f (a ++ b) = (xs <- mapM f a ;; ys <- mapM f b ;; Ok (xs ++ ys)).
Proof.
  induction a as [|x a IH]; simpl.
  - destruct (mapM f b); reflexivity.
  - destruct (f x) as [y|e]; simpl; [|reflexivity].
    rewrite IH. destruct (mapM f a) as [xs|e]; simpl; [|reflexivity].
    destruct (mapM f b); reflexivity.
Qed.

Lemma sumM_app {A : Type} (f : A -> result Z) (a b : list A) :
  sumM f (a ++ b) = (x <- sumM f a ;; y <- sumM f b ;; Ok (x + y)).
Proof.
  induction a as [|h a IH]; simpl.
  - destruct (sumM f b); reflexivity.
  - destruct (f h) as [n|e]; simpl; [|reflexivity].
    rewrite IH. destruct (sumM f a) as [x|e]; simpl; [|reflexivity].
    destruct (sumM f b) as [y|e]; simpl; [|reflexivity].
    f_equal. lia.
Qed.

Lemma set_fresh {V : Type} (k : string) (v : V) (d : Py.dict V) :
  Py.get k d = None -> Py.set k v d = d ++ [(k, v)].
Proof.
  induction d as [|[k' v'] d IH]; simpl; intros H; [reflexivity|].
  destruct (k' =? k); [discriminate|]. now rewrite IH.
Qed.

(** What the estimator computes, step by step. *)
Lemma estimate_unfold (model m : string) (family : Z * Z)
    (messages : list PromptMessage) (tools : option (list PromptMessageTool.t)) :
  normalize_model model = Ok m ->
  accounting_family m = Some family ->
  _num_tokens_from_messages encoding_for_model get_encoding py_repr model messages tools
  = (ds <- mapM _convert_prompt_message_to_dict messages ;;
     s <- sumM (message_tokens (resolve_encoding encoding_for_model get_encoding m)
                  (fst family) (snd family)) ds ;;
     t <- tools_tokens (resolve_encoding encoding_for_model get_encoding m) tools ;;
     Ok (s + 3 + t)).
Proof.
  intros Hm Hfam. unfold _num_tokens_from_messages, tools_tokens.
  rewrite Hm. cbn [bind]. rewrite Hfam. cbn [bind]. destruct family as [tpm tpn].
  cbn [fst snd].
  destruct (mapM _convert_prompt_message_to_dict messages) as [ds|e]; cbn [bind];
    [|reflexivity].
  destruct (sumM _ ds) as [s|e]; cbn [bind]; [|reflexivity].
  destruct (tools_given tools) as [ts|]; cbn [bind]; [reflexivity|].
  f_equal. lia.
Qed.

Lemma estimate_ok_inv (model : string) (messages : list PromptMessage)
    (tools : option (list PromptMessageTool.t)) (n : Z) :
  _num_tokens_from_messages encoding_for_model get_encoding py_repr model messages tools
    = Ok n ->
  exists m family ds s t,
    normalize_model model = Ok m
    /\ accounting_family m = Some family
    /\ mapM _convert_prompt_message_to_dict messages = Ok ds
    /\ sumM (message_tokens (resolve_encoding encoding_for_model get_encoding m)
               (fst family) (snd family)) ds = Ok s
    /\ tools_tokens (resolve_encoding encoding_for_model get_encoding m) tools = Ok t
    /\ n = s + 3 + t.
Proof.
  intros H. destruct (normalize_model_total model) as [m Hm].
  destruct (accounting_family m) as [family|] eqn:Hfam.
  - rewrite (estimate_unfold model m family messages tools Hm Hfam) in H.
    apply bind_ok in H as [ds [Hds H]]. apply bind_ok in H as [s [Hs H]].
    apply bind_ok in H as [t [Ht H]]. injection H as <-.
    exists m, family, ds, s, t. repeat split; assumption.
  - unfold _num_tokens_from_messages in H. rewrite Hm in H. cbn [bind] in H.
    rewrite Hfam in H. discriminate.
Qed.

Lemma converted_same_cost (encoding : Encoding.t) (tokens_per_message tokens_per_name : Z)
    (ms ms' : list PromptMessage) :
  Forall2 same_cost ms ms' ->
  (exists e, mapM _convert_prompt_message_to_dict ms = Raise e
             /\ mapM _convert_prompt_message_to_dict ms' = Raise e)
  \/ (exists ds ds',
         mapM _convert_prompt_message_to_dict ms = Ok ds
         /\ mapM _convert_prompt_message_to_dict ms' = Ok ds'
         /\ sumM (message_tokens encoding tokens_per_message tokens_per_name) ds
            = sumM (message_tokens encoding tokens_per_message tokens_per_name) ds').
Proof.
  induction 1 as [|m m' ms ms' Hm _ IH].
  - right. exists [], []. repeat split.
  - assert (Hhead : (exists e, _convert_prompt_message_to_dict m = Raise e
                               /\ _convert_prompt_message_to_dict m' = Raise e)
                    \/ exists d d',
                        _convert_prompt_message_to_dict m = Ok d
                        /\ _convert_prompt_message_to_dict m' = Ok d'
                        /\ message_tokens encoding tokens_per_message tokens_per_name d
                           = message_tokens encoding tokens_per_message tokens_per_name d').
    { destruct Hm as [<-|[d [d' [Hd [Hd' Heq]]]]].
      - destruct (_convert_prompt_message_to_dict m) as [d|e]; [right | left]; eauto.
      - right. eauto. }
    simpl.
    destruct Hhead as [[e [-> ->]]|[d [d' [-> [-> Heq]]]]]; simpl; [left; eauto|].
    destruct IH as [[e [-> ->]]|[ds [ds' [-> [-> Hsum]]]]]; simpl; [left; eauto|].
    right. exists (d :: ds), (d' :: ds'). repeat split. simpl.
    now rewrite Heq, Hsum.
Qed.

(** The estimate is the same on two lists of messages that cost the same
    position by position. *)
Lemma estimate_same_cost (model : string) (ms ms' : list PromptMessage)
    (tools : option (list PromptMessageTool.t)) :
  Forall2 same_cost ms ms' ->
  _num_tokens_from_messages encoding_for_model get_encoding py_repr model ms tools
  = _num_tokens_from_messages encoding_for_model get_encoding py_repr model ms' tools.
Proof.
  intros H. destruct (normalize_model_total model) as [m Hm].
  destruct (accounting_family m) as [family|] eqn:Hfam.
  - rewrite !(estimate_unfold model m family _ tools Hm Hfam).
    destruct (converted_same_cost
                (resolve_encoding encoding_for_model get_encoding m)
                (fst family) (snd family) ms ms' H)
      as [[e [-> ->]]|[ds [ds' [-> [-> Hsum]]]]]; [reflexivity|].
    cbn [bind]. now rewrite Hsum.
  - unfold _num_tokens_from_messages. rewrite Hm. cbn [bind]. now rewrite Hfam.
Qed.

Lemma same_cost_refl (ms : list PromptMessage) : Forall2 same_cost ms ms.
Proof.
  induction ms; constructor; [now left | assumption].
Qed.

Lemma same_cost_app (a a' b b' : list PromptMessage) :
  Forall2 same_cost a a' -> Forall2 same_cost b b' ->
  Forall2 same_cost (a ++ b) (a' ++ b').
Proof.
  intros Ha Hb. apply Forall2_app; assumption.
Qed.

Lemma flatten_converted_text (parts : list PromptMessageContent) :
  forall (subs : list wire_item) (text : string),
    convert_content_parts parts = Ok subs ->
    flatten_items text subs = Ok (text ++ text_of_parts parts)%string.
Proof.
  unfold text_of_parts.
  induction parts as [|p ps IH]; simpl; intros subs text H.
  - injection H as <-. simpl. now rewrite append_empty_r.
  - apply bind_ok in H as [o [Ho H]]. apply bind_ok in H as [rest [Hrest H]].
    injection H as <-.
    destruct p as [data|data detail|data format|data]; simpl in Ho.
    + injection Ho as <-. simpl. rewrite (IH rest _ Hrest). now rewrite append_assoc.
    + injection Ho as <-. simpl. exact (IH rest _ Hrest).
    + apply bind_ok in Ho as [b [_ Ho]]. injection Ho as <-. simpl.
      exact (IH rest _ Hrest).
    + injection Ho as <-. exact (IH rest _ Hrest).
Qed.

(** X1.  Of a multi-part user message only the text parts are counted, as one
    text: whenever the codec converts the message, replacing its content by
    the concatenation of its text parts changes no estimate, whatever the
    other messages, the model and the tools are.  Images and audio add
    nothing. *)
Theorem multi_part_content_counts_as_its_text (model : string)
    (before after : list PromptMessage) (parts : list PromptMessageContent)
    (name : option string) (tools : option (list PromptMessageTool.t))
    (subs : list wire_item) :
  convert_content_parts parts = Ok subs ->
  _num_tokens_from_messages encoding_for_model get_encoding py_repr model
    (before ++ UserPromptMessage (CParts parts) name :: after) tools
  = _num_tokens_from_messages encoding_for_model get_encoding py_repr model
      (before ++ UserPromptMessage (CStr (text_of_parts parts)) name :: after) tools.
Proof.
  intros Hsubs. apply estimate_same_cost.
  apply same_cost_app; [apply same_cost_refl|].
  constructor; [|apply same_cost_refl].
  right. unfold _convert_prompt_message_to_dict. rewrite Hsubs. cbn [bind message_name].
  eexists _, _. split; [reflexivity|]. split; [reflexivity|].
  intros encoding tpm tpn.
  pose proof (flatten_converted_text parts subs "" Hsubs) as Hflat. simpl in Hflat.
  destruct (Py.truthy name); cbn -[Z.add num_encoded flatten_items];
    unfold message_tokens; cbn -[Z.add num_encoded flatten_items];
    unfold item_tokens; cbn -[Z.add num_encoded flatten_items];
    rewrite Hflat; reflexivity.
Qed.


(** A message without the tool calls an assistant message carries. *)
Definition without_tool_calls (m : PromptMessage) : PromptMessage :=
  match m with
  | AssistantPromptMessage c name _ => AssistantPromptMessage c name []
  | _ => m
  end.

Definition has_text_type (tool_calls : list ToolCall.t) : bool :=
  existsb (fun tc => ToolCall.type tc =? "text") tool_calls.

(** The text the walk encodes for the content of a message that is not a
    user message. *)
Definition content_text (c : Content) : string :=
  match c with
  | CStr s => s
  | CNone => "None"
  | CParts _ => ""
  end.

Lemma bind_ret {A : Type} (m : result A) : (x <- m ;; Ok x) = m.
Proof.
  destruct m; reflexivity.
Qed.

Lemma content_item_tokens (encoding : Encoding.t) (tokens_per_name : Z) (c : Content) :
  item_tokens encoding tokens_per_name "content" (raw_content c)
  = num_encoded encoding (content_text c).
Proof.
  unfold item_tokens.
  destruct c as [|s|parts]; cbn -[num_encoded]; try apply bind_ret.
  rewrite flatten_objects. cbn -[num_encoded]. apply bind_ret.
Qed.

Lemma role_item_tokens (encoding : Encoding.t) (tokens_per_name : Z) (role : string) :
  item_tokens encoding tokens_per_name "role" (WStr role) = num_encoded encoding role.
Proof.
  unfold item_tokens. cbn -[num_encoded]. apply bind_ret.
Qed.

Lemma same_cost_without_tool_calls (c : Content) (name : option string)
    (tool_calls : list ToolCall.t) :
  forallb plain_type tool_calls = true ->
  same_cost (AssistantPromptMessage c name tool_calls) (AssistantPromptMessage c name []).
Proof.
  intros Hplain. destruct tool_calls as [|tc tcs]; [now left|]. right.
  unfold _convert_prompt_message_to_dict. cbn [bind message_name].
  eexists _, _. split; [reflexivity|]. split; [reflexivity|].
  intros encoding tpm tpn.
  assert (Hcalls : item_tokens encoding tpn "tool_calls"
                     (WList (map tool_call_dict (tc :: tcs))) = Ok 0).
  { unfold item_tokens. rewrite (flatten_tool_calls (tc :: tcs) "" Hplain). reflexivity. }
  pose proof (content_item_tokens encoding tpn c) as Hcontent.
  destruct (Py.truthy name);
    cbn -[Z.add num_encoded item_tokens map]; unfold message_tokens;
    cbn -[Z.add num_encoded item_tokens map]; rewrite Hcalls, Hcontent;
    destruct (item_tokens encoding tpn "role" (WStr "assistant")) as [r|e];
    cbn -[Z.add num_encoded item_tokens]; try reflexivity;
    destruct (num_encoded encoding (content_text c)) as [t|e];
    cbn -[Z.add num_encoded item_tokens]; try reflexivity;
    try (destruct (item_tokens encoding tpn "name" (WStr (Py.or_empty name))) as [k|e];
         cbn -[Z.add]; try reflexivity);
    f_equal; lia.
Qed.

(** X2.  The tool calls of assistant messages add nothing to the estimate:
    the walk over the wire record replaces the list under [tool_calls] by its
    flattened text, which is empty, before the loop that was meant to count
    the calls.  Removing the tool calls from every message leaves every
    estimate as it is (as long as no call has the type [text], see below). *)
Theorem tool_calls_are_not_counted (model : string) (messages : list PromptMessage)
    (tools : option (list PromptMessageTool.t)) :
  forallb (fun m => forallb plain_type (message_tool_calls m)) messages = true ->
  _num_tokens_from_messages encoding_for_model get_encoding py_repr model messages tools
  = _num_tokens_from_messages encoding_for_model get_encoding py_repr model
      (map without_tool_calls messages) tools.
Proof.
  intros H. apply estimate_same_cost.
  induction messages as [|m ms IH]; simpl; [constructor|].
  simpl in H. apply andb_true_iff in H as [Hm Hms].
  constructor; [|exact (IH Hms)].
  destruct m; try (now left).
  apply same_cost_without_tool_calls. exact Hm.
Qed.

Lemma flatten_text_typed (tool_calls : list ToolCall.t) (text : string) :
  has_text_type tool_calls = true ->
  flatten_items text (map tool_call_dict tool_calls) = Raise (KeyError "text").
Proof.
  unfold has_text_type.
  induction tool_calls as [|tc tcs IH]; simpl; intros H; [discriminate|].
  destruct (ToolCall.type tc =? "text") eqn:Etext.
  - apply String.eqb_eq in Etext. rewrite Etext. reflexivity.
  - simpl in H. destruct (ToolCall.type tc =? ""); simpl; [auto|].
    rewrite Etext. auto.
Qed.

(** X3.  An assistant message with a tool call whose type is the literal
    [text] makes the estimator raise [KeyError]: the record of that call is
    taken for a text part and has no [text] key.  This holds for every model
    with an accounting family, after any messages that have an estimate and
    before any messages the codec converts, when the tokenizer accepts the
    role and the content of the message, which are encoded before the calls
    are looked at. *)
Theorem text_typed_tool_call_raises_key_error (model m : string) (family : Z * Z)
    (before after : list PromptMessage) (c : Content) (name : option string)
    (tool_calls : list ToolCall.t) (tools : option (list PromptMessageTool.t))
    (converted : list message_dict) (counted role content : Z) :
  normalize_model model = Ok m ->
  accounting_family m = Some family ->
  _num_tokens_from_messages encoding_for_model get_encoding py_repr model before None
    = Ok counted ->
  mapM _convert_prompt_message_to_dict after = Ok converted ->
  num_encoded (resolve_encoding encoding_for_model get_encoding m) "assistant" = Ok role ->
  num_encoded (resolve_encoding encoding_for_model get_encoding m) (content_text c)
    = Ok content ->
  has_text_type tool_calls = true ->
  _num_tokens_from_messages encoding_for_model get_encoding py_repr model
    (before ++ AssistantPromptMessage c name tool_calls :: after) tools
  = Raise (KeyError "text").
Proof.
  intros Hm Hfam Hbefore Hafter Hrole Hcontent Htext.
  rewrite (estimate_unfold model m family _ tools Hm Hfam).
  apply estimate_ok_inv in Hbefore
    as [m' [family' [ds [n [t [Hm' [Hfam' [Hds [Hn _]]]]]]]]].
  rewrite Hm in Hm'. injection Hm' as <-. rewrite Hfam in Hfam'. injection Hfam' as <-.
  set (encoding := resolve_encoding encoding_for_model get_encoding m) in *.
  assert (Hcalls : exists tc tcs, tool_calls = tc :: tcs).
  { destruct tool_calls; [discriminate | eauto]. }
  destruct Hcalls as [tc [tcs ->]].
  rewrite mapM_app, Hds. cbn [bind mapM].
  unfold _convert_prompt_message_to_dict at 1. cbn [bind message_name].
  rewrite Hafter. cbn [bind].
  rewrite sumM_app, Hn. cbn [bind sumM].
  assert (Hraise : item_tokens encoding (snd family) "tool_calls"
                     (WList (map tool_call_dict (tc :: tcs))) = Raise (KeyError "text")).
  { unfold item_tokens. rewrite (flatten_text_typed (tc :: tcs) "" Htext). reflexivity. }
  pose proof (content_item_tokens encoding (snd family) c) as Hitem.
  pose proof (role_item_tokens encoding (snd family) "assistant") as Hkey.
  destruct (Py.truthy name);
    cbn -[Z.add num_encoded item_tokens map]; unfold message_tokens;
    cbn -[Z.add num_encoded item_tokens map];
    rewrite Hkey, Hrole, Hraise, Hitem, Hcontent; reflexivity.
Qed.

Lemma convert_with_name (message : PromptMessage) (d : message_dict) (name : string) :
  Py.truthy (message_name message) = false ->
  is_tool message = false ->
  name <> "" ->
  _convert_prompt_message_to_dict message = Ok d ->
  _convert_prompt_message_to_dict (with_name message (Some name))
  = Ok (d ++ [("name", WStr name)]).
Proof.
  intros Hfalsy Htool Hname H.
  assert (Htruthy : Py.truthy (Some name) = true).
  { simpl. destruct (name =? "") eqn:E; [apply String.eqb_eq in E; contradiction|].
    reflexivity. }
  pose proof (convert_name_key message d H) as Hkey.
  rewrite Hfalsy in Hkey. simpl in Hkey.
  unfold _convert_prompt_message_to_dict in *.
  destruct message as [c n|c n tcs|c n|c n id|c n]; simpl in Hfalsy, Htool;
    try discriminate; cbn [message_name with_name] in *; rewrite Hfalsy in H;
    rewrite Htruthy.
  - destruct c as [|s|parts]; try discriminate.
    + cbn in H |- *. injection H as <-. reflexivity.
    + cbn [bind] in H |- *.
      destruct (convert_content_parts parts) as [subs|e]; [|discriminate].
      cbn in H |- *. injection H as <-. reflexivity.
  - destruct tcs; cbn in H |- *; injection H as <-; reflexivity.
  - cbn in H |- *. injection H as <-. reflexivity.
Qed.

(** X4.  A name costs its own tokens plus the name surcharge of the family
    (1 in the current convention, -1 for gpt-3.5-turbo-0301): naming a
    message that is not a tool message raises the estimate of the
    one-message list by exactly that much, when the tokenizer accepts the
    name.  The name of a tool message is not counted at all. *)
Theorem name_costs_its_tokens_and_the_surcharge (model m : string) (family : Z * Z) :
  normalize_model model = Ok m ->
  accounting_family m = Some family ->
  (forall (message : PromptMessage) (name : string) (n k : Z),
      Py.truthy (message_name message) = false ->
      is_tool message = false ->
      name <> "" ->
      _num_tokens_from_messages encoding_for_model get_encoding py_repr model
        [message] None = Ok n ->
      num_encoded (resolve_encoding encoding_for_model get_encoding m) name = Ok k ->
      _num_tokens_from_messages encoding_for_model get_encoding py_repr model
        [with_name message (Some name)] None
      = Ok (n + k + snd family))
  /\ (forall (c : Content) (name : option string) (tool_call_id : string)
             (tools : option (list PromptMessageTool.t)),
        _num_tokens_from_messages encoding_for_model get_encoding py_repr model
          [ToolPromptMessage c name tool_call_id] tools
        = _num_tokens_from_messages encoding_for_model get_encoding py_repr model
            [ToolPromptMessage c None tool_call_id] tools).
Proof.
  intros Hm Hfam. split.
  - intros message name n k Hfalsy Htool Hname H Hk.
    rewrite (estimate_unfold model m family [message] None Hm Hfam) in H.
    rewrite (estimate_unfold model m family [with_name message (Some name)] None Hm Hfam).
    cbn [mapM] in H |- *.
    destruct (_convert_prompt_message_to_dict message) as [d|e] eqn:Hd; [|discriminate].
    rewrite (convert_with_name message d name Hfalsy Htool Hname Hd).
    cbn [bind sumM] in H |- *. unfold message_tokens in H |- *.
    rewrite sumM_app.
    destruct (sumM _ d) as [s|e]; [|discriminate].
    cbn -[Z.add num_encoded] in H |- *. injection H as <-.
    unfold item_tokens. cbn -[Z.add num_encoded]. rewrite Hk. cbn -[Z.add].
    f_equal. lia.
  - intros c name tool_call_id tools. apply estimate_same_cost.
    constructor; [|constructor].
    right. unfold _convert_prompt_message_to_dict. cbn [bind message_name].
    eexists _, _. split; [reflexivity|]. split; [reflexivity|].
    intros encoding tpm tpn. cbn. rewrite !andb_false_r. reflexivity.
Qed.

(** X5.  The estimate is additive over the message list, up to the priming
    of the reply, which is counted once: if two lists have an estimate (the
    tools counted with the second), their concatenation has the sum of both
    less 3. *)
Theorem estimate_of_concatenation (model : string) (a b : list PromptMessage)
    (tools : option (list PromptMessageTool.t)) (na nb : Z) :
  _num_tokens_from_messages encoding_for_model get_encoding py_repr model a None = Ok na ->
  _num_tokens_from_messages encoding_for_model get_encoding py_repr model b tools = Ok nb ->
  _num_tokens_from_messages encoding_for_model get_encoding py_repr model (a ++ b) tools
  = Ok (na + nb - 3).
Proof.
  intros Ha Hb.
  apply estimate_ok_inv in Ha as [m [family [da [sa [ta [Hm [Hfam [Hda [Hsa [Hta ->]]]]]]]]]].
  apply estimate_ok_inv in Hb as [m' [family' [db [sb [tb [Hm' [Hfam' [Hdb [Hsb [Htb ->]]]]]]]]]].
  rewrite Hm in Hm'. injection Hm' as <-. rewrite Hfam in Hfam'. injection Hfam' as <-.
  rewrite (estimate_unfold model m family _ tools Hm Hfam).
  rewrite mapM_app, Hda, Hdb. cbn [bind].
  rewrite sumM_app, Hsa, Hsb. cbn [bind]. rewrite Htb. cbn [bind].
  unfold tools_tokens in Hta. cbn in Hta. injection Hta as <-.
  f_equal. lia.
Qed.

(** X6.  A tool whose parameter schema has no [type] makes every estimate
    that counts the tools fail: the text estimator, which without tools fails
    only where the tokenizer refuses the text, raises on any tool list that
    contains such a tool. *)
Theorem tool_without_type_fails_the_estimate (model text : string)
    (tools : list PromptMessageTool.t) (tool : PromptMessageTool.t) :
  In tool tools ->
  Py.get "type" (PromptMessageTool.parameters tool) = None ->
  exists e,
    _num_tokens_from_string encoding_for_model get_encoding py_repr model text (Some tools)
    = Raise e.
Proof.
  intros Hin Htype. unfold _num_tokens_from_string.
  set (encoding := resolve_encoding encoding_for_model get_encoding model).
  destruct (num_encoded encoding text) as [num_tokens|e]; [|simpl; eauto]. cbn [bind].
  assert (Htools : tools_given (Some tools) = Some tools).
  { destruct tools; [destruct Hin | reflexivity]. }
  rewrite Htools.
  assert (Hraise : exists e, _num_tokens_for_tools py_repr encoding tools = Raise e).
  { unfold _num_tokens_for_tools. clear Htools.
    induction tools as [|t ts IH]; [destruct Hin|]. simpl.
    destruct (tool_tokens py_repr encoding t) as [n|e] eqn:Ht; [|simpl; eauto].
    destruct Hin as [->|Hin].
    - exfalso. unfold tool_tokens in Ht.
      apply bind_ok in Ht as [fixed [_ Ht]]. apply bind_ok in Ht as [key [_ Ht]].
      apply bind_ok in Ht as [title [_ Ht]]. apply bind_ok in Ht as [type_key [_ Ht]].
      rewrite Htype in Ht. discriminate.
    - destruct (IH Hin) as [e ->]. simpl. eauto. }
  destruct Hraise as [e ->]. simpl. eauto.
Qed.


(** ** Chat stream handler: plain content streams *)

(** A fragment that only carries content: one choice (at least), no finish
    reason, no tool-call or function-call payload. *)
Definition content_only (chunk : ChatCompletionChunk.t) : bool :=
  match ChatCompletionChunk.choices chunk with
  | delta :: _ =>
      is_none (Choice.finish_reason delta)
      && is_none (ChoiceDelta.tool_calls (Choice.delta delta))
      && is_none (ChoiceDelta.function_call (Choice.delta delta))
  | [] => false
  end.

(** The text of the first choice of a fragment. *)
Definition fragment_text (chunk : ChatCompletionChunk.t) : string :=
  match ChatCompletionChunk.choices chunk with
  | delta :: _ => Py.or_empty (ChoiceDelta.content (Choice.delta delta))
  | [] => ""
  end.

(** The chunk a content fragment is turned into; none for an empty text. *)
Definition content_chunk (prompt_messages : list PromptMessage)
    (chunk : ChatCompletionChunk.t) : list (LLMResultChunk.t U) :=
  match ChatCompletionChunk.choices chunk with
  | delta :: _ =>
      if fragment_text chunk =? "" then []
      else [result_chunk prompt_messages chunk delta
              (AssistantPromptMessage (CStr (fragment_text chunk)) None []) None]
  | [] => []
  end.

(** A fragment that ends a content stream for [model]: a finish reason the
    handler recognises, other than [tool_calls], and no tool-call or
    function-call payload. *)
Definition finishes_content (model : string) (chunk : ChatCompletionChunk.t) : bool :=
  match ChatCompletionChunk.choices chunk with
  | delta :: _ =>
      has_finish_reason model (Choice.finish_reason delta)
      && negb (finish_reason_is (Choice.finish_reason delta) "tool_calls")
      && is_none (ChoiceDelta.tool_calls (Choice.delta delta))
      && is_none (ChoiceDelta.function_call (Choice.delta delta))
  | [] => false
  end.

(** The chunk held for the fragment that ends the stream. *)
Definition finish_chunk (prompt_messages : list PromptMessage)
    (chunk : ChatCompletionChunk.t) : list (LLMResultChunk.t U) :=
  match ChatCompletionChunk.choices chunk with
  | delta :: _ =>
      [result_chunk prompt_messages chunk delta
         (AssistantPromptMessage (CStr (fragment_text chunk)) None [])
         (Choice.finish_reason delta)]
  | [] => []
  end.

(** The state with more accumulated text. *)
Definition with_content (st : ChatState.t U) (text : string) : ChatState.t U :=
  {| ChatState.full_assistant_content := (ChatState.full_assistant_content st ++ text)%string;
     ChatState.delta_assistant_message_function_call_storage :=
       ChatState.delta_assistant_message_function_call_storage st;
     ChatState.prompt_tokens := ChatState.prompt_tokens st;
     ChatState.completion_tokens := ChatState.completion_tokens st;
     ChatState.final_tool_calls := ChatState.final_tool_calls st;
     ChatState.aggregated_tool_calls := ChatState.aggregated_tool_calls st;
     ChatState.final_chunk := ChatState.final_chunk st |}.

(** The loop over a concatenation is the loop over the first part followed,
    unless it raised, by the loop over the second part from the state
    reached. *)
Lemma chat_stream_loop_app (model : string) (prompt_messages : list PromptMessage)
    (a b : list ChatCompletionChunk.t) :
  forall st,
    chat_stream_loop model prompt_messages st (a ++ b)
    = match chat_stream_loop model prompt_messages st a with
      | (chunks, Ok st') =>
          let '(more, r) := chat_stream_loop model prompt_messages st' b in
          (chunks ++ more, r)
      | (chunks, Raise e) => (chunks, Raise e)
      end.
Proof.
  induction a as [|chunk a IH]; intros st; simpl.
  - destruct (chat_stream_loop model prompt_messages st b). reflexivity.
  - destruct (chat_stream_step model prompt_messages st chunk) as [[st1 out]|e];
      [|reflexivity].
    rewrite IH.
    destruct (chat_stream_loop model prompt_messages st1 a) as [chunks [st2|e]];
      [|reflexivity].
    destruct (chat_stream_loop model prompt_messages st2 b) as [more r].
    now rewrite app_assoc.
Qed.

Lemma state_eta (st : ChatState.t U) :
  {| ChatState.full_assistant_content := ChatState.full_assistant_content st;
     ChatState.delta_assistant_message_function_call_storage :=
       ChatState.delta_assistant_message_function_call_storage st;
     ChatState.prompt_tokens := ChatState.prompt_tokens st;
     ChatState.completion_tokens := ChatState.completion_tokens st;
     ChatState.final_tool_calls := ChatState.final_tool_calls st;
     ChatState.aggregated_tool_calls := ChatState.aggregated_tool_calls st;
     ChatState.final_chunk := ChatState.final_chunk st |} = st.
Proof.
  destruct st. reflexivity.
Qed.

Lemma content_step (model : string) (prompt_messages : list PromptMessage)
    (st : ChatState.t U) (chunk : ChatCompletionChunk.t) :
  content_only chunk = true ->
  ChatState.delta_assistant_message_function_call_storage st = None ->
  chat_stream_step model prompt_messages st chunk
  = Ok (with_content st (fragment_text chunk), content_chunk prompt_messages chunk).
Proof.
  unfold content_only, chat_stream_step, content_chunk, fragment_text, with_content.
  intros H Hstorage.
  destruct (ChatCompletionChunk.choices chunk) as [|delta rest]; [discriminate|].
  apply andb_true_iff in H as [H Hfc]. apply andb_true_iff in H as [Hfin Hcalls].
  destruct (Choice.finish_reason delta) as [r|] eqn:Efin; [discriminate|].
  destruct (ChoiceDelta.tool_calls (Choice.delta delta)) as [calls|] eqn:Ecalls;
    [discriminate|].
  destruct (ChoiceDelta.function_call (Choice.delta delta)) as [fc|] eqn:Efc;
    [discriminate|].
  cbn [has_finish_reason negb andb is_none].
  destruct (ChoiceDelta.content (Choice.delta delta)) as [text|] eqn:Econtent.
  - cbn [Py.truthy Py.or_empty]. destruct (text =? "") eqn:Etext; cbn [negb andb].
    + apply String.eqb_eq in Etext. subst text.
      rewrite append_empty_r, state_eta. reflexivity.
    + rewrite Hstorage. cbn [legacy_function_call bind _extract_response_function_call].
      unfold chat_stream_emit. rewrite Ecalls, Efin, Econtent. cbn [bind andb Py.or_empty].
      now rewrite app_nil_r.
  - cbn [Py.truthy Py.or_empty negb String.eqb].
    rewrite append_empty_r, state_eta. reflexivity.
Qed.

Lemma content_loop (model : string) (prompt_messages : list PromptMessage)
    (response : list ChatCompletionChunk.t) :
  forall st,
    forallb content_only response = true ->
    ChatState.delta_assistant_message_function_call_storage st = None ->
    chat_stream_loop model prompt_messages st response
    = (flat_map (content_chunk prompt_messages) response,
       Ok (with_content st (concat_all (map fragment_text response)))).
Proof.
  induction response as [|chunk rest IH]; intros st H Hstorage; simpl.
  - unfold with_content. now rewrite append_empty_r, state_eta.
  - simpl in H. apply andb_true_iff in H as [Hchunk Hrest].
    rewrite (content_step model prompt_messages st chunk Hchunk Hstorage).
    rewrite (IH (with_content st (fragment_text chunk)) Hrest Hstorage).
    unfold with_content. simpl. now rewrite append_assoc.
Qed.

(** X7.  Content fragments are delivered one chunk each, in arrival order,
    with their own text and nothing else; a fragment with empty or absent
    content is a keep-alive and yields nothing.  Meanwhile the accumulated
    text grows by the concatenation of the fragment texts and no other local
    of the handler changes. *)
Theorem content_fragments_are_yielded_in_order (model : string)
    (prompt_messages : list PromptMessage) (st : ChatState.t U)
    (response : list ChatCompletionChunk.t) :
  forallb content_only response = true ->
  ChatState.delta_assistant_message_function_call_storage st = None ->
  chat_stream_loop model prompt_messages st response
  = (flat_map (content_chunk prompt_messages) response,
     Ok (with_content st (concat_all (map fragment_text response)))).
Proof.
  intros H Hstorage. apply content_loop; assumption.
Qed.

(** The loop on a plain content stream: the chunks of the body, and the state
    the finishing fragment leaves. *)
Lemma content_stream_loop (model : string) (prompt_messages : list PromptMessage)
    (body : list ChatCompletionChunk.t) (last : ChatCompletionChunk.t) :
  forallb content_only body = true ->
  finishes_content model last = true ->
  exists st,
    chat_stream_loop model prompt_messages (chat_initial_state model prompt_messages)
      (body ++ [last])
    = (flat_map (content_chunk prompt_messages) body, Ok st)
    /\ ChatState.prompt_tokens st = 0
    /\ ChatState.completion_tokens st = 0
    /\ ChatState.full_assistant_content st
       = (concat_all (map fragment_text body) ++ fragment_text last)%string
    /\ ChatState.final_tool_calls st = []
    /\ [ChatState.final_chunk st] = finish_chunk prompt_messages last.
Proof.
  intros Hbody Hlast.
  rewrite chat_stream_loop_app.
  rewrite (content_loop model prompt_messages body
             (chat_initial_state model prompt_messages) Hbody eq_refl).
  unfold finishes_content in Hlast. unfold finish_chunk.
  cbn [chat_stream_loop]. unfold chat_stream_step at 1.
  destruct (ChatCompletionChunk.choices last) as [|delta rest] eqn:Echoices;
    [discriminate|].
  assert (Htext : fragment_text last
                  = Py.or_empty (ChoiceDelta.content (Choice.delta delta))).
  { unfold fragment_text. now rewrite Echoices. }
  rewrite Htext.
  apply andb_true_iff in Hlast as [Hlast Hfc]. apply andb_true_iff in Hlast as [Hlast Hcalls].
  apply andb_true_iff in Hlast as [Hfin Hreason]. apply negb_true_iff in Hreason.
  destruct (ChoiceDelta.tool_calls (Choice.delta delta)) as [calls|] eqn:Ecalls;
    [discriminate|].
  destruct (ChoiceDelta.function_call (Choice.delta delta)) as [fc|] eqn:Efc;
    [discriminate|].
  rewrite Hfin. cbn [negb andb with_content ChatState.delta_assistant_message_function_call_storage
                       chat_initial_state legacy_function_call bind
                       _extract_response_function_call].
  unfold chat_stream_emit. rewrite Ecalls, Hreason.
  cbn [bind andb app]. rewrite app_nil_r.
  eexists. split; [reflexivity|].
  cbn [ChatState.prompt_tokens ChatState.completion_tokens with_content chat_initial_state
         ChatState.full_assistant_content ChatState.final_tool_calls
         ChatState.final_chunk app String.append].
  repeat split.
Qed.

(** X8.  A plain content stream, from start to end: content fragments
    followed by one finishing fragment, with no usage on the wire.  The
    handler yields the content chunks in order and then, last, the chunk of
    the finishing fragment with its text and finish reason and with the usage
    built from the two estimates: of the prompt (with the tools) and of one
    assistant message holding all the text of the stream. *)
Theorem plain_content_stream (model : string) (creds : credentials)
    (body : list ChatCompletionChunk.t) (last : ChatCompletionChunk.t)
    (prompt_messages : list PromptMessage) (tools : option (list PromptMessageTool.t))
    (prompt_tokens completion_tokens : Z) :
  forallb content_only body = true ->
  finishes_content model last = true ->
  _num_tokens_from_messages encoding_for_model get_encoding py_repr model
    prompt_messages tools = Ok prompt_tokens ->
  _num_tokens_from_messages encoding_for_model get_encoding py_repr model
    [AssistantPromptMessage
       (CStr (concat_all (map fragment_text body) ++ fragment_text last)%string) None []]
    None = Ok completion_tokens ->
  _handle_chat_generate_stream_response model creds (body ++ [last]) prompt_messages tools
  = {| Generator.yielded :=
         flat_map (content_chunk prompt_messages) body
         ++ map (fun chunk =>
                   set_usage chunk
                     (_calc_response_usage model creds prompt_tokens completion_tokens))
              (finish_chunk prompt_messages last);
       Generator.raised := None |}.
Proof.
  intros Hbody Hlast Hprompt Hcompletion.
  destruct (content_stream_loop model prompt_messages body last Hbody Hlast)
    as [st [Hloop [Hp [Hc [Hfull [Hcalls Hfinal]]]]]].
  unfold _handle_chat_generate_stream_response. rewrite Hloop.
  unfold chat_stream_final. rewrite Hp, Hc, Hfull, Hcalls. cbn [Z.eqb].
  rewrite Hprompt, Hcompletion. cbn [bind]. now rewrite <- Hfinal.
Qed.

(** X9.  Usage reported on the wire wins over estimation: when the stream
    ends with a choice-less fragment whose usage block has two non-zero
    counts, and the fragments before it were processed without an exception,
    the handler completes with the usage built from those two counts, for any
    model and any tools, known to the estimator or not. *)
Theorem wire_usage_needs_no_estimate (model : string) (creds : credentials)
    (body : list ChatCompletionChunk.t) (trailer : ChatCompletionChunk.t)
    (prompt_messages : list PromptMessage) (tools : option (list PromptMessageTool.t))
    (chunks : list (LLMResultChunk.t U)) (st : ChatState.t U)
    (usage : CompletionUsage.t) :
  chat_stream_loop model prompt_messages (chat_initial_state model prompt_messages) body
    = (chunks, Ok st) ->
  ChatCompletionChunk.choices trailer = [] ->
  ChatCompletionChunk.usage trailer = Some usage ->
  CompletionUsage.prompt_tokens usage <> 0 ->
  CompletionUsage.completion_tokens usage <> 0 ->
  _handle_chat_generate_stream_response model creds (body ++ [trailer])
    prompt_messages tools
  = {| Generator.yielded :=
         chunks ++ [set_usage (ChatState.final_chunk st)
                      (_calc_response_usage model creds
                         (CompletionUsage.prompt_tokens usage)
                         (CompletionUsage.completion_tokens usage))];
       Generator.raised := None |}.
Proof.
  intros Hloop Hchoices Husage Hp Hc.
  unfold _handle_chat_generate_stream_response.
  rewrite chat_stream_loop_app, Hloop.
  cbn [chat_stream_loop]. unfold chat_stream_step. rewrite Hchoices, Husage.
  unfold chat_stream_final. cbn [with_usage ChatState.prompt_tokens
                                   ChatState.completion_tokens ChatState.final_chunk].
  apply Z.eqb_neq in Hp, Hc. rewrite Hp, Hc. cbn [bind]. now rewrite app_nil_r.
Qed.


(** ** Chat stream handler: legacy function calls of any length *)

(** The function call a fragment brings to the legacy branch: the fragment
    has a first choice without finish reason and without tool calls. *)
Definition function_call_of (chunk : ChatCompletionChunk.t)
  : option ChoiceDeltaFunctionCall.t :=
  match ChatCompletionChunk.choices chunk with
  | delta :: _ =>
      match Choice.finish_reason delta, ChoiceDelta.tool_calls (Choice.delta delta) with
      | None, None | None, Some [] => ChoiceDelta.function_call (Choice.delta delta)
      | _, _ => None
      end
  | [] => None
  end.

(** The arguments a continuation fragment adds to the buffered call. *)
Definition continuation_arguments (chunk : ChatCompletionChunk.t) : option string :=
  match function_call_of chunk with
  | Some fc => ChoiceDeltaFunctionCall.arguments fc
  | None => None
  end.

Definition buffered (name : option string) (arguments : string)
  : option ChoiceDeltaFunctionCall.t :=
  Some {| ChoiceDeltaFunctionCall.name := name;
          ChoiceDeltaFunctionCall.arguments := Some arguments |}.

Lemma with_storage_same (st : ChatState.t U) :
  with_storage st (ChatState.delta_assistant_message_function_call_storage st) = st.
Proof.
  destruct st. reflexivity.
Qed.

Lemma function_call_of_inv (chunk : ChatCompletionChunk.t) (fc : ChoiceDeltaFunctionCall.t) :
  function_call_of chunk = Some fc ->
  exists delta rest,
    ChatCompletionChunk.choices chunk = delta :: rest
    /\ Choice.finish_reason delta = None
    /\ (ChoiceDelta.tool_calls (Choice.delta delta) = None
        \/ ChoiceDelta.tool_calls (Choice.delta delta) = Some [])
    /\ ChoiceDelta.function_call (Choice.delta delta) = Some fc.
Proof.
  unfold function_call_of. intros H.
  destruct (ChatCompletionChunk.choices chunk) as [|delta rest]; [discriminate|].
  exists delta, rest.
  destruct (Choice.finish_reason delta); [discriminate|].
  destruct (ChoiceDelta.tool_calls (Choice.delta delta)) as [[|c cs]|];
    try discriminate; auto.
Qed.

Lemma legacy_open_step (model : string) (prompt_messages : list PromptMessage)
    (st : ChatState.t U) (chunk : ChatCompletionChunk.t) (fc : ChoiceDeltaFunctionCall.t) :
  function_call_of chunk = Some fc ->
  ChatState.delta_assistant_message_function_call_storage st = None ->
  chat_stream_step model prompt_messages st chunk
  = Ok (with_storage st
          (buffered (ChoiceDeltaFunctionCall.name fc)
             (Py.or_empty (ChoiceDeltaFunctionCall.arguments fc))), []).
Proof.
  intros Hfc Hstorage.
  apply function_call_of_inv in Hfc as [delta [rest [Hchoices [Hfin [Hcalls Hfc]]]]].
  unfold chat_stream_step. rewrite Hchoices, Hfin, Hfc, Hstorage.
  cbn [has_finish_reason is_none negb andb].
  rewrite !andb_false_r.
  destruct Hcalls as [-> | ->]; reflexivity.
Qed.

Lemma legacy_continue_step (model : string) (prompt_messages : list PromptMessage)
    (st : ChatState.t U) (chunk : ChatCompletionChunk.t) (name : option string)
    (acc a : string) :
  continuation_arguments chunk = Some a ->
  ChatState.delta_assistant_message_function_call_storage st = buffered name acc ->
  chat_stream_step model prompt_messages st chunk
  = Ok (with_storage st (buffered name (acc ++ a)%string), []).
Proof.
  unfold continuation_arguments. intros Hargs Hstorage.
  destruct (function_call_of chunk) as [fc|] eqn:Hfc; [|discriminate].
  apply function_call_of_inv in Hfc as [delta [rest [Hchoices [Hfin [Hcalls Hfc]]]]].
  unfold chat_stream_step. rewrite Hchoices, Hfin, Hfc, Hstorage.
  cbn [has_finish_reason is_none negb andb].
  rewrite !andb_false_r.
  destruct Hcalls as [-> | ->]; unfold buffered, legacy_function_call;
    cbn [ChoiceDeltaFunctionCall.arguments ChoiceDeltaFunctionCall.name];
    rewrite Hargs; reflexivity.
Qed.

Lemma legacy_continue_loop (model : string) (prompt_messages : list PromptMessage)
    (continuations : list ChatCompletionChunk.t) :
  forall (st : ChatState.t U) (name : option string) (acc : string) (arguments : list string),
    map continuation_arguments continuations = map Some arguments ->
    ChatState.delta_assistant_message_function_call_storage st = buffered name acc ->
    chat_stream_loop model prompt_messages st continuations
    = ([], Ok (with_storage st (buffered name (acc ++ concat_all arguments)%string))).
Proof.
  induction continuations as [|chunk rest IH]; intros st name acc arguments Hargs Hstorage.
  - destruct arguments; [|discriminate]. simpl.
    rewrite append_empty_r, <- Hstorage, with_storage_same. reflexivity.
  - destruct arguments as [|a arguments]; [discriminate|].
    simpl in Hargs. injection Hargs as Ha Hargs. simpl.
    rewrite (legacy_continue_step model prompt_messages st chunk name acc a Ha Hstorage).
    rewrite (IH (with_storage st (buffered name (acc ++ a)%string)) name
               (acc ++ a)%string arguments Hargs eq_refl).
    simpl. now rewrite append_assoc.
Qed.

(** X10.  A legacy function call of any length: a fragment that opens the
    buffer, any number of continuation fragments, then a fragment that ends
    the content stream.  Nothing is yielded while the call is buffered, the
    buffered arguments are those of the opening fragment followed by the
    arguments of the continuations in arrival order, and the finishing
    fragment closes the buffer into exactly one completed call, named (and
    identified) by the opening fragment. *)
Theorem legacy_call_of_any_length (model : string) (prompt_messages : list PromptMessage)
    (start finish : ChatCompletionChunk.t) (continuations : list ChatCompletionChunk.t)
    (fc : ChoiceDeltaFunctionCall.t) (arguments : list string) :
  function_call_of start = Some fc ->
  map continuation_arguments continuations = map Some arguments ->
  finishes_content model finish = true ->
  chat_stream_loop model prompt_messages (chat_initial_state model prompt_messages)
    (start :: continuations)
  = ([], Ok (with_storage (chat_initial_state model prompt_messages)
               (buffered (ChoiceDeltaFunctionCall.name fc)
                  (Py.or_empty (ChoiceDeltaFunctionCall.arguments fc)
                   ++ concat_all arguments)%string)))
  /\ exists st,
      chat_stream_loop model prompt_messages (chat_initial_state model prompt_messages)
        (start :: continuations ++ [finish])
      = ([], Ok st)
      /\ ChatState.final_tool_calls st
         = [{| ToolCall.id := Py.or_empty (ChoiceDeltaFunctionCall.name fc);
               ToolCall.type := "function";
               ToolCall.function :=
                 {| ToolCallFunction.name :=
                      Py.or_empty (ChoiceDeltaFunctionCall.name fc);
                    ToolCallFunction.arguments :=
                      (Py.or_empty (ChoiceDeltaFunctionCall.arguments fc)
                       ++ concat_all arguments)%string |} |}]
      /\ ChatState.delta_assistant_message_function_call_storage st = None
      /\ [ChatState.final_chunk st] = finish_chunk prompt_messages finish.
Proof.
  intros Hstart Hargs Hfinish.
  assert (Hbuffer :
    chat_stream_loop model prompt_messages (chat_initial_state model prompt_messages)
      (start :: continuations)
    = ([], Ok (with_storage (chat_initial_state model prompt_messages)
                 (buffered (ChoiceDeltaFunctionCall.name fc)
                    (Py.or_empty (ChoiceDeltaFunctionCall.arguments fc)
                     ++ concat_all arguments)%string)))).
  { cbn [chat_stream_loop].
    rewrite (legacy_open_step model prompt_messages
               (chat_initial_state model prompt_messages) start fc Hstart eq_refl).
    rewrite (legacy_continue_loop model prompt_messages continuations
               (with_storage (chat_initial_state model prompt_messages)
                  (buffered (ChoiceDeltaFunctionCall.name fc)
                     (Py.or_empty (ChoiceDeltaFunctionCall.arguments fc))))
               (ChoiceDeltaFunctionCall.name fc)
               (Py.or_empty (ChoiceDeltaFunctionCall.arguments fc)) arguments
               Hargs eq_refl).
    reflexivity. }
  split; [exact Hbuffer|].
  change (start :: continuations ++ [finish]) with ((start :: continuations) ++ [finish]).
  rewrite chat_stream_loop_app, Hbuffer.
  unfold finishes_content in Hfinish. unfold finish_chunk, fragment_text.
  cbn [chat_stream_loop]. unfold chat_stream_step.
  destruct (ChatCompletionChunk.choices finish) as [|delta rest]; [discriminate|].
  apply andb_true_iff in Hfinish as [H Hfc]. apply andb_true_iff in H as [H Hcalls].
  apply andb_true_iff in H as [Hfin Hreason]. apply negb_true_iff in Hreason.
  destruct (ChoiceDelta.tool_calls (Choice.delta delta)) as [calls|] eqn:Ecalls;
    [discriminate|].
  destruct (ChoiceDelta.function_call (Choice.delta delta)) as [f|] eqn:Efc;
    [discriminate|].
  rewrite Hfin. cbn [negb andb with_storage buffered
                       ChatState.delta_assistant_message_function_call_storage
                       legacy_function_call bind].
  unfold chat_stream_emit. rewrite Ecalls, Hreason. cbn [bind andb].
  eexists. split; [reflexivity|]. repeat split.
Qed.

(** ** Chat stream handler: models of the yi- family *)

Lemma yi_has_no_tool_calls_finish (model : string) (finish_reason : option string) :
  Py.startswith "yi-" model = true ->
  has_finish_reason model finish_reason
  && finish_reason_is finish_reason "tool_calls" = false.
Proof.
  intros Hyi. destruct finish_reason as [r|]; [|reflexivity].
  unfold has_finish_reason, finish_reason_is. rewrite Hyi.
  destruct (r =? "tool_calls") eqn:E; [|apply andb_false_r].
  apply String.eqb_eq in E. subst r. reflexivity.
Qed.

Lemma emit_without_tool_calls (prompt_messages : list PromptMessage)
    (st st' : ChatState.t U) (chunk : ChatCompletionChunk.t) (delta : Choice.t)
    (has_finish : bool) (storage : option ChoiceDeltaFunctionCall.t)
    (tool_calls : list ToolCall.t) (out : list (LLMResultChunk.t U)) :
  has_finish && finish_reason_is (Choice.finish_reason delta) "tool_calls" = false ->
  chat_stream_emit prompt_messages st chunk delta has_finish storage tool_calls
    = Ok (st', out) ->
  held_chunk (ChatState.final_chunk st) ->
  Forall (fun c => chunk_tool_calls c = []) out
  /\ held_chunk (ChatState.final_chunk st').
Proof.
  unfold chat_stream_emit. intros Hpath H Hheld.
  apply bind_ok in H as [aggregated [_ H]]. rewrite Hpath in H.
  injection H as <- <-. destruct has_finish; simpl.
  - split; [constructor | split; reflexivity].
  - split; [repeat constructor | exact Hheld].
Qed.

Lemma yi_step (model : string) (prompt_messages : list PromptMessage)
    (st st' : ChatState.t U) (chunk : ChatCompletionChunk.t)
    (out : list (LLMResultChunk.t U)) :
  Py.startswith "yi-" model = true ->
  chat_stream_step model prompt_messages st chunk = Ok (st', out) ->
  held_chunk (ChatState.final_chunk st) ->
  Forall (fun c => chunk_tool_calls c = []) out
  /\ held_chunk (ChatState.final_chunk st').
Proof.
  unfold chat_stream_step. intros Hyi H Hheld.
  destruct (ChatCompletionChunk.choices chunk) as [|delta rest].
  - injection H as <- <-. split; [constructor|].
    destruct (ChatCompletionChunk.usage chunk); exact Hheld.
  - pose proof (yi_has_no_tool_calls_finish model (Choice.finish_reason delta) Hyi)
      as Hpath.
    match type of H with
    | (if ?b then _ else _) = _ => destruct b
    end.
    + injection H as <- <-. split; [constructor | exact Hheld].
    + destruct (ChoiceDelta.tool_calls (Choice.delta delta)) as [[|c cs]|].
      * apply bind_ok in H as [flow [_ H]].
        destruct flow as [storage|storage fc].
        -- injection H as <- <-. split; [constructor | exact Hheld].
        -- eapply emit_without_tool_calls; eauto.
      * eapply emit_without_tool_calls; eauto.
      * apply bind_ok in H as [flow [_ H]].
        destruct flow as [storage|storage fc].
        -- injection H as <- <-. split; [constructor | exact Hheld].
        -- eapply emit_without_tool_calls; eauto.
Qed.

Lemma yi_loop (model : string) (prompt_messages : list PromptMessage)
    (response : list ChatCompletionChunk.t) :
  Py.startswith "yi-" model = true ->
  forall (st : ChatState.t U) (chunks : list (LLMResultChunk.t U))
         (r : result (ChatState.t U)),
    chat_stream_loop model prompt_messages st response = (chunks, r) ->
    held_chunk (ChatState.final_chunk st) ->
    Forall (fun c => chunk_tool_calls c = []) chunks
    /\ (forall st', r = Ok st' -> held_chunk (ChatState.final_chunk st')).
Proof.
  intros Hyi.
  induction response as [|chunk rest IH]; intros st chunks r H Hheld; simpl in H.
  - injection H as <- <-. split; [constructor|].
    intros st' Hst. injection Hst as <-. exact Hheld.
  - destruct (chat_stream_step model prompt_messages st chunk) as [[st1 out]|e] eqn:Hstep.
    + destruct (chat_stream_loop model prompt_messages st1 rest) as [more r1] eqn:Hloop.
      injection H as <- <-.
      destruct (yi_step _ _ _ _ _ _ Hyi Hstep Hheld) as [Hout Hheld1].
      destruct (IH _ _ _ Hloop Hheld1) as [Hmore Hr].
      split; [apply Forall_app; split; assumption | exact Hr].
    + injection H as <- <-. split; [constructor | intros st' Hst; discriminate].
Qed.

(** X11.  For a model whose name starts with [yi-] the handler never delivers
    a tool call: a finish reason counts only when it starts with [length],
    [stop] or [content_filter], so the [tool_calls] finish is never
    recognised and the terminal tool-calls chunk is never built.  Every chunk
    of every stream, the final one included, has an empty list of tool
    calls. *)
Theorem yi_models_never_yield_tool_calls (model : string) (creds : credentials)
    (response : list ChatCompletionChunk.t) (prompt_messages : list PromptMessage)
    (tools : option (list PromptMessageTool.t)) (chunk : LLMResultChunk.t U) :
  Py.startswith "yi-" model = true ->
  In chunk
     (Generator.yielded
        (_handle_chat_generate_stream_response model creds response prompt_messages tools)) ->
  chunk_tool_calls chunk = [].
Proof.
  intros Hyi Hin. unfold _handle_chat_generate_stream_response in Hin.
  destruct (chat_stream_loop model prompt_messages
              (chat_initial_state model prompt_messages) response)
    as [chunks r] eqn:Hloop.
  destruct (yi_loop model prompt_messages response Hyi _ _ _ Hloop)
    as [Hchunks Hheld]; [split; reflexivity|].
  assert (Hbody : forall c, In c chunks -> chunk_tool_calls c = []).
  { intros c Hc. exact (proj1 (Forall_forall _ _) Hchunks c Hc). }
  destruct r as [st|e]; [|auto].
  destruct (chat_stream_final model creds prompt_messages tools st) as [final|e] eqn:Hf;
    simpl in Hin; [|auto].
  apply in_app_or in Hin as [Hin|[<-|[]]]; [auto|].
  unfold chat_stream_final in Hf.
  apply bind_ok in Hf as [p [_ Hf]]. apply bind_ok in Hf as [c [_ Hf]].
  injection Hf as <-.
  exact (proj2 (Hheld st eq_refl)).
Qed.


(** ** Chat stream handler: a streamed tool call from start to end *)

(** The tool call of a fragment that carries exactly one, without content and
    without finish reason. *)
Definition sole_tool_call (chunk : ChatCompletionChunk.t) : option ChoiceDeltaToolCall.t :=
  match ChatCompletionChunk.choices chunk with
  | delta :: _ =>
      match Choice.finish_reason delta, ChoiceDelta.tool_calls (Choice.delta delta) with
      | None, Some [c] =>
          if Py.truthy (ChoiceDelta.content (Choice.delta delta)) then None else Some c
      | _, _ => None
      end
  | [] => None
  end.

(** A fragment that ends a stream of tool calls for [model]: the finish
    reason [tool_calls], recognised, and no payload of its own. *)
Definition finishes_tool_calls (model : string) (chunk : ChatCompletionChunk.t) : bool :=
  match ChatCompletionChunk.choices chunk with
  | delta :: _ =>
      has_finish_reason model (Choice.finish_reason delta)
      && finish_reason_is (Choice.finish_reason delta) "tool_calls"
      && is_none (ChoiceDelta.tool_calls (Choice.delta delta))
      && is_none (ChoiceDelta.function_call (Choice.delta delta))
  | [] => false
  end.

(** The terminal chunk of a stream of tool calls. *)
Definition terminal_chunk (prompt_messages : list PromptMessage)
    (chunk : ChatCompletionChunk.t) (tool_calls : list ToolCall.t)
  : list (LLMResultChunk.t U) :=
  match ChatCompletionChunk.choices chunk with
  | delta :: _ =>
      [result_chunk prompt_messages chunk delta
         (AssistantPromptMessage (CStr "") None tool_calls) (Some "tool_calls")]
  | [] => []
  end.

Lemma tool_call_step (model : string) (prompt_messages : list PromptMessage)
    (st : ChatState.t U) (chunk : ChatCompletionChunk.t) (c : ChoiceDeltaToolCall.t)
    (m' : tool_call_map) :
  sole_tool_call chunk = Some c ->
  aggregate_tool_call (ChatState.aggregated_tool_calls st) c = Ok m' ->
  exists st' out,
    chat_stream_step model prompt_messages st chunk = Ok (st', [out])
    /\ chunk_tool_calls out = []
    /\ chunk_usage out = None
    /\ ChatState.aggregated_tool_calls st' = m'
    /\ ChatState.delta_assistant_message_function_call_storage st'
       = ChatState.delta_assistant_message_function_call_storage st.
Proof.
  unfold sole_tool_call. intros Hsole Hagg.
  destruct (ChatCompletionChunk.choices chunk) as [|delta rest] eqn:Hchoices;
    [discriminate|].
  destruct (Choice.finish_reason delta) as [r|] eqn:Hfin; [discriminate|].
  destruct (ChoiceDelta.tool_calls (Choice.delta delta)) as [[|c0 [|c1 cs]]|] eqn:Hcalls;
    try discriminate.
  destruct (Py.truthy (ChoiceDelta.content (Choice.delta delta))) eqn:Hcontent;
    [discriminate|].
  injection Hsole as ->.
  unfold chat_stream_step. rewrite Hchoices, Hfin, Hcalls, Hcontent.
  cbn [has_finish_reason negb andb is_none].
  unfold chat_stream_emit. rewrite Hcalls, Hfin.
  cbn [aggregate_tool_calls]. rewrite Hagg. cbn [bind andb finish_reason_is].
  eexists _, _. split; [reflexivity|]. repeat split.
Qed.

Lemma tool_call_loop (model : string) (prompt_messages : list PromptMessage)
    (response : list ChatCompletionChunk.t) :
  forall (st : ChatState.t U) (calls : list ChoiceDeltaToolCall.t) (m' : tool_call_map),
    map sole_tool_call response = map Some calls ->
    aggregate_tool_calls (ChatState.aggregated_tool_calls st) calls = Ok m' ->
    exists body st',
      chat_stream_loop model prompt_messages st response = (body, Ok st')
      /\ List.length body = List.length response
      /\ Forall (fun c => chunk_tool_calls c = [] /\ chunk_usage c = None) body
      /\ ChatState.aggregated_tool_calls st' = m'
      /\ ChatState.delta_assistant_message_function_call_storage st'
         = ChatState.delta_assistant_message_function_call_storage st.
Proof.
  induction response as [|chunk rest IH]; intros st calls m' Hcalls Hagg.
  - destruct calls; [|discriminate]. simpl in Hagg. injection Hagg as <-.
    exists [], st. repeat split. constructor.
  - destruct calls as [|c calls]; [discriminate|].
    simpl in Hcalls. injection Hcalls as Hc Hcalls.
    simpl in Hagg. apply bind_ok in Hagg as [m1 [Hstep Hagg]].
    destruct (tool_call_step model prompt_messages st chunk c m1 Hc Hstep)
      as [st1 [out [Hs [Hout [Husage [Hm1 Hst1]]]]]].
    rewrite <- Hm1 in Hagg.
    destruct (IH st1 calls m' Hcalls Hagg) as [body [st' [Hloop [Hlen [Hbody [Hm' Hst']]]]]].
    exists (out :: body), st'. simpl. rewrite Hs, Hloop. simpl.
    repeat split; try assumption.
    + now rewrite Hlen.
    + constructor; [split; assumption | exact Hbody].
    + now rewrite Hst', Hst1.
Qed.

(** A run of fragments for one index on a map that holds that index alone
    leaves a map that holds that index alone. *)
Lemma aggregate_single (chunks : list ChoiceDeltaToolCall.t) :
  forall (i : Z) (e : ChoiceDeltaToolCall.t),
    is_none (call_arguments e) = false ->
    Forall (fun c => ChoiceDeltaToolCall.index c = i) chunks ->
    exists e',
      aggregate_tool_calls [(i, e)] chunks = Ok [(i, e')]
      /\ is_none (call_arguments e') = false.
Proof.
  induction chunks as [|c cs IH]; intros i e He Hall; cbn [aggregate_tool_calls]; [eauto|].
  inversion Hall as [|? ? Hc Hcs]; subst.
  unfold aggregate_tool_call. cbn [map_get]. rewrite Z.eqb_refl.
  destruct (merge_tool_call_total e c He) as [merged [-> Hm]]. cbn [bind map_replace].
  rewrite Z.eqb_refl. apply IH; assumption.
Qed.

(** X12.  A streamed tool call, from start to end: a fragment that opens an
    index with a non-empty id and string arguments, any number of fragments
    for that index, then the [tool_calls] finish.  Every tool-call fragment
    yields one chunk, without tool calls; the finish yields the terminal
    chunk, whose single tool call has the last non-empty id, type and name
    that arrived and, as arguments, those of all fragments in arrival
    order. *)
Theorem streamed_tool_call (model : string) (prompt_messages : list PromptMessage)
    (response : list ChatCompletionChunk.t) (finish : ChatCompletionChunk.t)
    (first : ChoiceDeltaToolCall.t) (more : list ChoiceDeltaToolCall.t) :
  map sole_tool_call response = map Some (first :: more) ->
  Py.truthy (ChoiceDeltaToolCall.id first) = true ->
  is_none (call_arguments first) = false ->
  Forall (fun c => ChoiceDeltaToolCall.index c = ChoiceDeltaToolCall.index first) more ->
  finishes_tool_calls model finish = true ->
  exists body st,
    chat_stream_loop model prompt_messages (chat_initial_state model prompt_messages)
      (response ++ [finish])
    = (body
       ++ terminal_chunk prompt_messages finish
            [{| ToolCall.id :=
                  Py.or_empty (last_set (ChoiceDeltaToolCall.id first)
                                 (map ChoiceDeltaToolCall.id more));
                ToolCall.type :=
                  Py.or_empty (last_set (ChoiceDeltaToolCall.type first)
                                 (map ChoiceDeltaToolCall.type more));
                ToolCall.function :=
                  {| ToolCallFunction.name :=
                       Py.or_empty (last_set (call_name first) (map call_name more));
                     ToolCallFunction.arguments :=
                       (Py.or_empty (call_arguments first)
                        ++ concat_all
                             (map (fun c => Py.or_empty (call_arguments c)) more))%string
                  |} |}],
       Ok st)
    /\ List.length body = List.length response
    /\ Forall (fun c => chunk_tool_calls c = [] /\ chunk_usage c = None) body.
Proof.
  intros Hcalls Hid Hargs Hmore Hfinish.
  set (i := ChoiceDeltaToolCall.index first) in *.
  destruct (aggregate_single more i first Hargs Hmore) as [e' [Hagg He']].
  assert (Hrun : aggregate_tool_calls [] (first :: more) = Ok [(i, e')]).
  { cbn [aggregate_tool_calls]. unfold aggregate_tool_call. cbn [map_get].
    rewrite Hid. cbn [bind app]. exact Hagg. }
  destruct (tool_call_loop model prompt_messages response
              (chat_initial_state model prompt_messages) (first :: more) [(i, e')]
              Hcalls Hrun)
    as [body [st1 [Hloop [Hlen [Hbody [Hmap Hstorage]]]]]].
  assert (Hfields := aggregate_run more [(i, first)] [(i, e')] i first).
  cbn [map_get] in Hfields. rewrite Z.eqb_refl in Hfields.
  destruct (Hfields eq_refl Hagg) as [e [He [Fid [Fty [Fnm Fargs]]]]].
  injection He as <-.
  assert (Hfor : for_index i more = more).
  { unfold for_index. clear -Hmore.
    induction Hmore as [|c cs Hc _ IH]; simpl; [reflexivity|].
    rewrite Hc, Z.eqb_refl, IH. reflexivity. }
  rewrite Hfor in Fid, Fty, Fnm, Fargs.
  rewrite chat_stream_loop_app, Hloop.
  unfold finishes_tool_calls in Hfinish. unfold terminal_chunk.
  cbn [chat_stream_loop]. unfold chat_stream_step.
  destruct (ChatCompletionChunk.choices finish) as [|delta rest]; [discriminate|].
  apply andb_true_iff in Hfinish as [H Hfc]. apply andb_true_iff in H as [H Hnone].
  apply andb_true_iff in H as [Hfin Hreason].
  destruct (ChoiceDelta.tool_calls (Choice.delta delta)) as [calls|] eqn:Ecalls;
    [discriminate|].
  destruct (ChoiceDelta.function_call (Choice.delta delta)) as [f|] eqn:Efc;
    [discriminate|].
  rewrite Hfin, Hstorage.
  cbn [negb andb chat_initial_state
         ChatState.delta_assistant_message_function_call_storage
         legacy_function_call bind _extract_response_function_call].
  unfold chat_stream_emit. rewrite Ecalls, Hreason, Hmap. cbn [bind andb].
  cbn [map_values map snd _extract_response_tool_calls flat_map app].
  unfold call_arguments, call_name in He', Fnm, Fargs.
  destruct (ChoiceDeltaToolCall.function e') as [fn|]; [|discriminate].
  rewrite Fid, Fty, Fnm, Fargs.
  exists body. eexists. split; [reflexivity|]. split; assumption.
Qed.

(** ** Text-completion stream handler, from start to end *)

Definition text_only (chunk : Completion.t) : bool :=
  match Completion.choices chunk with
  | delta :: _ => is_none (CompletionChoice.finish_reason delta)
  | [] => false
  end.

Definition completion_text (chunk : Completion.t) : string :=
  match Completion.choices chunk with
  | delta :: _ => Py.or_empty (CompletionChoice.text delta)
  | [] => ""
  end.

Definition text_chunk (prompt_messages : list PromptMessage) (chunk : Completion.t)
  : list (LLMResultChunk.t U) :=
  match Completion.choices chunk with
  | delta :: _ =>
      if completion_text chunk =? "" then []
      else [text_result_chunk prompt_messages chunk delta
              (AssistantPromptMessage (CStr (completion_text chunk)) None []) None]
  | [] => []
  end.

Definition finishes_text (chunk : Completion.t) : bool :=
  match Completion.choices chunk with
  | delta :: _ => negb (is_none (CompletionChoice.finish_reason delta))
  | [] => false
  end.

Definition text_finish_chunk (prompt_messages : list PromptMessage) (chunk : Completion.t)
  : list (LLMResultChunk.t U) :=
  match Completion.choices chunk with
  | delta :: _ =>
      [text_result_chunk prompt_messages chunk delta
         (AssistantPromptMessage (CStr (completion_text chunk)) None [])
         (CompletionChoice.finish_reason delta)]
  | [] => []
  end.

Lemma text_stream_loop_app (prompt_messages : list PromptMessage)
    (a b : list Completion.t) :
  forall st,
    text_stream_loop prompt_messages st (a ++ b)
    = (let '(chunks, st') := text_stream_loop prompt_messages st a in
       let '(more, final) := text_stream_loop prompt_messages st' b in
       (chunks ++ more, final)).
Proof.
  induction a as [|chunk a IH]; intros st; simpl.
  - destruct (text_stream_loop prompt_messages st b). reflexivity.
  - destruct (text_stream_step prompt_messages st chunk) as [st1 out].
    rewrite IH.
    destruct (text_stream_loop prompt_messages st1 a) as [chunks st2].
    destruct (text_stream_loop prompt_messages st2 b) as [more final].
    now rewrite app_assoc.
Qed.

Lemma text_only_loop (prompt_messages : list PromptMessage) (body : list Completion.t) :
  forall (full_text : string) (prompt_tokens completion_tokens : Z)
         (final_chunk : LLMResultChunk.t U),
    forallb text_only body = true ->
    text_stream_loop prompt_messages
      (full_text, prompt_tokens, completion_tokens, final_chunk) body
    = (flat_map (text_chunk prompt_messages) body,
       ((full_text ++ concat_all (map completion_text body))%string,
        prompt_tokens, completion_tokens, final_chunk)).
Proof.
  induction body as [|chunk rest IH];
    intros full_text prompt_tokens completion_tokens final_chunk H.
  - simpl. now rewrite append_empty_r.
  - cbn [forallb] in H. apply andb_true_iff in H as [Hchunk Hrest].
    cbn [text_stream_loop flat_map map concat_all].
    unfold text_only in Hchunk. unfold text_chunk at 1, completion_text at 1 2 3.
    unfold text_stream_step.
    destruct (Completion.choices chunk) as [|delta others]; [discriminate|].
    destruct (CompletionChoice.finish_reason delta) as [r|] eqn:Hfin; [discriminate|].
    cbn [is_none andb].
    destruct (CompletionChoice.text delta) as [text|] eqn:Htext.
    + cbn [Py.truthy Py.or_empty]. destruct (text =? "") eqn:Etext; cbn [negb].
      * apply String.eqb_eq in Etext. subst text.
        rewrite (IH _ _ _ _ Hrest). reflexivity.
      * rewrite (IH _ _ _ _ Hrest). cbn [app]. now rewrite append_assoc.
    + cbn [Py.truthy Py.or_empty negb String.eqb].
      rewrite (IH _ _ _ _ Hrest). reflexivity.
Qed.

(** X13.  A text-completion stream, from start to end: text fragments and
    then one finishing fragment, with no usage on the wire and a textual
    first prompt message.  When the tokenizer accepts the prompt text and the
    text of the stream, the handler yields one chunk per non-empty text
    fragment, in order, and last the chunk of the finishing fragment with the
    usage built from the token counts of the prompt text and of all the text
    of the stream, both under the encoding of the model (the default one for
    an unknown model), whatever the model is. *)
Theorem text_completion_stream (model : string) (creds : credentials)
    (body : list Completion.t) (last : Completion.t)
    (prompt_messages : list PromptMessage) (prompt : string) (p c : Z) :
  forallb text_only body = true ->
  finishes_text last = true ->
  first_prompt_text prompt_messages = Ok prompt ->
  num_encoded (resolve_encoding encoding_for_model get_encoding model) prompt = Ok p ->
  num_encoded (resolve_encoding encoding_for_model get_encoding model)
    (concat_all (map completion_text body) ++ completion_text last)%string = Ok c ->
  _handle_generate_stream_response model creds (body ++ [last]) prompt_messages
  = {| Generator.yielded :=
         flat_map (text_chunk prompt_messages) body
         ++ map (fun chunk => set_usage chunk (_calc_response_usage model creds p c))
              (text_finish_chunk prompt_messages last);
       Generator.raised := None |}.
Proof.
  intros Hbody Hlast Hprompt Hp Hc.
  unfold _handle_generate_stream_response.
  rewrite text_stream_loop_app, (text_only_loop prompt_messages body _ _ _ _ Hbody).
  unfold finishes_text in Hlast. unfold text_finish_chunk.
  cbn [text_stream_loop]. unfold text_stream_step.
  destruct (Completion.choices last) as [|delta rest] eqn:Hchoices; [discriminate|].
  assert (Hlast_text : completion_text last = Py.or_empty (CompletionChoice.text delta)).
  { unfold completion_text. now rewrite Hchoices. }
  destruct (CompletionChoice.finish_reason delta) as [r|] eqn:Hfin; [|discriminate].
  cbn [is_none andb]. unfold text_stream_final. rewrite Hprompt.
  unfold _num_tokens_from_string. cbn [tools_given bind Z.eqb String.append map].
  assert (Htext : (if Py.truthy (CompletionChoice.text delta)
                   then Py.or_empty (CompletionChoice.text delta) else "")
                  = Py.or_empty (CompletionChoice.text delta)).
  { destruct (CompletionChoice.text delta) as [t|]; [|reflexivity]. simpl.
    destruct (t =? "") eqn:E; [apply String.eqb_eq in E; now subst | reflexivity]. }
  rewrite Htext, <- Hlast_text, Hp. cbn [bind]. rewrite Hc. cbn [bind].
  rewrite app_nil_r. reflexivity.
Qed.


(** ** Chat dispatcher: what is sent *)

(** The model parameters as they are when the request is built: after the
    default [tool_choice] and the o-series renaming of [max_tokens]. *)
Definition sent_parameters (model : string) (prepared : Py.dict json)
    (tools : option (list PromptMessageTool.t)) : Py.dict json :=
  let with_choice :=
    match tools_given tools with
    | Some _ =>
        if Py.mem "tool_choice" prepared then prepared
        else Py.set "tool_choice" (JStr "auto") prepared
    | None => prepared
    end in
  if Py.startswith_any O_SERIES_COMPATIBILITY model
  then match Py.get "max_tokens" with_choice with
       | Some v => Py.del "max_tokens" (Py.set "max_completion_tokens" v with_choice)
       | None => with_choice
       end
  else with_choice.

(** [extra_model_kwargs] as it is when the request is built. *)
Definition sent_extras (model : string) (tools : option (list PromptMessageTool.t))
    (stop : option (list string)) (stream : bool) (user : option string)
  : Py.dict json :=
  let extra : Py.dict json :=
    match tools_given tools with
    | Some tools => Py.set "tools" (JArr (map tool_payload tools)) []
    | None => []
    end in
  let extra :=
    match stop with
    | Some (w :: ws) => Py.set "stop" (JArr (map JStr (w :: ws))) extra
    | _ => extra
    end in
  let extra :=
    if Py.truthy user then Py.set "user" (JStr (Py.or_empty user)) extra else extra in
  let extra :=
    if stream
    then Py.set "stream_options" (JObj [("include_usage", JBool true)]) extra
    else extra in
  if Py.startswith_any O_SERIES_COMPATIBILITY model && Py.mem "stop" extra
  then Py.del "stop" extra
  else extra.

Definition keys {V : Type} (d : Py.dict V) : list string := map fst d.

Lemma chat_generate_unfold (model : string) (creds : credentials)
    (prompt_messages : list PromptMessage) (model_parameters : Py.dict json)
    (tools : option (list PromptMessageTool.t)) (stop : option (list string))
    (stream : bool) (user : option string) :
  _chat_generate model creds prompt_messages model_parameters tools stop stream user
  = (client <~ io_lift (new_client creds) ;;
     prepared <~ io_lift (prepare_response_format model_parameters) ;;
     if Py.contains "o3-pro" model
     then
       block_result <~ _chat_generate_o3_pro model creds
                         (_clear_illegal_prompt_messages model prompt_messages)
                         (sent_parameters model prepared tools) user ;;
       io_ret (BlockResult block_result)
     else
       messages <~ io_lift (mapM _convert_prompt_message_to_dict
                              (_clear_illegal_prompt_messages model prompt_messages)) ;;
       kwargs <~ io_lift (merge_kwargs ["messages"; "model"; "stream"]
                            (sent_parameters model prepared tools)
                            (sent_extras model tools stop stream user)) ;;
       if stream
       then
         response <~ io_call (ChatCompletionsCreate messages model true kwargs)
                       (chat_completions_create messages model true kwargs) ;;
         io_ret (StreamResult
                   (_handle_chat_generate_stream_response model creds response
                      (_clear_illegal_prompt_messages model prompt_messages) tools))
       else
         response <~ io_call (ChatCompletionsCreate messages model false kwargs)
                       (chat_completions_create messages model false kwargs) ;;
         block_result <~ io_lift (_handle_chat_generate_response model creds response
                                    (_clear_illegal_prompt_messages model prompt_messages)
                                    tools) ;;
         io_ret (BlockResult block_result)).
Proof. reflexivity. Qed.

Lemma get_app {V : Type} (k : string) (a b : Py.dict V) :
  Py.get k (a ++ b)
  = match Py.get k a with
    | Some v => Some v
    | None => Py.get k b
    end.
Proof.
  induction a as [|[k' v'] a IH]; simpl; [reflexivity|].
  destruct (k' =? k); [reflexivity | exact IH].
Qed.

Lemma get_in_keys {V : Type} (k : string) (d : Py.dict V) :
  Py.get k d = None <-> ~ In k (keys d).
Proof.
  induction d as [|[k' v'] d IH]; simpl.
  - split; [intros _ [] | reflexivity].
  - destruct (k' =? k) eqn:E.
    + apply String.eqb_eq in E.
      split; [discriminate | intros H; exfalso; apply H; now left].
    + apply String.eqb_neq in E. rewrite IH. split.
      * intros H [Hk|Hin]; [now apply E | now apply H].
      * intros H Hin. apply H. now right.
Qed.

Lemma get_del_other {V : Type} (k k0 : string) (d : Py.dict V) :
  (k0 =? k) = false -> Py.get k (Py.del k0 d) = Py.get k d.
Proof.
  intros Hne. induction d as [|[k' v'] d IH]; simpl; [reflexivity|].
  destruct (k' =? k0) eqn:E; simpl.
  - apply String.eqb_eq in E; subst k'. now rewrite Hne.
  - destruct (k' =? k); [reflexivity | exact IH].
Qed.

Lemma get_del_same {V : Type} (k : string) (d : Py.dict V) :
  NoDup (keys d) -> Py.get k (Py.del k d) = None.
Proof.
  induction d as [|[k' v'] d IH]; simpl; intros Hd; [reflexivity|].
  inversion Hd as [|? ? Hnotin Hrest]; subst.
  destruct (k' =? k) eqn:E; simpl.
  - apply String.eqb_eq in E; subst k'. now apply get_in_keys.
  - rewrite E. now apply IH.
Qed.

Lemma keys_set {V : Type} (k k' : string) (v : V) (d : Py.dict V) :
  In k' (keys (Py.set k v d)) -> k' = k \/ In k' (keys d).
Proof.
  unfold keys. rewrite in_map_iff. intros [[k1 v1] [<- Hin]].
  destruct (in_set k v d _ Hin) as [H|H].
  - injection H as -> _. now left.
  - right. apply in_map_iff. now exists (k1, v1).
Qed.

Lemma keys_del {V : Type} (k k' : string) (d : Py.dict V) :
  In k' (keys (Py.del k d)) -> In k' (keys d).
Proof.
  induction d as [|[k1 v1] d IH]; simpl; [intros []|].
  destruct (k1 =? k); simpl; [now right | intros [H|H]; [now left | right; now apply IH]].
Qed.

Lemma nodup_set {V : Type} (k : string) (v : V) (d : Py.dict V) :
  NoDup (keys d) -> NoDup (keys (Py.set k v d)).
Proof.
  induction d as [|[k' v'] d IH]; simpl; intros Hd.
  - constructor; [intros [] | constructor].
  - inversion Hd as [|? ? Hnotin Hrest]; subst.
    destruct (k' =? k) eqn:E; simpl.
    + apply String.eqb_eq in E; subst k'. now constructor.
    + constructor; [|now apply IH].
      intros Hin. destruct (keys_set k k' v d Hin) as [->|H]; [|contradiction].
      now rewrite String.eqb_refl in E.
Qed.

Lemma nodup_del {V : Type} (k : string) (d : Py.dict V) :
  NoDup (keys d) -> NoDup (keys (Py.del k d)).
Proof.
  induction d as [|[k' v'] d IH]; simpl; intros Hd; [constructor|].
  inversion Hd as [|? ? Hnotin Hrest]; subst.
  destruct (k' =? k); simpl; [assumption|].
  constructor; [|now apply IH]. intros Hin. apply Hnotin. now apply keys_del in Hin.
Qed.

(** What a successful unpacking gives, and what it excludes. *)
Lemma merge_kwargs_ok (taken : list string) (b : Py.dict json) :
  forall (a kwargs : Py.dict json),
    merge_kwargs taken a b = Ok kwargs ->
    kwargs = a ++ b
    /\ forall k, Py.mem k b = true -> Py.get k a = None.
Proof.
  induction b as [|[k' v'] b IH]; intros a kwargs; simpl.
  - destruct (existsb (fun k => Py.mem k a) taken); [discriminate|].
    intros H. injection H as <-. split; [now rewrite app_nil_r | discriminate].
  - destruct (Py.mem k' a) eqn:Hmem; [discriminate|].
    intros H. destruct (IH _ _ H) as [-> Hfresh]. split; [now rewrite <- app_assoc|].
    intros k. unfold Py.mem at 1. simpl.
    destruct (k' =? k) eqn:E.
    + apply String.eqb_eq in E; subst k'. intros _.
      unfold Py.mem in Hmem. now destruct (Py.get k a).
    + intros Hk. specialize (Hfresh k Hk). rewrite get_app in Hfresh.
      now destruct (Py.get k a).
Qed.

(** A keyword given twice stops the unpacking. *)
Lemma merge_kwargs_clash (taken : list string) (k : string) (b : Py.dict json) :
  forall (a : Py.dict json),
    Py.mem k a = true ->
    In k taken \/ Py.mem k b = true ->
    merge_kwargs taken a b = Raise TypeError.
Proof.
  induction b as [|[k' v'] b IH]; intros a Ha Hk; simpl.
  - destruct Hk as [Hk|Hk]; [|discriminate].
    assert (H : existsb (fun k0 => Py.mem k0 a) taken = true).
    { apply existsb_exists. now exists k. }
    now rewrite H.
  - destruct (Py.mem k' a) eqn:Hmem; [reflexivity|].
    apply IH.
    + unfold Py.mem in *. rewrite get_app. now destruct (Py.get k a).
    + destruct Hk as [Hk|Hk]; [now left | right].
      unfold Py.mem in Hk. simpl in Hk.
      destruct (k' =? k) eqn:E; [|exact Hk].
      apply String.eqb_eq in E; subst k'. congruence.
Qed.

Lemma prepare_get_other (model_parameters prepared : Py.dict json) (k : string) :
  prepare_response_format model_parameters = Ok prepared ->
  ("response_format" =? k) = false ->
  ("json_schema" =? k) = false ->
  Py.get k prepared = Py.get k model_parameters.
Proof.
  unfold prepare_response_format. intros H Hrf Hjs.
  assert (Hdrop : Py.get k (if Py.mem "json_schema" model_parameters
                            then Py.del "json_schema" model_parameters
                            else model_parameters)
                  = Py.get k model_parameters).
  { destruct (Py.mem "json_schema" model_parameters); [|reflexivity].
    now apply get_del_other. }
  destruct (Py.get "response_format" model_parameters) as [response_format|];
    [|injection H as <-; exact Hdrop].
  destruct (json_truthy response_format); [|injection H as <-; exact Hdrop].
  destruct (json_is_str response_format "json_schema").
  - destruct (Py.get "json_schema" model_parameters) as [json_schema|]; [|discriminate].
    destruct (json_truthy json_schema); [|discriminate].
    destruct (match json_schema with JStr text => json_loads text | _ => None end);
      [|discriminate].
    injection H as <-. rewrite get_set_other by assumption. now apply get_del_other.
  - injection H as <-. now apply get_set_other.
Qed.

Lemma prepare_nodup (model_parameters prepared : Py.dict json) :
  prepare_response_format model_parameters = Ok prepared ->
  NoDup (keys model_parameters) ->
  NoDup (keys prepared).
Proof.
  unfold prepare_response_format. intros H Hd.
  assert (Hdrop : NoDup (keys (if Py.mem "json_schema" model_parameters
                               then Py.del "json_schema" model_parameters
                               else model_parameters))).
  { destruct (Py.mem "json_schema" model_parameters); [now apply nodup_del | exact Hd]. }
  destruct (Py.get "response_format" model_parameters) as [response_format|];
    [|injection H as <-; exact Hdrop].
  destruct (json_truthy response_format); [|injection H as <-; exact Hdrop].
  destruct (json_is_str response_format "json_schema").
  - destruct (Py.get "json_schema" model_parameters) as [json_schema|]; [|discriminate].
    destruct (json_truthy json_schema); [|discriminate].
    destruct (match json_schema with JStr text => json_loads text | _ => None end);
      [|discriminate].
    injection H as <-. apply nodup_set. now apply nodup_del.
  - injection H as <-. now apply nodup_set.
Qed.

Lemma sent_parameters_get_other (model : string) (prepared : Py.dict json)
    (tools : option (list PromptMessageTool.t)) (k : string) :
  ("tool_choice" =? k) = false ->
  ("max_tokens" =? k) = false ->
  ("max_completion_tokens" =? k) = false ->
  Py.get k (sent_parameters model prepared tools) = Py.get k prepared.
Proof.
  intros Htc Hmt Hmct. unfold sent_parameters.
  set (with_choice := match tools_given tools with
                      | Some _ => _
                      | None => prepared
                      end).
  assert (Hchoice : Py.get k with_choice = Py.get k prepared).
  { unfold with_choice. destruct (tools_given tools); [|reflexivity].
    destruct (Py.mem "tool_choice" prepared); [reflexivity | now apply get_set_other]. }
  destruct (Py.startswith_any O_SERIES_COMPATIBILITY model); [|exact Hchoice].
  destruct (Py.get "max_tokens" with_choice); [|exact Hchoice].
  rewrite get_del_other, get_set_other by assumption. exact Hchoice.
Qed.

Lemma sent_parameters_tool_choice (model : string) (prepared : Py.dict json)
    (tools : option (list PromptMessageTool.t)) :
  Py.get "tool_choice" (sent_parameters model prepared tools)
  = match tools_given tools, Py.get "tool_choice" prepared with
    | Some _, None => Some (JStr "auto")
    | _, given => given
    end.
Proof.
  unfold sent_parameters.
  set (with_choice := match tools_given tools with
                      | Some _ => _
                      | None => prepared
                      end).
  assert (Hchoice : Py.get "tool_choice" with_choice
                    = match tools_given tools, Py.get "tool_choice" prepared with
                      | Some _, None => Some (JStr "auto")
                      | _, given => given
                      end).
  { unfold with_choice, Py.mem. destruct (tools_given tools).
    - destruct (Py.get "tool_choice" prepared) eqn:E; [exact E | apply get_set_same].
    - now destruct (Py.get "tool_choice" prepared). }
  destruct (Py.startswith_any O_SERIES_COMPATIBILITY model); [|exact Hchoice].
  destruct (Py.get "max_tokens" with_choice); [|exact Hchoice].
  rewrite get_del_other, get_set_other by reflexivity. exact Hchoice.
Qed.

Lemma sent_parameters_o_series (model : string) (prepared : Py.dict json)
    (tools : option (list PromptMessageTool.t)) :
  Py.startswith_any O_SERIES_COMPATIBILITY model = true ->
  NoDup (keys prepared) ->
  Py.get "max_tokens" (sent_parameters model prepared tools) = None
  /\ forall v, Py.get "max_tokens" prepared = Some v ->
               Py.get "max_completion_tokens" (sent_parameters model prepared tools)
               = Some v.
Proof.
  intros Ho Hd. unfold sent_parameters. rewrite Ho.
  set (with_choice := match tools_given tools with
                      | Some _ => _
                      | None => prepared
                      end).
  assert (Hnodup : NoDup (keys with_choice)).
  { unfold with_choice. destruct (tools_given tools); [|exact Hd].
    destruct (Py.mem "tool_choice" prepared); [exact Hd | now apply nodup_set]. }
  assert (Hsame : Py.get "max_tokens" with_choice = Py.get "max_tokens" prepared).
  { unfold with_choice. destruct (tools_given tools); [|reflexivity].
    destruct (Py.mem "tool_choice" prepared); [reflexivity | now apply get_set_other]. }
  rewrite <- Hsame.
  destruct (Py.get "max_tokens" with_choice) as [v|] eqn:E.
  - split.
    + apply get_del_same. now apply nodup_set.
    + intros v' Hv. injection Hv as <-.
      rewrite get_del_other by reflexivity. apply get_set_same.
  - split; [exact E | discriminate].
Qed.

(** The extras hold the four keywords the dispatcher computes, and no stop
    words for an o-series model. *)
Lemma sent_extras_get (model : string) (tools : option (list PromptMessageTool.t))
    (stop : option (list string)) (stream : bool) (user : option string) :
  Py.get "tools" (sent_extras model tools stop stream user)
  = match tools_given tools with
    | Some tools => Some (JArr (map tool_payload tools))
    | None => None
    end
  /\ Py.get "stream_options" (sent_extras model tools stop stream user)
     = (if stream then Some (JObj [("include_usage", JBool true)]) else None)
  /\ Py.get "user" (sent_extras model tools stop stream user)
     = (if Py.truthy user then Some (JStr (Py.or_empty user)) else None)
  /\ Py.get "stop" (sent_extras model tools stop stream user)
     = (if Py.startswith_any O_SERIES_COMPATIBILITY model then None
        else match stop with
             | Some (w :: ws) => Some (JArr (map JStr (w :: ws)))
             | _ => None
             end)
  /\ forall k,
       ("tools" =? k) = false -> ("stream_options" =? k) = false ->
       ("user" =? k) = false -> ("stop" =? k) = false ->
       Py.get k (sent_extras model tools stop stream user) = None.
Proof.
  unfold sent_extras.
  destruct (tools_given tools) as [given|], stop as [[|w ws]|], (Py.truthy user), stream,
    (Py.startswith_any O_SERIES_COMPATIBILITY model);
    cbn; repeat split; intros k H1 H2 H3 H4; rewrite ?H1, ?H2, ?H3, ?H4; reflexivity.
Qed.

Lemma not_appended {A : Type} (log : list A) (x : A) : log <> log ++ [x].
Proof.
  intros H. apply (f_equal (@List.length A)) in H.
  rewrite length_app in H. simpl in H. lia.
Qed.

(** The request a chat invocation has logged tells how it was built. *)
Lemma chat_generate_request (model : string) (creds : credentials)
    (prompt_messages : list PromptMessage) (model_parameters : Py.dict json)
    (tools : option (list PromptMessageTool.t)) (stop : option (list string))
    (stream : bool) (user : option string) (log : list remote_call)
    (messages : list message_dict) (model' : string) (stream' : bool)
    (kwargs : Py.dict json) (r : result (generate_result U)) :
  _chat_generate model creds prompt_messages model_parameters tools stop stream user log
  = (log ++ [ChatCompletionsCreate messages model' stream' kwargs], r) ->
  exists prepared,
    prepare_response_format model_parameters = Ok prepared
    /\ mapM _convert_prompt_message_to_dict
         (_clear_illegal_prompt_messages model prompt_messages) = Ok messages
    /\ merge_kwargs ["messages"; "model"; "stream"]
         (sent_parameters model prepared tools)
         (sent_extras model tools stop stream user) = Ok kwargs
    /\ model' = model /\ stream' = stream /\ Py.contains "o3-pro" model = false.
Proof.
  rewrite chat_generate_unfold. unfold io_bind, io_lift.
  destruct (new_client creds) as [[]|e];
    [|intros H; injection H as H _; now apply not_appended in H].
  destruct (prepare_response_format model_parameters) as [prepared|e];
    [|intros H; injection H as H _; now apply not_appended in H].
  destruct (Py.contains "o3-pro" model).
  - unfold _chat_generate_o3_pro, io_bind, io_lift, io_call, io_ret.
    match goal with
    | |- context [merge_kwargs ?t ?a ?b] => destruct (merge_kwargs t a b) as [kw|e]
    end; [|intros H; injection H as H _; now apply not_appended in H].
    match goal with
    | |- context [responses_create ?m ?i ?k] => destruct (responses_create m i k)
    end; intros H; injection H as H _; apply app_inv_head in H; discriminate.
  - destruct (mapM _convert_prompt_message_to_dict
                (_clear_illegal_prompt_messages model prompt_messages)) as [ms|e];
      [|intros H; injection H as H _; now apply not_appended in H].
    destruct (merge_kwargs ["messages"; "model"; "stream"]
                (sent_parameters model prepared tools)
                (sent_extras model tools stop stream user)) as [kw|e] eqn:Hmerge;
      [|intros H; injection H as H _; now apply not_appended in H].
    unfold io_call, io_ret.
    destruct stream.
    + destruct (chat_completions_create ms model true kw); intros H;
        injection H as H _; apply app_inv_head in H; injection H as H1 H2 H3 H4; subst;
        exists prepared; repeat split; assumption.
    + destruct (chat_completions_create ms model false kw) as [response|e].
      * destruct (_handle_chat_generate_response model creds response
                    (_clear_illegal_prompt_messages model prompt_messages) tools);
          intros H; injection H as H _; apply app_inv_head in H;
          injection H as H1 H2 H3 H4; subst; exists prepared; repeat split; assumption.
      * intros H; injection H as H _; apply app_inv_head in H;
          injection H as H1 H2 H3 H4; subst; exists prepared; repeat split; assumption.
Qed.

(** X14.  A chat invocation sends at most one request, and which endpoint it
    uses is decided by the model name alone.  An invocation that fails
    before sending leaves the log as it was.  Otherwise exactly one call is
    added: for a model whose name contains [o3-pro] a call to the responses
    endpoint, and the result is never a stream, even when one was asked for;
    for every other model a chat-completions call with the model and the
    stream flag of the invocation, and a result of the kind asked for. *)
Theorem chat_generate_sends_at_most_one_request (model : string) (creds : credentials)
    (prompt_messages : list PromptMessage) (model_parameters : Py.dict json)
    (tools : option (list PromptMessageTool.t)) (stop : option (list string))
    (stream : bool) (user : option string) (log : list remote_call) :
  exists log' r,
    _chat_generate model creds prompt_messages model_parameters tools stop stream user log
    = (log', r)
    /\ ((log' = log /\ exists e, r = Raise e)
        \/ exists call,
            log' = log ++ [call]
            /\ if Py.contains "o3-pro" model
               then (exists input kwargs, call = ResponsesCreate model input kwargs)
                    /\ forall g, r <> Ok (StreamResult g)
               else (exists messages kwargs,
                        call = ChatCompletionsCreate messages model stream kwargs)
                    /\ forall out, r = Ok out ->
                                   if stream then exists g, out = StreamResult g
                                   else exists b, out = BlockResult b).
Proof.
  rewrite chat_generate_unfold. unfold io_bind, io_lift.
  destruct (new_client creds) as [[]|e]; [|eexists _, _; split; [reflexivity|]; left; eauto].
  destruct (prepare_response_format model_parameters) as [prepared|e];
    [|eexists _, _; split; [reflexivity|]; left; eauto].
  destruct (Py.contains "o3-pro" model).
  - unfold _chat_generate_o3_pro, io_bind, io_lift, io_call, io_ret.
    match goal with
    | |- context [merge_kwargs ?t ?a ?b] => destruct (merge_kwargs t a b) as [kw|e]
    end; [|eexists _, _; split; [reflexivity|]; left; eauto].
    match goal with
    | |- context [responses_create ?m ?i ?k] => destruct (responses_create m i k)
    end; eexists _, _; (split; [reflexivity|]); right; eexists; (split; [reflexivity|]);
      (split; [eauto | intros g; discriminate]).
  - destruct (mapM _convert_prompt_message_to_dict
                (_clear_illegal_prompt_messages model prompt_messages)) as [ms|e];
      [|eexists _, _; split; [reflexivity|]; left; eauto].
    destruct (merge_kwargs ["messages"; "model"; "stream"]
                (sent_parameters model prepared tools)
                (sent_extras model tools stop stream user)) as [kw|e];
      [|eexists _, _; split; [reflexivity|]; left; eauto].
    unfold io_call, io_ret. destruct stream.
    + destruct (chat_completions_create ms model true kw);
        eexists _, _; (split; [reflexivity|]); right; eexists; (split; [reflexivity|]);
        (split; [eauto | intros out H; try discriminate; injection H as <-; eauto]).
    + destruct (chat_completions_create ms model false kw) as [response|e];
        [destruct (_handle_chat_generate_response model creds response
                     (_clear_illegal_prompt_messages model prompt_messages) tools)|];
        eexists _, _; (split; [reflexivity|]); right; eexists; (split; [reflexivity|]);
        (split; [eauto | intros out H; try discriminate; injection H as <-; eauto]).
Qed.

(** X15.  For an o-series model (a name that starts with [o1], [o3] or
    [o4]) the chat-completions request never carries [max_tokens]: a value
    given under that name is sent as [max_completion_tokens].  The stop words
    of the invocation are not sent either: the request has a [stop] keyword
    only if the model parameters themselves hold one. *)
Theorem o_series_request_has_no_max_tokens_and_no_stop_words (model : string)
    (creds : credentials) (prompt_messages : list PromptMessage)
    (model_parameters : Py.dict json) (tools : option (list PromptMessageTool.t))
    (stop : option (list string)) (stream : bool) (user : option string)
    (log : list remote_call) (messages : list message_dict) (kwargs : Py.dict json)
    (r : result (generate_result U)) :
  Py.startswith_any O_SERIES_COMPATIBILITY model = true ->
  NoDup (keys model_parameters) ->
  _chat_generate model creds prompt_messages model_parameters tools stop stream user log
  = (log ++ [ChatCompletionsCreate messages model stream kwargs], r) ->
  Py.get "max_tokens" kwargs = None
  /\ (forall v, Py.get "max_tokens" model_parameters = Some v ->
                Py.get "max_completion_tokens" kwargs = Some v)
  /\ Py.get "stop" kwargs = Py.get "stop" model_parameters.
Proof.
  intros Ho Hd Hrun.
  destruct (chat_generate_request _ _ _ _ _ _ _ _ _ _ _ _ _ _ Hrun)
    as [prepared [Hprep [_ [Hmerge _]]]].
  destruct (merge_kwargs_ok _ _ _ _ Hmerge) as [-> _].
  assert (Hnodup := prepare_nodup _ _ Hprep Hd).
  destruct (sent_parameters_o_series model prepared tools Ho Hnodup) as [Hmax Hrenamed].
  destruct (sent_extras_get model tools stop stream user)
    as [_ [_ [_ [Hstop Hother]]]].
  rewrite Ho in Hstop.
  repeat split.
  - rewrite get_app, Hmax. now apply Hother.
  - intros v Hv. rewrite get_app, (Hrenamed v); [reflexivity|].
    now rewrite (prepare_get_other _ _ "max_tokens" Hprep).
  - rewrite get_app, Hstop, sent_parameters_get_other by reflexivity.
    rewrite (prepare_get_other _ _ "stop" Hprep) by reflexivity.
    now destruct (Py.get "stop" model_parameters).
Qed.

(** X16.  On the route of the [o3-pro] models neither the stop words nor the
    stream flag of the invocation matter: the request that is sent and the
    result are those of the same invocation without stop words and without
    streaming. *)
Theorem o3_pro_ignores_stop_and_stream (model : string) (creds : credentials)
    (prompt_messages : list PromptMessage) (model_parameters : Py.dict json)
    (tools : option (list PromptMessageTool.t)) (stop : option (list string))
    (stream : bool) (user : option string) (log : list remote_call) :
  Py.contains "o3-pro" model = true ->
  _chat_generate model creds prompt_messages model_parameters tools stop stream user log
  = _chat_generate model creds prompt_messages model_parameters tools None false user log.
Proof.
  intros Hname. rewrite !chat_generate_unfold. unfold io_bind, io_lift.
  destruct (new_client creds) as [[]|e]; [|reflexivity].
  destruct (prepare_response_format model_parameters) as [prepared|e]; [|reflexivity].
  now rewrite Hname.
Qed.

(** X17.  A keyword that the dispatcher passes itself must not be among the
    model parameters: [messages], [model] and [stream] always, [stream_options]
    when streaming, [user] when a user is given, [tools] when tools are given.
    With such a parameter the invocation of a chat-completions model raises
    and nothing is sent; when the client is built, the response format is
    accepted and the messages are converted, the exception is the
    [TypeError] of the call. *)
Theorem clashing_keyword_fails_before_the_request (model : string) (creds : credentials)
    (prompt_messages : list PromptMessage) (model_parameters : Py.dict json)
    (tools : option (list PromptMessageTool.t)) (stop : option (list string))
    (stream : bool) (user : option string) (log : list remote_call) (k : string) :
  Py.contains "o3-pro" model = false ->
  Py.mem k model_parameters = true ->
  In k ["messages"; "model"; "stream"]
  \/ (k = "stream_options" /\ stream = true)
  \/ (k = "user" /\ Py.truthy user = true)
  \/ (k = "tools" /\ tools_given tools <> None) ->
  exists e,
    _chat_generate model creds prompt_messages model_parameters tools stop stream user log
    = (log, Raise e)
    /\ (new_client creds = Ok tt ->
        (exists prepared, prepare_response_format model_parameters = Ok prepared) ->
        (exists messages,
            mapM _convert_prompt_message_to_dict
              (_clear_illegal_prompt_messages model prompt_messages) = Ok messages) ->
        e = TypeError).
Proof.
  intros Hname Hmem Hk.
  rewrite chat_generate_unfold. unfold io_bind, io_lift. rewrite Hname.
  destruct (new_client creds) as [[]|e]; [|exists e; split; [reflexivity | discriminate]].
  destruct (prepare_response_format model_parameters) as [prepared|e] eqn:Hprep;
    [|exists e; split; [reflexivity | intros _ [p Hp]; discriminate]].
  destruct (mapM _convert_prompt_message_to_dict
              (_clear_illegal_prompt_messages model prompt_messages)) as [ms|e];
    [|exists e; split; [reflexivity | intros _ _ [p Hp]; discriminate]].
  assert (Hclash : merge_kwargs ["messages"; "model"; "stream"]
                     (sent_parameters model prepared tools)
                     (sent_extras model tools stop stream user) = Raise TypeError).
  { destruct (sent_extras_get model tools stop stream user)
      as [Htools [Hstream [Huser _]]].
    apply (merge_kwargs_clash _ k).
    - unfold Py.mem in *.
      assert (Hsame : Py.get k (sent_parameters model prepared tools)
                      = Py.get k model_parameters).
      { destruct Hk as [[<-|[<-|[<-|[]]]]|[[-> _]|[[-> _]|[-> _]]]];
          (rewrite sent_parameters_get_other by reflexivity);
          apply (prepare_get_other _ _ _ Hprep); reflexivity. }
      now rewrite Hsame.
    - destruct Hk as [Hk|[[-> ->]|[[-> Hu]|[-> Ht]]]]; [now left | right ..];
        unfold Py.mem.
      + now rewrite Hstream.
      + now rewrite Huser, Hu.
      + rewrite Htools. now destruct (tools_given tools). }
  rewrite Hclash. exists TypeError. split; reflexivity.
Qed.

(** X18.  Tools and the tool choice in a chat-completions request: when tools
    are given the request carries their payload under [tools] and a
    [tool_choice], the one of the model parameters when they hold one and
    [auto] otherwise; when no tool is given the dispatcher adds neither, and
    what the model parameters hold under these two names is sent as it is. *)
Theorem tools_are_sent_with_a_tool_choice (model : string) (creds : credentials)
    (prompt_messages : list PromptMessage) (model_parameters : Py.dict json)
    (tools : option (list PromptMessageTool.t)) (stop : option (list string))
    (stream : bool) (user : option string) (log : list remote_call)
    (messages : list message_dict) (kwargs : Py.dict json)
    (r : result (generate_result U)) :
  _chat_generate model creds prompt_messages model_parameters tools stop stream user log
  = (log ++ [ChatCompletionsCreate messages model stream kwargs], r) ->
  match tools_given tools with
  | Some given =>
      Py.get "tools" kwargs = Some (JArr (map tool_payload given))
      /\ Py.get "tool_choice" kwargs
         = Some (match Py.get "tool_choice" model_parameters with
                 | Some choice => choice
                 | None => JStr "auto"
                 end)
  | None =>
      Py.get "tools" kwargs = Py.get "tools" model_parameters
      /\ Py.get "tool_choice" kwargs = Py.get "tool_choice" model_parameters
  end.
Proof.
  intros Hrun.
  destruct (chat_generate_request _ _ _ _ _ _ _ _ _ _ _ _ _ _ Hrun)
    as [prepared [Hprep [_ [Hmerge _]]]].
  destruct (merge_kwargs_ok _ _ _ _ Hmerge) as [-> Hfresh].
  destruct (sent_extras_get model tools stop stream user) as [Htools [_ [_ [_ Hother]]]].
  assert (Hchoice := sent_parameters_tool_choice model prepared tools).
  rewrite (prepare_get_other _ _ "tool_choice" Hprep) in Hchoice by reflexivity.
  assert (Hnone : Py.get "tool_choice" (sent_extras model tools stop stream user) = None).
  { now apply Hother. }
  destruct (tools_given tools) as [given|] eqn:Hgiven.
  - split.
    + rewrite get_app, (Hfresh "tools"), Htools; [reflexivity|].
      unfold Py.mem. now rewrite Htools.
    + rewrite get_app, Hchoice.
      now destruct (Py.get "tool_choice" model_parameters).
  - split.
    + rewrite get_app, Htools, sent_parameters_get_other by reflexivity.
      rewrite (prepare_get_other _ _ "tools" Hprep) by reflexivity.
      now destruct (Py.get "tools" model_parameters).
    + rewrite get_app, Hchoice, Hnone.
      now destruct (Py.get "tool_choice" model_parameters).
Qed.


(** ** Clearing of prompt messages *)

(** X19.  For the two [gpt-4-turbo] names, when the prompt holds more than one
    user message, every user message is sent with a plain text content: the
    messages keep their number, order, class and name, the messages that are
    not user messages are unchanged, and whatever record the codec makes of a
    cleared user message has a string under [content]. *)
Theorem gpt_4_turbo_user_content_is_sent_as_text (model : string)
    (prompt_messages : list PromptMessage) :
  In model ["gpt-4-turbo"; "gpt-4-turbo-2024-04-09"] ->
  (1 < List.length (filter is_user prompt_messages))%nat ->
  Forall2
    (fun m m' =>
       is_user m' = is_user m
       /\ message_name m' = message_name m
       /\ (is_user m = false -> m' = m)
       /\ (is_user m = true ->
           forall d, _convert_prompt_message_to_dict m' = Ok d ->
                     exists s, Py.get "content" d = Some (WStr s)))
    prompt_messages (_clear_illegal_prompt_messages model prompt_messages).
Proof.
  intros Hmodel Hcount. unfold _clear_illegal_prompt_messages.
  assert (Hlisted : existsb (fun m => m =? model)
                      ["gpt-4-turbo"; "gpt-4-turbo-2024-04-09"] = true).
  { apply existsb_exists. exists model. split; [exact Hmodel | apply String.eqb_refl]. }
  rewrite Hlisted. apply Nat.ltb_lt in Hcount. rewrite Hcount. cbn [andb].
  clear. induction prompt_messages as [|m rest IH]; cbn [map]; constructor; [|exact IH].
  destruct m as [[|s|parts] name|c name tool_calls|c name|c name tool_call_id|c name];
    cbn [is_user message_name]; repeat split; try discriminate;
    intros _ d; unfold _convert_prompt_message_to_dict; cbn [bind message_name];
    destruct (Py.truthy name); cbn; intros H; try discriminate;
    injection H as <-; eexists; reflexivity.
Qed.

(** ** Token estimator: names that are counted alike *)

Lemma split_colon (a b : string) :
  forall cur,
    Py.contains ":" a = false ->
    Py.split_aux ":" 0 cur (a ++ String ":" b)
    = (cur ++ a)%string :: Py.split_aux ":" 0 "" b.
Proof.
  induction a as [|c a IH]; intros cur Ha.
  - cbn. now rewrite append_empty_r.
  - cbn [Py.contains Py.startswith] in Ha. rewrite andb_true_r in Ha.
    apply orb_false_iff in Ha as [Hc Ha].
    cbn [String.append Py.split_aux Py.startswith]. rewrite Hc. cbn [andb].
    rewrite (IH _ Ha), append_assoc. reflexivity.
Qed.

Lemma colon_free_is_no_fine_tune (base : string) :
  Py.contains ":" base = false -> Py.startswith "ft:" base = false.
Proof.
  intros H. destruct (Py.startswith "ft:" base) eqn:E; [|reflexivity].
  destruct base as [|a [|b [|c rest]]]; cbn [Py.startswith] in E;
    rewrite ?andb_false_r in E; try discriminate.
  apply andb_true_iff in E as [_ E]. apply andb_true_iff in E as [_ E].
  apply andb_true_iff in E as [Ec _].
  cbn [Py.contains Py.startswith] in H. rewrite Ec in H. cbn in H.
  now rewrite !orb_true_r in H.
Qed.

Lemma normalize_fine_tuned (base rest : string) :
  Py.contains ":" base = false ->
  normalize_model ("ft:" ++ base ++ String ":" rest) = normalize_model base.
Proof.
  intros Hbase. unfold normalize_model.
  rewrite (colon_free_is_no_fine_tune base Hbase).
  cbn [String.append Py.startswith Ascii.eqb Bool.eqb andb].
  unfold Py.split.
  change (String "f" (String "t" (String ":" (base ++ String ":" rest))))
    with ("ft" ++ String ":" (base ++ String ":" rest))%string.
  rewrite (split_colon "ft" _ "" eq_refl), (split_colon base rest "" Hbase).
  reflexivity.
Qed.

(** X20.  A fine-tuned model is estimated as its base model: for a name
    [ft:base:rest], whatever follows the base, the estimate of every message
    list is the one made under the name [base]. *)
Theorem fine_tuned_model_is_estimated_as_its_base (base rest : string)
    (messages : list PromptMessage) (tools : option (list PromptMessageTool.t)) :
  Py.contains ":" base = false ->
  _num_tokens_from_messages encoding_for_model get_encoding py_repr
    ("ft:" ++ base ++ String ":" rest) messages tools
  = _num_tokens_from_messages encoding_for_model get_encoding py_repr base messages tools.
Proof.
  intros Hbase. unfold _num_tokens_from_messages.
  now rewrite (normalize_fine_tuned base rest Hbase).
Qed.

Lemma normalize_alias (model : string) :
  model = "chatgpt-4o-latest"
  \/ Py.startswith_any ["o1"; "o3"; "o4"; "gpt-4.1"; "gpt-4.5"] model = true ->
  normalize_model model = Ok "gpt-4o".
Proof.
  intros H. unfold normalize_model.
  assert (Hft : Py.startswith "ft:" model = false).
  { destruct H as [->|H]; [reflexivity|].
    destruct (Py.startswith "ft:" model) eqn:E; [|reflexivity].
    destruct model as [|a [|b [|c rest]]]; cbn [Py.startswith] in E;
      rewrite ?andb_false_r in E; try discriminate.
    apply andb_true_iff in E as [Ea _]. apply Ascii.eqb_eq in Ea. subst a.
    cbn in H. discriminate. }
  rewrite Hft. cbn [bind].
  destruct H as [->|H]; [reflexivity|]. rewrite H. now rewrite orb_true_r.
Qed.

(** X21.  The models the tokenizer library does not know by name are counted
    as [gpt-4o]: for [chatgpt-4o-latest] and for every name that starts with
    [o1], [o3], [o4], [gpt-4.1] or [gpt-4.5], the estimate of every message
    list is the one made under the name [gpt-4o], with its encoding and its
    per-message constants. *)
Theorem newer_models_are_estimated_as_gpt_4o (model : string)
    (messages : list PromptMessage) (tools : option (list PromptMessageTool.t)) :
  model = "chatgpt-4o-latest"
  \/ Py.startswith_any ["o1"; "o3"; "o4"; "gpt-4.1"; "gpt-4.5"] model = true ->
  _num_tokens_from_messages encoding_for_model get_encoding py_repr model messages tools
  = _num_tokens_from_messages encoding_for_model get_encoding py_repr "gpt-4o"
      messages tools.
Proof.
  intros H. unfold _num_tokens_from_messages.
  rewrite (normalize_alias model H). reflexivity.
Qed.


(** ** Text-completion dispatcher and the entry points *)

(** The framework's [LLMMode]. *)
Inductive LLMMode : Type :=
| CHAT
| COMPLETION.

(** What [client.completions.create] returns: a stream of fragments when
    called with [stream=True], a completion otherwise. *)
Definition text_response (stream : bool) : Type :=
  if stream then list Completion.t else Completion.t.

(** The call made on the text-completion endpoint. *)
Inductive completion_call : Type :=
| CompletionsCreate (prompt model : string) (stream : bool) (kwargs : Py.dict json).

(** The calls of an invocation, on either side of the client. *)
Definition client_call : Type := (remote_call + completion_call)%type.

Definition cio (A : Type) : Type := list client_call -> list client_call * result A.

Definition cio_ret {A : Type} (a : A) : cio A := fun log => (log, Ok a).

Definition cio_bind {A B : Type} (m : cio A) (k : A -> cio B) : cio B :=
  fun log =>
    match m log with
    | (log', Ok a) => k a log'
    | (log', Raise e) => (log', Raise e)
    end.

Definition cio_lift {A : Type} (r : result A) : cio A := fun log => (log, r).

Definition cio_call {A : Type} (call : client_call) (answer : result A) : cio A :=
  fun log => (log ++ [call], answer).

(** A computation on the chat side, run inside an invocation: its calls are
    added to the log of the invocation. *)
Definition of_io {A : Type} (m : io A) : cio A :=
  fun log => let '(calls, r) := m [] in (log ++ map inl calls, r).

Notation "x <~~ m ;; k" := (cio_bind m (fun x => k))
  (at level 61, m at next level, right associativity).

Variable completions_create :
  string -> string -> forall stream : bool, Py.dict json -> result (text_response stream).

(** The framework's [get_model_mode]: the mode of the schema of a model,
    looked up with or without credentials. *)
Variable get_model_mode : string -> option credentials -> result LLMMode.

(** [_handle_generate_response].  The text of the choice is a [str] on the
    wire type; where it is [None] the tokenizer refuses it with a
    [TypeError]. *)
Definition _handle_generate_response (model : string) (creds : credentials)
    (response : Completion.t) (prompt_messages : list PromptMessage)
  : result (LLMResult.t U) :=
  choice <- Py.index (Completion.choices response) 0 ;;
  let assistant_text := CompletionChoice.text choice in
  let assistant_prompt_message :=
    AssistantPromptMessage
      (match assistant_text with
       | Some s => CStr s
       | None => CNone
       end) None [] in
  counts <-
    match Completion.usage response with
    | Some usage =>
        Ok (CompletionUsage.prompt_tokens usage, CompletionUsage.completion_tokens usage)
    | None =>
        content <- first_prompt_text prompt_messages ;;
        prompt_tokens <- _num_tokens_from_string encoding_for_model get_encoding py_repr
                           model content None ;;
        completion_tokens <-
          match assistant_text with
          | Some s =>
              _num_tokens_from_string encoding_for_model get_encoding py_repr model s None
          | None => Raise TypeError
          end ;;
        Ok (prompt_tokens, completion_tokens)
    end ;;
  Ok {| LLMResult.model := Completion.model response;
        LLMResult.prompt_messages := prompt_messages;
        LLMResult.message := assistant_prompt_message;
        LLMResult.usage := Some (_calc_response_usage model creds (fst counts) (snd counts));
        LLMResult.system_fingerprint := Completion.system_fingerprint response |}.

Definition _generate (model : string) (creds : credentials)
    (prompt_messages : list PromptMessage) (model_parameters : Py.dict json)
    (stop : option (list string)) (stream : bool) (user : option string)
  : cio (generate_result U) :=
  client <~~ cio_lift (new_client creds) ;;
  let extra_model_kwargs : Py.dict json := [] in
  let extra_model_kwargs :=
    match stop with
    | Some (w :: ws) => Py.set "stop" (JArr (map JStr (w :: ws))) extra_model_kwargs
    | _ => extra_model_kwargs
    end in
  let extra_model_kwargs :=
    if Py.truthy user then Py.set "user" (JStr (Py.or_empty user)) extra_model_kwargs
    else extra_model_kwargs in
  let extra_model_kwargs :=
    if stream
    then Py.set "stream_options" (JObj [("include_usage", JBool true)]) extra_model_kwargs
    else extra_model_kwargs in
  prompt <~~ cio_lift (first_prompt_text prompt_messages) ;;
  kwargs <~~ cio_lift (merge_kwargs ["prompt"; "model"; "stream"]
                         model_parameters extra_model_kwargs) ;;
  if stream
  then
    response <~~ cio_call (inr (CompletionsCreate prompt model true kwargs))
                   (completions_create prompt model true kwargs) ;;
    cio_ret (StreamResult
               (_handle_generate_stream_response model creds response prompt_messages))
  else
    response <~~ cio_call (inr (CompletionsCreate prompt model false kwargs))
                   (completions_create prompt model false kwargs) ;;
    block_result <~~ cio_lift (_handle_generate_response model creds response
                                 prompt_messages) ;;
    cio_ret (BlockResult block_result).

(** The base of a fine-tuned model name: [model.split(":")[1]] for a name
    that starts with [ft:], the name itself otherwise. *)
Definition base_model_of (model : string) : result string :=
  if Py.startswith "ft:" model then Py.index (Py.split ":" model) 1 else Ok model.

Definition _invoke (model : string) (creds : credentials)
    (prompt_messages : list PromptMessage) (model_parameters : Py.dict json)
    (tools : option (list PromptMessageTool.t)) (stop : option (list string))
    (stream : bool) (user : option string) : cio (generate_result U) :=
  base_model <~~ cio_lift (base_model_of model) ;;
  model_mode <~~ cio_lift (get_model_mode base_model (Some creds)) ;;
  match model_mode with
  | CHAT =>
      of_io (_chat_generate model creds prompt_messages model_parameters tools stop
               stream user)
  | COMPLETION =>
      _generate model creds prompt_messages model_parameters stop stream user
  end.

Definition get_num_tokens (model : string) (creds : credentials)
    (prompt_messages : list PromptMessage) (tools : option (list PromptMessageTool.t))
  : result Z :=
  base_model <- base_model_of model ;;
  model_mode <- get_model_mode model None ;;
  match model_mode with
  | CHAT =>
      _num_tokens_from_messages encoding_for_model get_encoding py_repr base_model
        prompt_messages tools
  | COMPLETION =>
      content <- first_prompt_text prompt_messages ;;
      _num_tokens_from_string encoding_for_model get_encoding py_repr base_model content
        None
  end.

(** The text a result chunk carries. *)
Definition chunk_text (chunk : LLMResultChunk.t U) : string :=
  match message_content (LLMResultChunkDelta.message (LLMResultChunk.delta chunk)) with
  | CStr s => s
  | _ => ""
  end.

Lemma concat_all_app (a b : list string) :
  concat_all (a ++ b) = (concat_all a ++ concat_all b)%string.
Proof.
  induction a as [|x a IH]; simpl; [reflexivity|]. now rewrite IH, append_assoc.
Qed.

Lemma text_chunks_text (prompt_messages : list PromptMessage) (body : list Completion.t) :
  concat_all (map chunk_text (flat_map (text_chunk prompt_messages) body))
  = concat_all (map completion_text body).
Proof.
  induction body as [|chunk rest IH]; [reflexivity|].
  cbn [flat_map map]. rewrite map_app, concat_all_app, IH. cbn [concat_all fold_right].
  f_equal. unfold text_chunk.
  destruct (Completion.choices chunk) as [|delta others] eqn:Hchoices.
  - unfold completion_text. now rewrite Hchoices.
  - destruct (completion_text chunk =? "") eqn:E.
    + apply String.eqb_eq in E. now rewrite E.
    + cbn. now rewrite append_empty_r.
Qed.

(** X22.  Streaming and not streaming agree on a text completion.  Take a
    stream of text fragments closed by a finishing fragment, and the block
    response whose text is the text of that stream, both without usage on the
    wire, and let the two fallback estimates succeed, of the prompt text and
    of the text of the stream.  Then both handlers complete, the usage of the
    last chunk of the stream is the usage of the block result, built from the
    two estimates, and the text of the block result is the text of the chunks
    of the stream, joined in order. *)
Theorem text_stream_and_block_agree (model : string) (creds : credentials)
    (body : list Completion.t) (last : Completion.t) (response : Completion.t)
    (choice : CompletionChoice.t) (others : list CompletionChoice.t)
    (prompt_messages : list PromptMessage) (prompt : string) (p c : Z) :
  forallb text_only body = true ->
  finishes_text last = true ->
  first_prompt_text prompt_messages = Ok prompt ->
  Completion.choices response = choice :: others ->
  Completion.usage response = None ->
  CompletionChoice.text choice
  = Some (concat_all (map completion_text body) ++ completion_text last)%string ->
  _num_tokens_from_string encoding_for_model get_encoding py_repr model prompt None
    = Ok p ->
  _num_tokens_from_string encoding_for_model get_encoding py_repr model
    (concat_all (map completion_text body) ++ completion_text last)%string None = Ok c ->
  exists chunks final result,
    _handle_generate_stream_response model creds (body ++ [last]) prompt_messages
    = {| Generator.yielded := chunks ++ [final]; Generator.raised := None |}
    /\ _handle_generate_response model creds response prompt_messages = Ok result
    /\ chunk_usage final = LLMResult.usage result
    /\ chunk_usage final = Some (_calc_response_usage model creds p c)
    /\ message_content (LLMResult.message result)
       = CStr (concat_all (map chunk_text (chunks ++ [final]))).
Proof.
  intros Hbody Hlast Hprompt Hchoices Husage Htext Hp Hc.
  unfold _handle_generate_stream_response, _handle_generate_response.
  rewrite text_stream_loop_app, (text_only_loop prompt_messages body _ _ _ _ Hbody).
  rewrite Hchoices, Husage. cbn [Py.index nth_error bind]. rewrite Htext, Hprompt.
  unfold finishes_text in Hlast.
  cbn [text_stream_loop]. unfold text_stream_step.
  destruct (Completion.choices last) as [|delta rest] eqn:Hlast_choices; [discriminate|].
  assert (Hlast_text : completion_text last = Py.or_empty (CompletionChoice.text delta)).
  { unfold completion_text. now rewrite Hlast_choices. }
  destruct (CompletionChoice.finish_reason delta) as [r|] eqn:Hfin; [|discriminate].
  cbn [is_none andb]. unfold text_stream_final. rewrite Hprompt.
  cbn [bind Z.eqb String.append fst snd].
  assert (Hpiece : (if Py.truthy (CompletionChoice.text delta)
                    then Py.or_empty (CompletionChoice.text delta) else "")
                   = Py.or_empty (CompletionChoice.text delta)).
  { destruct (CompletionChoice.text delta) as [t|]; [|reflexivity]. simpl.
    destruct (t =? "") eqn:E; [apply String.eqb_eq in E; now subst | reflexivity]. }
  rewrite Hpiece, <- Hlast_text, app_nil_r, Hp. cbn [bind]. rewrite Hc.
  cbn [bind fst snd].
  eexists _, _, _. split; [reflexivity|]. split; [reflexivity|].
  split; [reflexivity|]. split; [reflexivity|].
  cbn [LLMResult.message message_content]. f_equal.
  rewrite map_app, concat_all_app, text_chunks_text. f_equal.
  cbn. now rewrite append_empty_r.
Qed.

(** The log of a chat invocation: unchanged with an error, or one call
    longer. *)
Lemma chat_generate_log (model : string) (creds : credentials)
    (prompt_messages : list PromptMessage) (model_parameters : Py.dict json)
    (tools : option (list PromptMessageTool.t)) (stop : option (list string))
    (stream : bool) (user : option string) (log : list remote_call) :
  (exists e,
      _chat_generate model creds prompt_messages model_parameters tools stop stream user
        log = (log, Raise e))
  \/ exists call r,
      _chat_generate model creds prompt_messages model_parameters tools stop stream user
        log = (log ++ [call], r).
Proof.
  rewrite chat_generate_unfold. unfold io_bind, io_lift.
  destruct (new_client creds) as [[]|e]; [|left; eauto].
  destruct (prepare_response_format model_parameters) as [prepared|e]; [|left; eauto].
  destruct (Py.contains "o3-pro" model).
  - unfold _chat_generate_o3_pro, io_bind, io_lift, io_call, io_ret.
    match goal with
    | |- context [merge_kwargs ?t ?a ?b] => destruct (merge_kwargs t a b) as [kw|e]
    end; [|left; eauto].
    match goal with
    | |- context [responses_create ?m ?i ?k] => destruct (responses_create m i k)
    end; right; eauto.
  - destruct (mapM _convert_prompt_message_to_dict
                (_clear_illegal_prompt_messages model prompt_messages)) as [ms|e];
      [|left; eauto].
    destruct (merge_kwargs ["messages"; "model"; "stream"]
                (sent_parameters model prepared tools)
                (sent_extras model tools stop stream user)) as [kw|e]; [|left; eauto].
    unfold io_call, io_ret. destruct stream.
    + destruct (chat_completions_create ms model true kw); right; eauto.
    + destruct (chat_completions_create ms model false kw) as [response|e];
        [destruct (_handle_chat_generate_response model creds response
                     (_clear_illegal_prompt_messages model prompt_messages) tools)|];
        right; eauto.
Qed.

(** X23.  An invocation sends at most one request, on the endpoint of the
    mode of the base model, under the name of the model itself.  When it fails
    before sending, the log is unchanged.  Otherwise one call is added: in
    chat mode a call of the chat side; in completion mode a text-completion
    call that names the model as it was given, fine-tune prefix included, asks
    for the stream flag of the invocation and carries the text of the first
    prompt message as its prompt. *)
Theorem invoke_sends_at_most_one_request (model : string) (creds : credentials)
    (prompt_messages : list PromptMessage) (model_parameters : Py.dict json)
    (tools : option (list PromptMessageTool.t)) (stop : option (list string))
    (stream : bool) (user : option string) (log : list client_call) :
  exists log' r,
    _invoke model creds prompt_messages model_parameters tools stop stream user log
    = (log', r)
    /\ ((log' = log /\ exists e, r = Raise e)
        \/ exists call base mode,
            log' = log ++ [call]
            /\ base_model_of model = Ok base
            /\ get_model_mode base (Some creds) = Ok mode
            /\ match mode with
               | CHAT => exists c, call = inl c
               | COMPLETION =>
                   exists prompt kwargs,
                     call = inr (CompletionsCreate prompt model stream kwargs)
                     /\ first_prompt_text prompt_messages = Ok prompt
               end).
Proof.
  unfold _invoke, cio_bind, cio_lift.
  destruct (base_model_of model) as [base|e] eqn:Hbase;
    [|eexists _, _; split; [reflexivity|]; left; eauto].
  destruct (get_model_mode base (Some creds)) as [[|]|e] eqn:Hmode;
    [| |eexists _, _; split; [reflexivity|]; left; eauto].
  - unfold of_io.
    destruct (chat_generate_log model creds prompt_messages model_parameters tools stop
                stream user []) as [[e ->]|[call [r ->]]].
    + eexists _, _. split; [reflexivity|]. left. cbn [map]. rewrite app_nil_r. eauto.
    + eexists _, _. split; [reflexivity|]. right. exists (inl call), base, CHAT.
      cbn [map app]. repeat split; eauto.
  - unfold _generate, cio_bind, cio_lift, cio_call, cio_ret.
    destruct (new_client creds) as [[]|e];
      [|eexists _, _; split; [reflexivity|]; left; eauto].
    destruct (first_prompt_text prompt_messages) as [prompt|e] eqn:Hprompt;
      [|eexists _, _; split; [reflexivity|]; left; eauto].
    match goal with
    | |- context [merge_kwargs ?t ?a ?b] => destruct (merge_kwargs t a b) as [kw|e]
    end; [|eexists _, _; split; [reflexivity|]; left; eauto].
    destruct stream.
    + destruct (completions_create prompt model true kw);
        eexists _, _; (split; [reflexivity|]); right;
        eexists _, base, COMPLETION; repeat split; eauto.
    + destruct (completions_create prompt model false kw) as [response|e];
        [destruct (_handle_generate_response model creds response prompt_messages)|];
        eexists _, _; (split; [reflexivity|]); right;
        eexists _, base, COMPLETION; repeat split; eauto.
Qed.

Lemma base_of_fine_tuned (base rest : string) :
  Py.contains ":" base = false ->
  base_model_of ("ft:" ++ base ++ String ":" rest) = Ok base
  /\ base_model_of base = Ok base.
Proof.
  intros Hbase. unfold base_model_of.
  rewrite (colon_free_is_no_fine_tune base Hbase). split; [|reflexivity].
  cbn [String.append Py.startswith Ascii.eqb Bool.eqb andb].
  unfold Py.split.
  change (String "f" (String "t" (String ":" (base ++ String ":" rest))))
    with ("ft" ++ String ":" (base ++ String ":" rest))%string.
  rewrite (split_colon "ft" _ "" eq_refl), (split_colon base rest "" Hbase).
  reflexivity.
Qed.

(** X24.  The token count of a fine-tuned model is the count of its base
    model, in either mode, as long as the framework gives both names the same
    mode: the count is made under the base name, while the mode is looked up
    under the name as it was given. *)
Theorem fine_tuned_count_is_the_count_of_the_base (base rest : string)
    (creds : credentials) (prompt_messages : list PromptMessage)
    (tools : option (list PromptMessageTool.t)) :
  Py.contains ":" base = false ->
  get_model_mode ("ft:" ++ base ++ String ":" rest) None = get_model_mode base None ->
  get_num_tokens ("ft:" ++ base ++ String ":" rest) creds prompt_messages tools
  = get_num_tokens base creds prompt_messages tools.
Proof.
  intros Hbase Hmode. unfold get_num_tokens.
  destruct (base_of_fine_tuned base rest Hbase) as [-> ->].
  cbn [bind]. now rewrite Hmode.
Qed.


(** ** Block mode: the code-block wrapper and its prompt transforms *)

(** [s.replace(old, new)] for a non-empty [old]: the occurrences are taken
    from the left and do not overlap; [skip] counts the characters of an
    occurrence still to be dropped. *)
Fixpoint replace_aux (old new : string) (skip : nat) (s : string) : string :=
  match s with
  | EmptyString => EmptyString
  | String c s' =>
      match skip with
      | S k => replace_aux old new k s'
      | O =>
          if Py.startswith old s
          then (new ++ replace_aux old new (String.length old - 1) s')%string
          else String c (replace_aux old new 0 s')
      end
  end.

Definition str_replace (old new s : string) : string := replace_aux old new 0 s.

(** [s[-n:]] and [s[:-n]] for a positive [n] *)
Definition str_last (n : nat) (s : string) : string :=
  String.substring (String.length s - n) n s.

Definition str_drop_last (n : nat) (s : string) : string :=
  String.substring 0 (String.length s - n) s.

Definition quote : string := String (ascii_of_nat 34) "".

Definition OPENAI_BLOCK_MODE_PROMPT : string :=
  ("You should always follow the instructions and output a valid {{block}} object."
   ++ nl
   ++ "The structure of the {{block}} object you can found in the instructions, use {"
   ++ quote ++ "answer" ++ quote ++ ": " ++ quote ++ "$your_answer" ++ quote
   ++ "} as the default structure" ++ nl
   ++ "if you are not sure about the structure." ++ nl
   ++ nl
   ++ "<instructions>" ++ nl
   ++ "{{instructions}}" ++ nl
   ++ "</instructions>" ++ nl)%string.

(** [OPENAI_BLOCK_MODE_PROMPT.replace("{{instructions}}", instructions)
    .replace("{{block}}", response_format)] *)
Definition block_mode_prompt (instructions response_format : string) : string :=
  str_replace "{{block}}" response_format
    (str_replace "{{instructions}}" instructions OPENAI_BLOCK_MODE_PROMPT).

Definition fence : string := "```".

(** The stop lists of an invocation are Python list objects that caller and
    callee share: a store of lists, addressed by position. *)
Definition store : Type := list (list string).

Definition deref (h : store) (r : nat) : list string := nth r h [].

(** A new list object. *)
Definition alloc (h : store) (l : list string) : store * nat :=
  (h ++ [l], List.length h).

Fixpoint store_set (h : store) (r : nat) (l : list string) : store :=
  match h, r with
  | [], _ => []
  | _ :: h', O => l :: h'
  | x :: h', S r' => x :: store_set h' r' l
  end.

(** [stop or []]: the list itself when it is not empty, a new empty list
    otherwise. *)
Definition or_new_list (h : store) (stop : option nat) : store * nat :=
  match stop with
  | Some r =>
      match deref h r with
      | [] => alloc h []
      | _ :: _ => (h, r)
      end
  | None => alloc h []
  end.

(** [if x not in stop: stop.append(x)] *)
Definition append_missing (h : store) (r : nat) (x : string) : store :=
  if existsb (String.eqb x) (deref h r) then h
  else store_set h r (deref h r ++ [x]).

(** The head of both transforms: the two fences are added to the stop list
    that [stop or []] gives. *)
Definition add_stop_words (h : store) (stop : option nat) : store :=
  let '(h, r) := or_new_list h stop in
  let h := append_missing h r (fence ++ nl)%string in
  append_missing h r (nl ++ fence)%string.

(** [_transform_chat_json_prompts]; it changes the prompt list and the stop
    list in place and returns nothing, here it returns the store and the
    prompt list.  The model, the credentials, the parameters, the tools, the
    stream flag and the user are not used by it. *)
Definition _transform_chat_json_prompts (prompt_messages : list PromptMessage)
    (stop : option nat) (response_format : string) (h : store)
  : store * result (list PromptMessage) :=
  let h := add_stop_words h stop in
  (h,
   match prompt_messages with
   | SystemPromptMessage content _ :: rest =>
       match content with
       | CStr instructions =>
           Ok ((SystemPromptMessage
                  (CStr (block_mode_prompt instructions response_format)) None :: rest)
               ++ [AssistantPromptMessage
                     (CStr (nl ++ fence ++ response_format ++ nl)%string) None []])
       | _ => Raise AssertionError
       end
   | _ =>
       Ok ((SystemPromptMessage
              (CStr (block_mode_prompt
                       ("Please output a valid " ++ response_format ++ " object.")%string
                       response_format)) None :: prompt_messages)
           ++ [AssistantPromptMessage
                 (CStr (nl ++ fence ++ response_format)%string) None []])
   end).

(** The index the loop from the end stops at: the last user message, counting
    from [i]. *)
Fixpoint last_user_index (prompt_messages : list PromptMessage) (i : nat) : option nat :=
  match prompt_messages with
  | [] => None
  | m :: rest =>
      match last_user_index rest (S i) with
      | Some j => Some j
      | None => if is_user m then Some i else None
      end
  end.

(** [l[i] = x] for an index in range *)
Fixpoint list_set {A : Type} (l : list A) (i : nat) (x : A) : list A :=
  match l, i with
  | [], _ => []
  | _ :: l', O => x :: l'
  | y :: l', S i' => y :: list_set l' i' x
  end.

(** [_transform_completion_json_prompts].  On an empty prompt list the loop
    variable stays [None] and the assertion on it fails.  The instructions
    are read through [user_message], which is the message at the index: in
    the branch of the chat application they are the content already cut. *)
Definition _transform_completion_json_prompts (prompt_messages : list PromptMessage)
    (stop : option nat) (response_format : string) (h : store)
  : store * result (list PromptMessage) :=
  let h := add_stop_words h stop in
  (h,
   match prompt_messages with
   | [] => Raise AssertionError
   | _ :: _ =>
       match last_user_index prompt_messages 0 with
       | None => Ok prompt_messages
       | Some i =>
           match nth_error prompt_messages i with
           | Some m =>
               match message_content m with
               | CStr content =>
                   if str_last 11 content =? "Assistant: "
                   then
                     Ok (list_set prompt_messages i
                           (UserPromptMessage
                              (CStr (block_mode_prompt (str_drop_last 11 content)
                                       response_format
                                     ++ "Assistant:" ++ nl ++ fence ++ response_format
                                     ++ nl)%string) None))
                   else
                     Ok (list_set prompt_messages i
                           (UserPromptMessage
                              (CStr (block_mode_prompt content response_format
                                     ++ nl ++ fence ++ response_format ++ nl)%string)
                              None))
               | _ => Raise AssertionError
               end
           | None => Raise IndexError
           end
       end
   end).

(** The response format that asks for block mode: [JSON] or [XML]. *)
Definition block_format (model_parameters : Py.dict json) : option string :=
  match Py.get "response_format" model_parameters with
  | Some response_format =>
      if json_is_str response_format "JSON" then Some "JSON"
      else if json_is_str response_format "XML" then Some "XML"
      else None
  | None => None
  end.

(** [_code_block_mode_wrapper]: it returns the store, the log and the
    result. *)
Definition _code_block_mode_wrapper (model : string) (creds : credentials)
    (prompt_messages : list PromptMessage) (model_parameters : Py.dict json)
    (tools : option (list PromptMessageTool.t)) (stop : option nat)
    (stream : bool) (user : option string) (h : store) (log : list client_call)
  : store * (list client_call * result (generate_result U)) :=
  match base_model_of model with
  | Raise e => (h, (log, Raise e))
  | Ok base_model =>
      match get_model_mode base_model (Some creds) with
      | Raise e => (h, (log, Raise e))
      | Ok model_mode =>
          match block_format model_parameters with
          | Some response_format =>
              let '(h, r) := or_new_list h stop in
              let '(h, transformed) :=
                match model_mode with
                | CHAT =>
                    _transform_chat_json_prompts prompt_messages (Some r)
                      response_format h
                | COMPLETION =>
                    _transform_completion_json_prompts prompt_messages (Some r)
                      response_format h
                end in
              match transformed with
              | Raise e => (h, (log, Raise e))
              | Ok prompt_messages =>
                  (h, _invoke model creds prompt_messages
                        (Py.del "response_format" model_parameters) tools
                        (Some (deref h r)) stream user log)
              end
          | None =>
              (h, _invoke model creds prompt_messages model_parameters tools
                    (option_map (deref h) stop) stream user log)
          end
      end
  end.

(** The template with its two placeholders filled in. *)
Example block_mode_prompt_sample :
  block_mode_prompt "Say hi." "JSON"
  = ("You should always follow the instructions and output a valid JSON object."
     ++ nl
     ++ "The structure of the JSON object you can found in the instructions, use {"
     ++ quote ++ "answer" ++ quote ++ ": " ++ quote ++ "$your_answer" ++ quote
     ++ "} as the default structure" ++ nl
     ++ "if you are not sure about the structure." ++ nl
     ++ nl
     ++ "<instructions>" ++ nl
     ++ "Say hi." ++ nl
     ++ "</instructions>" ++ nl)%string.
Proof. reflexivity. Qed.


Lemma deref_alloc (h : store) (l : list string) :
  deref (h ++ [l]) (List.length h) = l.
Proof.
  unfold deref. rewrite app_nth2 by lia. now rewrite Nat.sub_diag.
Qed.

Lemma deref_in_range (h : store) (r : nat) :
  deref h r <> [] -> (r < List.length h)%nat.
Proof.
  intros H. destruct (Nat.lt_ge_cases r (List.length h)) as [Hlt|Hge]; [exact Hlt|].
  exfalso. apply H. now apply nth_overflow.
Qed.

Lemma deref_set_same (l : list string) :
  forall (h : store) (r : nat),
    (r < List.length h)%nat -> deref (store_set h r l) r = l.
Proof.
  induction h as [|x h IH]; intros r Hr; simpl in Hr; [lia|].
  destruct r as [|r]; [reflexivity|]. apply IH. lia.
Qed.

Lemma deref_set_other (l : list string) :
  forall (h : store) (r r' : nat),
    r <> r' -> deref (store_set h r' l) r = deref h r.
Proof.
  induction h as [|x h IH]; intros r r' Hne; [reflexivity|].
  destruct r' as [|r'], r as [|r]; try reflexivity; [contradiction|].
  apply IH. lia.
Qed.

Lemma length_store_set (l : list string) :
  forall (h : store) (r : nat), List.length (store_set h r l) = List.length h.
Proof.
  induction h as [|x h IH]; intros r; [reflexivity|].
  destruct r; simpl; [reflexivity | now rewrite IH].
Qed.

(** A stop list with the fences it lacks. *)
Definition with_fences (stop : list string) : list string :=
  let stop :=
    if existsb (String.eqb (fence ++ nl)) stop then stop
    else stop ++ [(fence ++ nl)%string] in
  if existsb (String.eqb (nl ++ fence)) stop then stop
  else stop ++ [(nl ++ fence)%string].

Lemma append_missing_same (h : store) (r : nat) (x : string) :
  (r < List.length h)%nat ->
  deref (append_missing h r x) r
  = (if existsb (String.eqb x) (deref h r) then deref h r else deref h r ++ [x])
  /\ List.length (append_missing h r x) = List.length h.
Proof.
  intros Hr. unfold append_missing.
  destruct (existsb (String.eqb x) (deref h r)); [now split|].
  split; [now apply deref_set_same | apply length_store_set].
Qed.

Lemma append_missing_other (h : store) (r r' : nat) (x : string) :
  r <> r' -> deref (append_missing h r' x) r = deref h r.
Proof.
  intros Hne. unfold append_missing.
  destruct (existsb (String.eqb x) (deref h r')); [reflexivity|].
  now apply deref_set_other.
Qed.

(** On a list that is not empty the fences are added in place. *)
Lemma add_stop_words_in_place (h : store) (r : nat) :
  deref h r <> [] ->
  deref (add_stop_words h (Some r)) r = with_fences (deref h r).
Proof.
  intros Hne. assert (Hr := deref_in_range h r Hne).
  unfold add_stop_words, or_new_list.
  destruct (deref h r) as [|w ws] eqn:Hstop; [contradiction|].
  destruct (append_missing_same h r (fence ++ nl) Hr) as [H1 Hlen].
  destruct (append_missing_same (append_missing h r (fence ++ nl)) r (nl ++ fence))
    as [H2 _]; [now rewrite Hlen|].
  rewrite H2, H1, Hstop. reflexivity.
Qed.

(** On an empty list they go to a new list, and the list stays empty. *)
Lemma add_stop_words_elsewhere (h : store) (r : nat) :
  (r < List.length h)%nat ->
  deref h r = [] ->
  deref (add_stop_words h (Some r)) r = [].
Proof.
  intros Hr Hempty. unfold add_stop_words, or_new_list, alloc. rewrite Hempty.
  rewrite !append_missing_other by lia.
  unfold deref. rewrite app_nth1 by exact Hr. exact Hempty.
Qed.

(** The prompt a transform makes does not depend on the stop list. *)
Definition transformed_prompt (mode : LLMMode) (prompt_messages : list PromptMessage)
    (response_format : string) : result (list PromptMessage) :=
  match mode with
  | CHAT => snd (_transform_chat_json_prompts prompt_messages None response_format [])
  | COMPLETION =>
      snd (_transform_completion_json_prompts prompt_messages None response_format [])
  end.

Lemma wrapper_block_mode (model : string) (creds : credentials)
    (prompt_messages : list PromptMessage) (model_parameters : Py.dict json)
    (tools : option (list PromptMessageTool.t)) (stop : option nat)
    (stream : bool) (user : option string) (h : store) (log : list client_call)
    (base : string) (mode : LLMMode) (response_format : string) :
  base_model_of model = Ok base ->
  get_model_mode base (Some creds) = Ok mode ->
  block_format model_parameters = Some response_format ->
  _code_block_mode_wrapper model creds prompt_messages model_parameters tools stop
    stream user h log
  = (add_stop_words (fst (or_new_list h stop)) (Some (snd (or_new_list h stop))),
     match transformed_prompt mode prompt_messages response_format with
     | Raise e => (log, Raise e)
     | Ok transformed =>
         _invoke model creds transformed (Py.del "response_format" model_parameters)
           tools
           (Some (deref (add_stop_words (fst (or_new_list h stop))
                           (Some (snd (or_new_list h stop))))
                    (snd (or_new_list h stop))))
           stream user log
     end).
Proof.
  intros Hbase Hmode Hformat. unfold _code_block_mode_wrapper.
  rewrite Hbase, Hmode, Hformat.
  destruct (or_new_list h stop) as [h1 r]. cbn [fst snd].
  destruct mode; unfold transformed_prompt;
    [unfold _transform_chat_json_prompts | unfold _transform_completion_json_prompts];
    cbn [snd];
    match goal with
    | |- context [match ?t with Ok _ => _ | Raise _ => _ end] => destruct t
    end; reflexivity.
Qed.

(** X25.  In block mode the fences are stop words only when the caller gives
    a stop word of their own.  With a stop list that is not empty the
    invocation is made with that list and the fences it lacks, and the list of
    the caller is extended in place.  Without a stop list, or with an empty
    one, the fences are added to a list that is then dropped: the invocation
    is made with no stop word at all. *)
Theorem block_mode_fences_need_a_caller_stop_word (model : string) (creds : credentials)
    (prompt_messages transformed : list PromptMessage) (model_parameters : Py.dict json)
    (tools : option (list PromptMessageTool.t)) (stop : option nat)
    (stream : bool) (user : option string) (h : store) (log : list client_call)
    (base : string) (mode : LLMMode) (response_format : string) :
  base_model_of model = Ok base ->
  get_model_mode base (Some creds) = Ok mode ->
  block_format model_parameters = Some response_format ->
  transformed_prompt mode prompt_messages response_format = Ok transformed ->
  (forall r,
      stop = Some r -> deref h r <> [] ->
      snd (_code_block_mode_wrapper model creds prompt_messages model_parameters tools
             stop stream user h log)
      = _invoke model creds transformed (Py.del "response_format" model_parameters)
          tools (Some (with_fences (deref h r))) stream user log
      /\ deref (fst (_code_block_mode_wrapper model creds prompt_messages
                       model_parameters tools stop stream user h log)) r
         = with_fences (deref h r))
  /\ (stop = None \/ (exists r, stop = Some r /\ deref h r = []) ->
      snd (_code_block_mode_wrapper model creds prompt_messages model_parameters tools
             stop stream user h log)
      = _invoke model creds transformed (Py.del "response_format" model_parameters)
          tools (Some []) stream user log).
Proof.
  intros Hbase Hmode Hformat Hprompt.
  rewrite (wrapper_block_mode _ _ _ _ _ _ _ _ _ _ _ _ _ Hbase Hmode Hformat), Hprompt.
  cbn [fst snd]. split.
  - intros r -> Hne. unfold or_new_list at 1 2 3 4 5.
    destruct (deref h r) as [|w ws] eqn:Hstop; [contradiction|]. cbn [fst snd].
    rewrite add_stop_words_in_place, Hstop by (rewrite Hstop; discriminate).
    split; reflexivity.
  - intros Hnone.
    assert (Hnew : or_new_list h stop = alloc h []).
    { destruct Hnone as [->|[r [-> Hempty]]]; [reflexivity|].
      unfold or_new_list. now rewrite Hempty. }
    rewrite Hnew. unfold alloc. cbn [fst snd].
    rewrite add_stop_words_elsewhere; [reflexivity | | apply deref_alloc].
    rewrite length_app. simpl. lia.
Qed.

(** ** Block mode: what reaches the chat endpoint *)

Lemma prepare_without_format (model_parameters prepared : Py.dict json) :
  Py.get "response_format" model_parameters = None ->
  prepare_response_format model_parameters = Ok prepared ->
  Py.get "response_format" prepared = None.
Proof.
  unfold prepare_response_format. intros Hnone H. rewrite Hnone in H.
  injection H as <-.
  destruct (Py.mem "json_schema" model_parameters); [|exact Hnone].
  now rewrite get_del_other.
Qed.

Definition starts_with_system (prompt_messages : list PromptMessage) : bool :=
  match prompt_messages with
  | SystemPromptMessage _ _ :: _ => true
  | _ => false
  end.

Lemma chat_transform_shape (prompt_messages transformed : list PromptMessage)
    (response_format : string) :
  transformed_prompt CHAT prompt_messages response_format = Ok transformed ->
  exists prompt,
    transformed
    = SystemPromptMessage (CStr prompt) None
      :: (if starts_with_system prompt_messages then tl prompt_messages
          else prompt_messages)
      ++ [AssistantPromptMessage
            (CStr (nl ++ fence ++ response_format
                   ++ (if starts_with_system prompt_messages then nl else ""))%string)
            None []].
Proof.
  unfold transformed_prompt, _transform_chat_json_prompts. cbn [snd].
  destruct prompt_messages as [|[c n|c n t|[|s|parts] n|c n t|c n] rest];
    cbn [starts_with_system tl]; intros H; try discriminate; injection H as <-;
    rewrite ?append_empty_r; eexists; reflexivity.
Qed.

Lemma clear_keeps_the_ends (model : string) (first last : PromptMessage)
    (middle : list PromptMessage) :
  is_user first = false ->
  is_user last = false ->
  exists middle',
    _clear_illegal_prompt_messages model (first :: middle ++ [last])
    = first :: middle' ++ [last]
    /\ List.length middle' = List.length middle.
Proof.
  intros Hfirst Hlast. unfold _clear_illegal_prompt_messages.
  match goal with
  | |- context [if ?b then _ else _] => destruct b
  end; [|now exists middle].
  cbn [map]. rewrite map_app. cbn [map].
  eexists. split; [|apply length_map].
  destruct first as [c n| | | |], last as [c' n'| | | |]; try discriminate; reflexivity.
Qed.

(** X26.  What reaches the chat endpoint in block mode: the first message of
    the request is a system message, the last one is the assistant message
    that opens the code fence of the format (closed by a newline exactly when
    the prompt began with a system message), the messages of the prompt that
    are between them keep their number, and the request carries no
    [response_format]. *)
Theorem block_mode_chat_request (model : string) (creds : credentials)
    (prompt_messages : list PromptMessage) (model_parameters : Py.dict json)
    (tools : option (list PromptMessageTool.t)) (stop : option nat)
    (stream : bool) (user : option string) (h : store) (log : list client_call)
    (base response_format : string) (messages : list message_dict) (model' : string)
    (stream' : bool) (kwargs : Py.dict json) (r : result (generate_result U)) :
  base_model_of model = Ok base ->
  get_model_mode base (Some creds) = Ok CHAT ->
  block_format model_parameters = Some response_format ->
  NoDup (keys model_parameters) ->
  snd (_code_block_mode_wrapper model creds prompt_messages model_parameters tools stop
         stream user h log)
  = (log ++ [inl (ChatCompletionsCreate messages model' stream' kwargs)], r) ->
  exists first middle,
    messages
    = first :: middle
      ++ [[("role", WStr "assistant");
           ("content",
            WStr (nl ++ fence ++ response_format
                  ++ (if starts_with_system prompt_messages then nl else ""))%string)]]
    /\ Py.get "role" first = Some (WStr "system")
    /\ List.length middle
       = List.length (if starts_with_system prompt_messages then tl prompt_messages
                      else prompt_messages)
    /\ Py.get "response_format" kwargs = None.
Proof.
  intros Hbase Hmode Hformat Hnodup.
  rewrite (wrapper_block_mode _ _ _ _ _ _ _ _ _ _ _ _ _ Hbase Hmode Hformat).
  cbn [snd].
  destruct (transformed_prompt CHAT prompt_messages response_format)
    as [transformed|e] eqn:Hprompt;
    [|intros H; injection H as H _; now apply not_appended in H].
  unfold _invoke, cio_bind, cio_lift. rewrite Hbase, Hmode. unfold of_io.
  match goal with
  | |- context [_chat_generate ?m ?c ?p ?mp ?t ?s ?st ?u []] =>
      destruct (chat_generate_log m c p mp t s st u []) as [[e He]|[call [r' Hcall]]];
      [rewrite He | rewrite Hcall]
  end.
  { cbn [map]. rewrite app_nil_r. intros H. injection H as H _.
    now apply not_appended in H. }
  cbn [map app]. intros H. injection H as H _. apply app_inv_head in H.
  injection H as ->.
  destruct (chat_generate_request _ _ _ _ _ _ _ _ _ _ _ _ _ _ Hcall)
    as [prepared [Hprep [Hconv [Hmerge _]]]].
  destruct (chat_transform_shape _ _ _ Hprompt) as [prompt ->].
  destruct (clear_keeps_the_ends model (SystemPromptMessage (CStr prompt) None)
              (AssistantPromptMessage
                 (CStr (nl ++ fence ++ response_format
                        ++ (if starts_with_system prompt_messages then nl else ""))%string)
                 None [])
              (if starts_with_system prompt_messages then tl prompt_messages
               else prompt_messages) eq_refl eq_refl) as [middle' [Hclear Hlen]].
  rewrite Hclear in Hconv. cbn [mapM] in Hconv.
  apply bind_ok in Hconv as [first [Hfirst Hconv]].
  apply bind_ok in Hconv as [rest [Hrest Hconv]]. injection Hconv as <-.
  rewrite mapM_app in Hrest.
  apply bind_ok in Hrest as [middle [Hmiddle Hrest]].
  apply bind_ok in Hrest as [tail [Htail Hrest]]. injection Hrest as <-.
  cbn in Htail. injection Htail as <-. cbn in Hfirst. injection Hfirst as <-.
  exists [("role", WStr "system"); ("content", WStr prompt)], middle.
  split; [reflexivity|]. split; [reflexivity|]. split.
  - rewrite <- Hlen. clear -Hmiddle. revert middle Hmiddle.
    induction middle' as [|m ms IH]; intros middle H; cbn [mapM] in H.
    + now injection H as <-.
    + apply bind_ok in H as [d [_ H]]. apply bind_ok in H as [ds [Hds H]].
      injection H as <-. simpl. now rewrite (IH ds Hds).
  - destruct (merge_kwargs_ok _ _ _ _ Hmerge) as [-> _].
    destruct (sent_extras_get model tools
                (Some (deref (add_stop_words (fst (or_new_list h stop))
                                (Some (snd (or_new_list h stop))))
                         (snd (or_new_list h stop)))) stream user)
      as [_ [_ [_ [_ Hother]]]].
    rewrite get_app, sent_parameters_get_other by reflexivity.
    rewrite (prepare_without_format _ _ (get_del_same "response_format" _ Hnodup) Hprep).
    now apply Hother.
Qed.

(** ** Block mode: the prompt of a text-completion model *)

Lemma no_user_no_index (prompt_messages : list PromptMessage) :
  forallb (fun m => negb (is_user m)) prompt_messages = true ->
  forall i, last_user_index prompt_messages i = None.
Proof.
  induction prompt_messages as [|m rest IH]; intros H i; [reflexivity|].
  cbn [forallb] in H. apply andb_true_iff in H as [Hm Hrest].
  cbn [last_user_index]. rewrite (IH Hrest).
  now destruct (is_user m).
Qed.

Lemma last_user_index_found (m : PromptMessage) (after : list PromptMessage) :
  is_user m = true ->
  forallb (fun x => negb (is_user x)) after = true ->
  forall (before : list PromptMessage) (i : nat),
    last_user_index (before ++ m :: after) i = Some (i + List.length before)%nat.
Proof.
  intros Hm Hafter. induction before as [|x before IH]; intros i.
  - cbn [app last_user_index]. rewrite (no_user_no_index after Hafter), Hm.
    simpl. now rewrite Nat.add_0_r.
  - cbn [app last_user_index]. rewrite IH. simpl. f_equal. lia.
Qed.

Lemma list_set_middle {A : Type} (x y : A) (after : list A) :
  forall before, list_set (before ++ y :: after) (List.length before) x
                 = before ++ x :: after.
Proof.
  induction before as [|z before IH]; [reflexivity|]. simpl. now rewrite IH.
Qed.

Lemma nth_error_middle {A : Type} (y : A) (after : list A) :
  forall before, nth_error (before ++ y :: after) (List.length before) = Some y.
Proof.
  induction before as [|z before IH]; [reflexivity | exact IH].
Qed.

Lemma completion_transform_nonempty (prompt_messages : list PromptMessage)
    (stop : option nat) (response_format : string) (h : store) :
  prompt_messages <> [] ->
  snd (_transform_completion_json_prompts prompt_messages stop response_format h)
  = match last_user_index prompt_messages 0 with
    | None => Ok prompt_messages
    | Some i =>
        match nth_error prompt_messages i with
        | Some m =>
            match message_content m with
            | CStr content =>
                if str_last 11 content =? "Assistant: "
                then
                  Ok (list_set prompt_messages i
                        (UserPromptMessage
                           (CStr (block_mode_prompt (str_drop_last 11 content)
                                    response_format
                                  ++ "Assistant:" ++ nl ++ fence ++ response_format
                                  ++ nl)%string) None))
                else
                  Ok (list_set prompt_messages i
                        (UserPromptMessage
                           (CStr (block_mode_prompt content response_format
                                  ++ nl ++ fence ++ response_format ++ nl)%string)
                           None))
            | _ => Raise AssertionError
            end
        | None => Raise IndexError
        end
    end.
Proof.
  destruct prompt_messages; [contradiction | reflexivity].
Qed.

(** X27.  What the transform for text-completion models does to a prompt,
    whatever the stop list is.  Only the last user message is rewritten,
    wherever it stands: its text becomes the instructions of the block-mode
    prompt, followed by the opening fence of the format, and its name is
    dropped; a text that ends with [Assistant: ] loses that ending and the
    fence is introduced by [Assistant:].  A prompt without user message is
    left as it is; a last user message whose content is not a text, and an
    empty prompt, fail an assertion. *)
Theorem completion_transform_rewrites_the_last_user_message (stop : option nat)
    (response_format : string) (h : store) :
  (forall (before after : list PromptMessage) (content : string) (name : option string),
      forallb (fun m => negb (is_user m)) after = true ->
      snd (_transform_completion_json_prompts
             (before ++ UserPromptMessage (CStr content) name :: after)
             stop response_format h)
      = Ok (before
            ++ UserPromptMessage
                 (CStr (if str_last 11 content =? "Assistant: "
                        then (block_mode_prompt (str_drop_last 11 content)
                                response_format
                              ++ "Assistant:" ++ nl ++ fence ++ response_format ++ nl)
                        else (block_mode_prompt content response_format
                              ++ nl ++ fence ++ response_format ++ nl))%string)
                 None
            :: after))
  /\ (forall (before after : list PromptMessage) (content : Content)
             (name : option string),
        forallb (fun m => negb (is_user m)) after = true ->
        (forall text, content <> CStr text) ->
        snd (_transform_completion_json_prompts
               (before ++ UserPromptMessage content name :: after)
               stop response_format h)
        = Raise AssertionError)
  /\ (forall (prompt_messages : list PromptMessage),
        prompt_messages <> [] ->
        forallb (fun m => negb (is_user m)) prompt_messages = true ->
        snd (_transform_completion_json_prompts prompt_messages stop response_format h)
        = Ok prompt_messages)
  /\ snd (_transform_completion_json_prompts [] stop response_format h)
     = Raise AssertionError.
Proof.
  repeat split.
  - intros before after content name Hafter.
    rewrite completion_transform_nonempty by (now destruct before).
    rewrite (last_user_index_found (UserPromptMessage (CStr content) name) after
               eq_refl Hafter before 0).
    cbn [Nat.add]. rewrite nth_error_middle. cbn [message_content].
    destruct (str_last 11 content =? "Assistant: "); now rewrite list_set_middle.
  - intros before after content name Hafter Hcontent.
    rewrite completion_transform_nonempty by (now destruct before).
    rewrite (last_user_index_found (UserPromptMessage content name) after
               eq_refl Hafter before 0).
    cbn [Nat.add]. rewrite nth_error_middle. cbn [message_content].
    destruct content as [|text|parts]; try reflexivity.
    now destruct (Hcontent text).
  - intros prompt_messages Hne Hnone.
    rewrite completion_transform_nonempty by exact Hne.
    now rewrite (no_user_no_index prompt_messages Hnone).
Qed.


(** ** Chat completions: streaming and not streaming *)

Lemma content_chunks_text (prompt_messages : list PromptMessage)
    (body : list ChatCompletionChunk.t) :
  concat_all (map chunk_text (flat_map (content_chunk prompt_messages) body))
  = concat_all (map fragment_text body).
Proof.
  induction body as [|chunk rest IH]; [reflexivity|].
  cbn [flat_map map]. rewrite map_app, concat_all_app, IH. cbn [concat_all fold_right].
  f_equal. unfold content_chunk.
  destruct (ChatCompletionChunk.choices chunk) as [|delta others] eqn:Hchoices.
  - unfold fragment_text. now rewrite Hchoices.
  - destruct (fragment_text chunk =? "") eqn:E.
    + apply String.eqb_eq in E. now rewrite E.
    + cbn. now rewrite append_empty_r.
Qed.

(** X28.  Streaming and not streaming agree on a chat completion that is
    plain content.  Take a stream of content fragments closed by a finishing
    fragment, and the block response whose message holds the text of that
    stream and no call, both without usage on the wire, for a model and a
    prompt the estimator accepts.  Then both handlers complete, the usage of
    the last chunk of the stream is the usage of the block result, and the
    text of the block result is the text of the chunks of the stream, joined in
    order. *)
Theorem chat_stream_and_block_agree (model : string) (creds : credentials)
    (body : list ChatCompletionChunk.t) (last : ChatCompletionChunk.t)
    (response : ChatCompletion.t) (message : ChatCompletionMessage.t)
    (others : list ChatCompletionMessage.t)
    (prompt_messages : list PromptMessage) (tools : option (list PromptMessageTool.t))
    (prompt_tokens completion_tokens : Z) :
  forallb content_only body = true ->
  finishes_content model last = true ->
  _num_tokens_from_messages encoding_for_model get_encoding py_repr model
    prompt_messages tools = Ok prompt_tokens ->
  _num_tokens_from_messages encoding_for_model get_encoding py_repr model
    [AssistantPromptMessage
       (CStr (concat_all (map fragment_text body) ++ fragment_text last)%string) None []]
    None = Ok completion_tokens ->
  ChatCompletion.choices response = message :: others ->
  ChatCompletion.usage response = None ->
  ChatCompletionMessage.content message
  = Some (concat_all (map fragment_text body) ++ fragment_text last)%string ->
  ChatCompletionMessage.tool_calls message = None ->
  ChatCompletionMessage.function_call message = None ->
  exists chunks final result,
    _handle_chat_generate_stream_response model creds (body ++ [last]) prompt_messages
      tools
    = {| Generator.yielded := chunks ++ [final]; Generator.raised := None |}
    /\ _handle_chat_generate_response model creds response prompt_messages tools
       = Ok result
    /\ chunk_usage final = LLMResult.usage result
    /\ message_content (LLMResult.message result)
       = CStr (concat_all (map chunk_text (chunks ++ [final]))).
Proof.
  intros Hbody Hlast Hprompt Hcompletion Hchoices Husage Hcontent Hcalls Hcall.
  destruct (content_stream_loop model prompt_messages body last Hbody Hlast)
    as [st [Hloop [Hp [Hc [Hfull [Hfinal_calls Hfinal]]]]]].
  unfold _handle_chat_generate_stream_response, _handle_chat_generate_response.
  rewrite Hloop. unfold chat_stream_final.
  rewrite Hp, Hc, Hfull, Hfinal_calls. cbn [Z.eqb].
  rewrite Hchoices. cbn [Py.index nth_error bind].
  rewrite Hcontent, Hcalls, Hcall, Husage.
  cbn [_extract_response_function_call]. rewrite Hprompt, Hcompletion. cbn [bind fst snd].
  eexists _, _, _. split; [reflexivity|]. split; [reflexivity|].
  split; [reflexivity|].
  cbn [LLMResult.message message_content]. f_equal.
  rewrite map_app, concat_all_app, content_chunks_text. f_equal.
  unfold finishes_content in Hlast. unfold finish_chunk in Hfinal.
  destruct (ChatCompletionChunk.choices last) as [|delta rest]; [discriminate|].
  injection Hfinal as ->. cbn. now rewrite append_empty_r.
Qed.


(** ** Fine-tuned models of an account *)

(** The framework's types behind a model schema, and its model type of the
    language models. *)
Variables ModelType ModelFeatures ModelProperties ParameterRules : Type.
Variable LLM : ModelType.

Definition entity : Type :=
  AIModelEntity.t ModelType ModelFeatures ModelProperties ParameterRules.

(** [self.predefined_models()] *)
Variable predefined_models : list entity.
(** The identifiers of [client.models.list()]. *)
Variable models_list : credentials -> result (list string).
(** [str(ex)] *)
Variable exception_str : exn -> string.

(** [{model.model: model for model in models}] *)
Definition model_map (models : list entity) : Py.dict entity :=
  fold_left (fun d m => Py.set (AIModelEntity.model m) m d) models [].

(** What the loop over the predefined models leaves in [base_model_schema]:
    the last model whose name occurs in the base. *)
Definition base_model_schema (predefined_models_map : Py.dict entity)
    (base_model : string) : option entity :=
  fold_left
    (fun found kv => if Py.contains (fst kv) base_model then Some (snd kv) else found)
    predefined_models_map None.

Definition fine_tuned_pricing : PriceConfig.t :=
  {| PriceConfig.input := "0.003";
     PriceConfig.output := "0.006";
     PriceConfig.unit := "0.001";
     PriceConfig.currency := "USD" |}.

(** The schema of a fine-tuned model, from the schema of its base. *)
Definition fine_tuned_entity (id : string) (schema : entity) : entity :=
  {| AIModelEntity.model := id;
     AIModelEntity.label := {| I18nObject.zh_Hans := id; I18nObject.en_US := id |};
     AIModelEntity.model_type := LLM;
     AIModelEntity.features := AIModelEntity.features schema;
     AIModelEntity.fetch_from := CUSTOMIZABLE_MODEL;
     AIModelEntity.model_properties := AIModelEntity.model_properties schema;
     AIModelEntity.parameter_rules := AIModelEntity.parameter_rules schema;
     AIModelEntity.pricing := Some fine_tuned_pricing |}.

Definition remote_models (creds : credentials) : result (list entity) :=
  let predefined_models_map := model_map predefined_models in
  client <- new_client creds ;;
  remote <- models_list creds ;;
  let fine_tune_models := filter (Py.startswith "ft:") remote in
  found <- mapM (fun id =>
                   base_model <- Py.index (Py.split ":" id) 1 ;;
                   Ok (match base_model_schema predefined_models_map base_model with
                       | Some schema => [fine_tuned_entity id schema]
                       | None => []
                       end))
             fine_tune_models ;;
  Ok (concat found).

(** The keywords of the request that validates credentials. *)
Definition ping_parameters : Py.dict json :=
  [("temperature", JInt 0); ("max_tokens", JInt 20)].

(** The requests a validation of credentials sends: the listing of the
    models of the account, [client.models.list()], and the calls on the two
    completion endpoints. *)
Inductive request : Type :=
| ModelsList
| Create (call : client_call).

(** The requests of [remote_models]: the listing, once its client object is
    built. *)
Definition remote_models_requests (creds : credentials) : list request :=
  match new_client creds with
  | Ok _ => [ModelsList]
  | Raise _ => []
  end.

(** [validate_credentials]: it returns, or it raises
    [CredentialsValidateFailedError] with a message; the result is the
    message, if any, after the log of the requests sent.  Every exception of
    the body is turned into that error, with its text as message. *)
Definition validate_credentials (model : string) (creds : credentials)
    (log : list request) : list request * option string :=
  match new_client creds with
  | Raise ex => (log, Some (exception_str ex))
  | Ok _ =>
      match (if Py.startswith "ft:" model
             then match Py.index (Py.split ":" model) 1 with
                  | Raise ex => (log, Raise ex)
                  | Ok base_model =>
                      (log ++ remote_models_requests creds,
                       listed <- remote_models creds ;; Ok (base_model, Some listed))
                  end
             else (log, Ok (model, None))) with
      | (log, Raise ex) => (log, Some (exception_str ex))
      | (log, Ok (base_model, listed)) =>
          if match listed with
             | Some listed =>
                 negb (existsb (String.eqb model) (map (@AIModelEntity.model _ _ _ _) listed))
             | None => false
             end
          then (log, Some ("Fine-tuned model " ++ model ++ " not found")%string)
          else
            match get_model_mode base_model (Some creds) with
            | Raise ex => (log, Some (exception_str ex))
            | Ok CHAT =>
                (log ++ [Create (inl (ChatCompletionsCreate
                                        [[("role", WStr "user"); ("content", WStr "ping")]]
                                        model false ping_parameters))],
                 match chat_completions_create
                         [[("role", WStr "user"); ("content", WStr "ping")]]
                         model false ping_parameters with
                 | Ok _ => None
                 | Raise ex => Some (exception_str ex)
                 end)
            | Ok COMPLETION =>
                (log ++ [Create (inr (CompletionsCreate "ping" model false
                                        ping_parameters))],
                 match completions_create "ping" model false ping_parameters with
                 | Ok _ => None
                 | Raise ex => Some (exception_str ex)
                 end)
            end
      end
  end.


Definition names (models : list entity) : list string :=
  map (@AIModelEntity.model _ _ _ _) models.

(** A fine-tuned identifier has a known base when the name of a predefined
    model occurs in its base. *)
Definition known_base (id : string) : bool :=
  match base_model_of id with
  | Ok base =>
      existsb (fun p => Py.contains (AIModelEntity.model p) base) predefined_models
  | Raise _ => false
  end.

Definition no_match (base : string) (models : list entity) : bool :=
  forallb (fun p => negb (Py.contains (AIModelEntity.model p) base)) models.

Lemma model_map_fold (models : list entity) :
  forall acc : Py.dict entity,
    NoDup (keys acc ++ names models) ->
    fold_left (fun d m => Py.set (AIModelEntity.model m) m d) models acc
    = acc ++ map (fun m => (AIModelEntity.model m, m)) models.
Proof.
  induction models as [|m rest IH]; intros acc Hd; cbn [fold_left map names].
  - now rewrite app_nil_r.
  - cbn [names map] in Hd.
    assert (Hfresh : Py.get (AIModelEntity.model m) acc = None).
    { apply get_in_keys. intros Hin. apply (NoDup_remove_2 _ _ _ Hd).
      apply in_or_app. now left. }
    rewrite (set_fresh _ _ _ Hfresh), IH.
    + now rewrite <- app_assoc.
    + unfold keys. rewrite map_app, <- app_assoc. exact Hd.
Qed.

Lemma model_map_nodup (models : list entity) :
  NoDup (names models) ->
  model_map models = map (fun m => (AIModelEntity.model m, m)) models.
Proof.
  intros Hd. unfold model_map. now rewrite model_map_fold.
Qed.

(** The loop over the items of the map, from any value of
    [base_model_schema]. *)
Definition scan (base : string) (items : Py.dict entity) (init : option entity)
  : option entity :=
  fold_left (fun found kv => if Py.contains (fst kv) base then Some (snd kv) else found)
    items init.

(** The loop keeps the last match. *)
Lemma last_match (base : string) (models : list entity) :
  forall (init : option entity),
    scan base (map (fun m => (AIModelEntity.model m, m)) models) init = init
    /\ no_match base models = true
    \/ exists before schema after,
        models = before ++ schema :: after
        /\ Py.contains (AIModelEntity.model schema) base = true
        /\ no_match base after = true
        /\ scan base (map (fun m => (AIModelEntity.model m, m)) models) init
           = Some schema.
Proof.
  unfold scan.
  induction models as [|m rest IH]; intros init; cbn [map fold_left fst snd].
  - left. split; reflexivity.
  - destruct (Py.contains (AIModelEntity.model m) base) eqn:Hm.
    + destruct (IH (Some m)) as [[Hfold Hnone]|[before [schema [after [-> [Hs [Hafter Hfold]]]]]]].
      * right. exists [], m, rest. repeat split; assumption.
      * right. exists (m :: before), schema, after. repeat split; assumption.
    + destruct (IH init) as [[Hfold Hnone]|[before [schema [after [-> [Hs [Hafter Hfold]]]]]]].
      * left. split; [exact Hfold|]. cbn [no_match forallb]. rewrite Hm. exact Hnone.
      * right. exists (m :: before), schema, after. repeat split; assumption.
Qed.

Lemma no_match_no_known (base : string) (models : list entity) :
  no_match base models = true ->
  existsb (fun p => Py.contains (AIModelEntity.model p) base) models = false.
Proof.
  induction models as [|m rest IH]; [reflexivity|]. cbn [no_match forallb existsb].
  intros H. apply andb_true_iff in H as [Hm Hrest]. apply negb_true_iff in Hm.
  rewrite Hm. now apply IH.
Qed.

(** What an entry of the listing is made from. *)
Definition made_from_last_match (e : entity) : Prop :=
  exists base before schema after,
    base_model_of (AIModelEntity.model e) = Ok base
    /\ predefined_models = before ++ schema :: after
    /\ Py.contains (AIModelEntity.model schema) base = true
    /\ no_match base after = true
    /\ e = fine_tuned_entity (AIModelEntity.model e) schema.

Lemma listing (ids : list string) :
  NoDup (names predefined_models) ->
  Forall (fun id => Py.startswith "ft:" id = true) ids ->
  forall found,
    mapM (fun id =>
            base_model <- Py.index (Py.split ":" id) 1 ;;
            Ok (match base_model_schema (model_map predefined_models) base_model with
                | Some schema => [fine_tuned_entity id schema]
                | None => []
                end)) ids = Ok found ->
    names (concat found) = filter known_base ids
    /\ Forall made_from_last_match (concat found).
Proof.
  intros Hd. induction 1 as [|id ids Hid Hids IH]; intros found H; cbn [mapM] in H.
  - injection H as <-. split; [reflexivity | constructor].
  - apply bind_ok in H as [x [Hx H]]. apply bind_ok in H as [xs [Hxs H]].
    injection H as <-. apply bind_ok in Hx as [base [Hbase Hx]]. injection Hx as <-.
    destruct (IH xs Hxs) as [Hnames Hall].
    assert (Hbase' : base_model_of id = Ok base).
    { unfold base_model_of. now rewrite Hid. }
    cbn [concat filter]. unfold known_base at 1. rewrite Hbase'.
    assert (Hscan : base_model_schema (model_map predefined_models) base
                    = scan base
                        (map (fun m => (AIModelEntity.model m, m)) predefined_models)
                        None).
    { rewrite (model_map_nodup _ Hd). reflexivity. }
    rewrite Hscan.
    destruct (last_match base predefined_models None)
      as [[Hfold Hnone]|[before [schema [after [Hsplit [Hs [Hafter Hfold]]]]]]];
      rewrite Hfold.
    + rewrite (no_match_no_known _ _ Hnone). cbn [app]. now split.
    + assert (Hknown : existsb (fun p => Py.contains (AIModelEntity.model p) base)
                         predefined_models = true).
      { apply existsb_exists. exists schema. split; [|exact Hs].
        rewrite Hsplit. apply in_or_app. right. now left. }
      rewrite Hknown. unfold names in *. cbn [app map]. rewrite Hnames.
      split; [reflexivity|]. constructor; [|exact Hall].
      exists base, before, schema, after. now repeat split.
Qed.

Lemma filter_both {A : Type} (f g : A -> bool) (l : list A) :
  filter g (filter f l) = filter (fun x => f x && g x) l.
Proof.
  induction l as [|x l IH]; [reflexivity|]. simpl.
  destruct (f x); simpl; [destruct (g x); now rewrite IH | exact IH].
Qed.

Lemma remote_models_inv (creds : credentials) (entities : list entity) :
  NoDup (names predefined_models) ->
  remote_models creds = Ok entities ->
  exists remote,
    models_list creds = Ok remote
    /\ names entities
       = filter (fun id => Py.startswith "ft:" id && known_base id) remote
    /\ Forall made_from_last_match entities.
Proof.
  intros Hd H. unfold remote_models in H.
  apply bind_ok in H as [client [_ H]]. apply bind_ok in H as [remote [Hremote H]].
  apply bind_ok in H as [found [Hfound H]]. injection H as <-.
  exists remote. split; [exact Hremote|].
  rewrite <- filter_both. apply (listing _ Hd); [|exact Hfound].
  apply Forall_forall. intros id Hin. now apply filter_In in Hin.
Qed.

(** X29.  The fine-tuned models of an account: when the predefined models
    have distinct names, the listing holds, in the order of the account, the
    identifiers that start with [ft:] and whose base contains the name of a
    predefined model, and no other.  Each entry is a customizable model under
    the fixed price of fine-tuned models, with the features, properties and
    parameter rules of the last predefined model whose name occurs in its
    base. *)
Theorem remote_models_lists_the_fine_tunes_of_known_bases (creds : credentials)
    (entities : list entity) :
  NoDup (names predefined_models) ->
  remote_models creds = Ok entities ->
  exists remote,
    models_list creds = Ok remote
    /\ names entities
       = filter (fun id => Py.startswith "ft:" id && known_base id) remote
    /\ Forall
         (fun e =>
            AIModelEntity.fetch_from e = CUSTOMIZABLE_MODEL
            /\ AIModelEntity.pricing e = Some fine_tuned_pricing
            /\ exists base before schema after,
                base_model_of (AIModelEntity.model e) = Ok base
                /\ predefined_models = before ++ schema :: after
                /\ Py.contains (AIModelEntity.model schema) base = true
                /\ no_match base after = true
                /\ AIModelEntity.features e = AIModelEntity.features schema
                /\ AIModelEntity.model_properties e
                   = AIModelEntity.model_properties schema
                /\ AIModelEntity.parameter_rules e
                   = AIModelEntity.parameter_rules schema)
         entities.
Proof.
  intros Hd H.
  destruct (remote_models_inv creds entities Hd H) as [remote [Hremote [Hnames Hall]]].
  exists remote. split; [exact Hremote|]. split; [exact Hnames|].
  apply Forall_forall. intros e He.
  destruct (proj1 (Forall_forall _ _) Hall e He)
    as [base [before [schema [after [Hbase [Hsplit [Hs [Hafter Hmade]]]]]]]].
  rewrite Hmade. cbn. repeat split.
  exists base, before, schema, after. now repeat split.
Qed.

(** X30.  Validation of credentials.  Whenever it accepts, the last request
    sent is a ping: one user message on the chat endpoint, or the prompt
    [ping] on the text endpoint, under the name of the model as it was given,
    with temperature 0, at most 20 tokens and no streaming.  For a model that
    is not fine-tuned the ping is the only request.  For a fine-tuned model
    the listing of the models of the account was requested before the ping,
    and the model is accepted only if the account lists it and the name of a
    predefined model occurs in its base. *)
Theorem validation_pings_once_and_only_listed_fine_tunes (model : string)
    (creds : credentials) (log log' : list request) :
  NoDup (names predefined_models) ->
  validate_credentials model creds log = (log', None) ->
  exists ping,
    (ping = Create (inl (ChatCompletionsCreate
                           [[("role", WStr "user"); ("content", WStr "ping")]]
                           model false ping_parameters))
     \/ ping = Create (inr (CompletionsCreate "ping" model false ping_parameters)))
    /\ (Py.startswith "ft:" model = false -> log' = log ++ [ping])
    /\ (Py.startswith "ft:" model = true ->
        log' = log ++ [ModelsList; ping]
        /\ exists remote base schema,
             models_list creds = Ok remote
             /\ In model remote
             /\ base_model_of model = Ok base
             /\ In schema predefined_models
             /\ Py.contains (AIModelEntity.model schema) base = true).
Proof.
  intros Hd. unfold validate_credentials, remote_models_requests.
  destruct (new_client creds) as [[]|ex] eqn:Hclient; [|discriminate].
  assert (Hping : forall base_model sent,
             match get_model_mode base_model (Some creds) with
             | Raise ex => (sent, Some (exception_str ex))
             | Ok CHAT =>
                 (sent ++ [Create (inl (ChatCompletionsCreate
                                          [[("role", WStr "user"); ("content", WStr "ping")]]
                                          model false ping_parameters))],
                  match chat_completions_create
                          [[("role", WStr "user"); ("content", WStr "ping")]]
                          model false ping_parameters with
                  | Ok _ => None
                  | Raise ex => Some (exception_str ex)
                  end)
             | Ok COMPLETION =>
                 (sent ++ [Create (inr (CompletionsCreate "ping" model false
                                          ping_parameters))],
                  match completions_create "ping" model false ping_parameters with
                  | Ok _ => None
                  | Raise ex => Some (exception_str ex)
                  end)
             end = (log', None) ->
             exists ping,
               (ping = Create (inl (ChatCompletionsCreate
                                      [[("role", WStr "user"); ("content", WStr "ping")]]
                                      model false ping_parameters))
                \/ ping = Create (inr (CompletionsCreate "ping" model false
                                         ping_parameters)))
               /\ log' = sent ++ [ping]).
  { intros base_model sent.
    destruct (get_model_mode base_model (Some creds)) as [[|]|ex]; [| |discriminate];
      intros H; injection H as <- _; eexists; (split; [|reflexivity]);
      [now left | now right]. }
  destruct (Py.startswith "ft:" model) eqn:Hft.
  - destruct (Py.index (Py.split ":" model) 1) as [base|ex] eqn:Hbase; [|discriminate].
    destruct (remote_models creds) as [listed|ex] eqn:Hlisted; [|discriminate].
    cbn [bind].
    destruct (existsb (String.eqb model)
                (map (@AIModelEntity.model _ _ _ _) listed)) eqn:Hin;
      [|discriminate].
    cbn [negb]. intros H.
    destruct (Hping base _ H) as [ping [Hcall ->]].
    exists ping. split; [exact Hcall|]. split; [discriminate|]. intros _.
    split; [now rewrite <- app_assoc|].
    destruct (remote_models_inv creds listed Hd Hlisted) as [remote [Hremote [Hnames _]]].
    apply existsb_exists in Hin as [id [Hid Heq]]. apply String.eqb_eq in Heq. subst id.
    fold (names listed) in Hid. rewrite Hnames in Hid.
    apply filter_In in Hid as [Hremote_in Hknown].
    apply andb_true_iff in Hknown as [_ Hknown]. unfold known_base in Hknown.
    assert (Hbase' : base_model_of model = Ok base).
    { unfold base_model_of. now rewrite Hft. }
    rewrite Hbase' in Hknown. apply existsb_exists in Hknown as [schema [Hschema Hs]].
    exists remote, base, schema. now repeat split.
  - intros H. destruct (Hping model _ H) as [ping [Hcall ->]].
    exists ping. split; [exact Hcall|]. split; [reflexivity | discriminate].
Qed.

End Handlers.

(** * The properties on sample inputs *)

Lemma name_attached_except_tool_witness :
  Py.get "name"
    [("role", WStr "system"); ("content", WStr "be brief"); ("name", WStr "ops")]
  = Some (WStr "ops")
  /\ Py.get "name"
       [("role", WStr "tool"); ("content", WStr "42"); ("tool_call_id", WStr "call_1")]
     = None.
Proof.
  split.
  - apply (proj1 (name_attached_except_tool named_system_message _ eq_refl) "ops");
      [reflexivity | discriminate | reflexivity].
  - apply (proj2 (name_attached_except_tool named_tool_message _ eq_refl)).
    reflexivity.
Defined.

Lemma single_user_message_estimate_witness :
  _num_tokens_from_messages sample_encoding_for_model sample_get_encoding sample_repr
    "gpt-4" [hi_message] None
  = Ok (3 + 4 + 2 + 0 + 3).
Proof.
  exact (single_user_message_estimate sample_encoding_for_model sample_get_encoding
           sample_repr "gpt-4" "gpt-4" eq_refl eq_refl).
Defined.

(** With one token per character the estimate for ["hi"] is 12, not the
    [3 + |encode("hi")| + 0 + 3 = 8] of the claim: the role value ["user"] is
    encoded as well. *)
Lemma single_user_message_estimate_counterexample :
  exists n hi,
    _num_tokens_from_messages sample_encoding_for_model sample_get_encoding sample_repr
      "gpt-4" [hi_message] None = Ok n
    /\ num_encoded
         (resolve_encoding sample_encoding_for_model sample_get_encoding "gpt-4") "hi"
       = Ok hi
    /\ n = 12
    /\ n <> 3 + hi + 0 + 3.
Proof.
  exists 12, 2. split; [reflexivity|]. split; [reflexivity|].
  split; [reflexivity | discriminate].
Qed.


(** On the same path the tokenizer's refusal of a text is what is raised. *)
Example refused_text_under_the_default_encoding :
  _num_tokens_from_string (fun _ => None) sample_get_encoding sample_repr
    "yi-large" "<|endoftext|>" None = Raise disallowed_special_token
  /\ _num_tokens_from_messages (fun _ => None) sample_get_encoding sample_repr
       "gpt-4-unreleased" [UserPromptMessage (CStr "<|endoftext|>") None] None
     = Raise disallowed_special_token.
Proof. split; reflexivity. Qed.


(** C3.  The fragments [start(name=f, arguments="{")], [(arguments="}")],
    [finish] of a legacy function call, on a model the estimator supports.
    No chunk is yielded while the call is buffered, and the finishing
    fragment closes the buffer into one completed call named [f] with
    arguments ["{}"]; but that call only enters the list kept for the
    fallback estimate.  The handler yields one chunk, the final one, whose
    message has no tool calls: the completed call is delivered in no chunk.
    The block handler, given the same call in one response, returns it in
    the message of its result. *)
Theorem legacy_function_call_is_not_delivered :
  (exists st,
      chat_stream_loop "gpt-4" [hi_message]
        (chat_initial_state (Z * Z) "gpt-4" [hi_message]) legacy_stream
      = ([], Ok st)
      /\ ChatState.final_tool_calls st
         = [{| ToolCall.id := "f";
               ToolCall.type := "function";
               ToolCall.function :=
                 {| ToolCallFunction.name := "f";
                    ToolCallFunction.arguments := "{}" |} |}]
      /\ ChatState.delta_assistant_message_function_call_storage st = None)
  /\ _handle_chat_generate_stream_response sample_usage sample_encoding_for_model
       sample_get_encoding sample_repr "gpt-4" [] legacy_stream [hi_message] None
     = {| Generator.yielded :=
            [set_usage
               (result_chunk (Z * Z) [hi_message] (finish_fragment "function_call")
                  {| Choice.index := 0;
                     Choice.delta := {| ChoiceDelta.content := None;
                                        ChoiceDelta.tool_calls := None;
                                        ChoiceDelta.function_call := None |};
                     Choice.finish_reason := Some "function_call" |}
                  (AssistantPromptMessage (CStr "") None []) (Some "function_call"))
               (12, 15)];
          Generator.raised := None |}
  /\ flat_map (chunk_tool_calls (U := Z * Z))
       (Generator.yielded
          (_handle_chat_generate_stream_response sample_usage sample_encoding_for_model
             sample_get_encoding sample_repr "gpt-4" [] legacy_stream [hi_message] None))
     = []
  /\ exists result,
       _handle_chat_generate_response sample_usage sample_encoding_for_model
         sample_get_encoding sample_repr "gpt-4" [] legacy_completion [hi_message] None
       = Ok result
       /\ message_tool_calls (LLMResult.message result)
          = [{| ToolCall.id := "f";
                ToolCall.type := "function";
                ToolCall.function :=
                  {| ToolCallFunction.name := "f";
                     ToolCallFunction.arguments := "{}" |} |}].
Proof.
  split; [|split; [|split]].
  - eexists. split; [reflexivity|]. split; reflexivity.
  - reflexivity.
  - reflexivity.
  - eexists. split; reflexivity.
Qed.

Lemma malformed_json_schema_fails_before_dispatch_witness :
  exists e,
    _chat_generate sample_usage sample_encoding_for_model sample_get_encoding sample_repr
      sample_json_loads sample_new_client sample_chat_create sample_responses_create
      "gpt-4" [] [hi_message] sample_parameters None None true None []
    = ([], Raise e)
    /\ (sample_new_client [] = Ok tt -> exists msg, e = ValueError msg).
Proof.
  apply (malformed_json_schema_fails_before_dispatch (Z * Z) sample_usage
           sample_encoding_for_model sample_get_encoding sample_repr sample_json_loads
           sample_new_client sample_chat_create sample_responses_create
           "gpt-4" [] [hi_message] sample_parameters None None true None []).
  - reflexivity.
  - intros text H. injection H as <-. reflexivity.
Defined.

(** A model without accounting family completes when the wire reports the
    usage itself, here in a choice-less trailer. *)
Example wire_usage_is_reported :
  _handle_chat_generate_stream_response sample_usage sample_encoding_for_model
    sample_get_encoding sample_repr "yi-large" []
    [content_fragment "hi"; finish_fragment "stop"; usage_fragment 9 1] [hi_message] None
  = {| Generator.yielded :=
         [result_chunk (Z * Z) [hi_message] (content_fragment "hi")
            {| Choice.index := 0;
               Choice.delta := {| ChoiceDelta.content := Some "hi";
                                  ChoiceDelta.tool_calls := None;
                                  ChoiceDelta.function_call := None |};
               Choice.finish_reason := None |}
            (AssistantPromptMessage (CStr "hi") None []) None;
          set_usage
            (result_chunk (Z * Z) [hi_message] (finish_fragment "stop")
               {| Choice.index := 0;
                  Choice.delta := {| ChoiceDelta.content := None;
                                     ChoiceDelta.tool_calls := None;
                                     ChoiceDelta.function_call := None |};
                  Choice.finish_reason := Some "stop" |}
               (AssistantPromptMessage (CStr "") None []) (Some "stop"))
            (9, 1)];
       Generator.raised := None |}.
Proof. reflexivity. Qed.

(** With a schema that parses, the same invocation reaches the client. *)
Example well_formed_json_schema_is_dispatched :
  fst (_chat_generate sample_usage sample_encoding_for_model sample_get_encoding
         sample_repr sample_json_loads sample_new_client sample_chat_create
         sample_responses_create
         "gpt-4" [] [hi_message]
         [("response_format", JStr "json_schema"); ("json_schema", JStr "{}")]
         None None true None [])
  = [ChatCompletionsCreate [[("role", WStr "user"); ("content", WStr "hi")]] "gpt-4" true
       [("response_format", JObj [("type", JStr "json_schema"); ("json_schema", JObj [])]);
        ("stream_options", JObj [("include_usage", JBool true)])]].
Proof. reflexivity. Qed.

Lemma one_usage_chunk_last_when_completed_witness :
  exists init st,
    chat_stream_loop "gpt-4" [hi_message] (chat_initial_state (Z * Z) "gpt-4" [hi_message])
      [content_fragment "hi"; finish_fragment "stop"]
    = (init, Ok st)
    /\ ChatState.prompt_tokens st = 0
    /\ ChatState.completion_tokens st = 0
    /\ _handle_chat_generate_stream_response sample_usage sample_encoding_for_model
         sample_get_encoding sample_repr "gpt-4" []
         [content_fragment "hi"; finish_fragment "stop"] [hi_message] None
       = {| Generator.yielded := init ++ [set_usage (ChatState.final_chunk st) (12, 17)];
            Generator.raised := None |}.
Proof.
  destruct (proj2 (proj2 (proj2 (one_usage_chunk_last_when_completed (Z * Z) sample_usage
                                   sample_encoding_for_model sample_get_encoding
                                   sample_repr)
                            "gpt-4" [] [content_fragment "hi"; finish_fragment "stop"]
                            [hi_message] None)) eq_refl)
    as [init [st [Hloop [Hzero Hfinal]]]].
  destruct (Hzero eq_refl) as [Hp Hc].
  exists init, st. split; [exact Hloop|]. split; [exact Hp|]. split; [exact Hc|].
  apply (Hfinal 12 17).
  - intros _. reflexivity.
  - intros H. contradiction.
  - intros _. cbn in Hloop. injection Hloop as <- <-. reflexivity.
  - intros H. contradiction.
Defined.

(** The same stream through the whole handler: the content chunk, then the
    held chunk with the usage of the two estimates. *)
Example estimated_usage_is_reported :
  _handle_chat_generate_stream_response sample_usage sample_encoding_for_model
    sample_get_encoding sample_repr "gpt-4" []
    [content_fragment "hi"; finish_fragment "stop"] [hi_message] None
  = {| Generator.yielded :=
         [result_chunk (Z * Z) [hi_message] (content_fragment "hi")
            {| Choice.index := 0;
               Choice.delta := {| ChoiceDelta.content := Some "hi";
                                  ChoiceDelta.tool_calls := None;
                                  ChoiceDelta.function_call := None |};
               Choice.finish_reason := None |}
            (AssistantPromptMessage (CStr "hi") None []) None;
          set_usage
            (result_chunk (Z * Z) [hi_message] (finish_fragment "stop")
               {| Choice.index := 0;
                  Choice.delta := {| ChoiceDelta.content := None;
                                     ChoiceDelta.tool_calls := None;
                                     ChoiceDelta.function_call := None |};
                  Choice.finish_reason := Some "stop" |}
               (AssistantPromptMessage (CStr "") None []) (Some "stop"))
            (12, 17)];
       Generator.raised := None |}.
Proof. reflexivity. Qed.

(** On a model without accounting family whose stream carries no usage block
    the chat handler yields the content chunk and then raises: no chunk of
    the invocation carries usage.  On a supported model a continuation of a
    legacy function call without arguments stops the handler at its
    assertion, before any chunk.  And the text-completion handler, on a
    prompt the tokenizer refuses, yields the text chunk and then raises, so
    that again no chunk carries usage. *)
Lemma one_usage_chunk_counterexample :
  _handle_chat_generate_stream_response sample_usage sample_encoding_for_model
    sample_get_encoding sample_repr "yi-large" []
    [content_fragment "hi"; finish_fragment "stop"] [hi_message] None
  = {| Generator.yielded :=
         [result_chunk (Z * Z) [hi_message] (content_fragment "hi")
            {| Choice.index := 0;
               Choice.delta := {| ChoiceDelta.content := Some "hi";
                                  ChoiceDelta.tool_calls := None;
                                  ChoiceDelta.function_call := None |};
               Choice.finish_reason := None |}
            (AssistantPromptMessage (CStr "hi") None []) None];
       Generator.raised := Some (NotImplementedError (not_implemented_message "yi-large")) |}
  /\ usage_count
       (Generator.yielded
          (_handle_chat_generate_stream_response sample_usage sample_encoding_for_model
             sample_get_encoding sample_repr "yi-large" []
             [content_fragment "hi"; finish_fragment "stop"] [hi_message] None))
     = 0%nat
  /\ _handle_chat_generate_stream_response sample_usage sample_encoding_for_model
       sample_get_encoding sample_repr "gpt-4" []
       [legacy_fragment (Some "f") (Some "{"); legacy_fragment None None;
        finish_fragment "stop"]
       [hi_message] None
     = {| Generator.yielded := []; Generator.raised := Some AssertionError |}
  /\ Generator.raised
       (_handle_generate_stream_response sample_usage sample_encoding_for_model
          sample_get_encoding sample_repr "gpt-3.5-turbo-instruct" []
          [text_fragment (Some "hi") None; text_fragment None (Some "stop")]
          [UserPromptMessage (CStr "<|endoftext|>") None])
     = Some disallowed_special_token
  /\ usage_count
       (Generator.yielded
          (_handle_generate_stream_response sample_usage sample_encoding_for_model
             sample_get_encoding sample_repr "gpt-3.5-turbo-instruct" []
             [text_fragment (Some "hi") None; text_fragment None (Some "stop")]
             [UserPromptMessage (CStr "<|endoftext|>") None]))
     = 0%nat.
Proof.
  repeat split.
Qed.

Lemma legacy_call_is_counted_but_never_emitted_witness :
  exists st',
    chat_stream_step "gpt-4" [hi_message]
      (with_storage (chat_initial_state (Z * Z) "gpt-4" [hi_message])
         (Some {| ChoiceDeltaFunctionCall.name := Some "f";
                  ChoiceDeltaFunctionCall.arguments := Some "{}" |}))
      (finish_fragment "stop")
    = Ok (st', [])
    /\ ChatState.final_tool_calls st'
       = [{| ToolCall.id := "f";
             ToolCall.type := "function";
             ToolCall.function :=
               {| ToolCallFunction.name := "f";
                  ToolCallFunction.arguments := "{}" |} |}]
    /\ ChatState.delta_assistant_message_function_call_storage st' = None
    /\ chunk_tool_calls (ChatState.final_chunk st') = [].
Proof.
  exact (proj1 (legacy_call_is_counted_but_never_emitted (Z * Z) sample_usage
                  sample_encoding_for_model sample_get_encoding sample_repr)
           "gpt-4" [hi_message]
           (with_storage (chat_initial_state (Z * Z) "gpt-4" [hi_message])
              (Some {| ChoiceDeltaFunctionCall.name := Some "f";
                       ChoiceDeltaFunctionCall.arguments := Some "{}" |}))
           (finish_fragment "stop")
           {| Choice.index := 0;
              Choice.delta := {| ChoiceDelta.content := None;
                                 ChoiceDelta.tool_calls := None;
                                 ChoiceDelta.function_call := None |};
              Choice.finish_reason := Some "stop" |}
           []
           {| ChoiceDeltaFunctionCall.name := Some "f";
              ChoiceDeltaFunctionCall.arguments := Some "{}" |}
           eq_refl eq_refl (or_introl eq_refl) eq_refl eq_refl eq_refl).
Defined.

Lemma idless_fragment_for_new_index_is_dropped_witness :
  aggregate_tool_call [(0, sample_entry)]
    (tool_call_fragment 1 None (Some "get_time") (Some "{}"))
  = Ok [(0, sample_entry)].
Proof.
  apply (proj1 (idless_fragment_for_new_index_is_dropped (Z * Z))); reflexivity.
Defined.

(** * The further properties on sample inputs *)

(** A message of two texts around an image, and a tool call of the usual
    type. *)
Definition mixed_parts : list PromptMessageContent :=
  [TextPromptMessageContent "a"; ImagePromptMessageContent "http://x/y.png" "low";
   TextPromptMessageContent "b"].

Definition weather_call (type : string) : ToolCall.t :=
  {| ToolCall.id := "call_1";
     ToolCall.type := type;
     ToolCall.function :=
       {| ToolCallFunction.name := "get_weather"; ToolCallFunction.arguments := "{}" |} |}.

Lemma multi_part_content_counts_as_its_text_witness :
  _num_tokens_from_messages sample_encoding_for_model sample_get_encoding sample_repr
    "gpt-4" [UserPromptMessage (CParts mixed_parts) None] None
  = _num_tokens_from_messages sample_encoding_for_model sample_get_encoding sample_repr
      "gpt-4" [UserPromptMessage (CStr "ab") None] None.
Proof.
  exact (multi_part_content_counts_as_its_text sample_encoding_for_model
           sample_get_encoding sample_repr "gpt-4" [] [] mixed_parts None None
           [DictItem [("type", IStr "text"); ("text", IStr "a")];
            DictItem [("type", IStr "image_url");
                      ("image_url", IDict [("url", "http://x/y.png"); ("detail", "low")])];
            DictItem [("type", IStr "text"); ("text", IStr "b")]]
           eq_refl).
Defined.

Lemma tool_calls_are_not_counted_witness :
  _num_tokens_from_messages sample_encoding_for_model sample_get_encoding sample_repr
    "gpt-4" [hi_message; AssistantPromptMessage (CStr "ok") None [weather_call "function"]]
    None
  = _num_tokens_from_messages sample_encoding_for_model sample_get_encoding sample_repr
      "gpt-4" [hi_message; AssistantPromptMessage (CStr "ok") None []] None.
Proof.
  exact (tool_calls_are_not_counted sample_encoding_for_model sample_get_encoding
           sample_repr "gpt-4"
           [hi_message; AssistantPromptMessage (CStr "ok") None [weather_call "function"]]
           None eq_refl).
Defined.

Lemma text_typed_tool_call_raises_key_error_witness :
  _num_tokens_from_messages sample_encoding_for_model sample_get_encoding sample_repr
    "gpt-4" [hi_message; AssistantPromptMessage (CStr "ok") None [weather_call "text"]]
    None
  = Raise (KeyError "text").
Proof.
  exact (text_typed_tool_call_raises_key_error sample_encoding_for_model
           sample_get_encoding sample_repr "gpt-4" "gpt-4" (3, 1) [hi_message] []
           (CStr "ok") None [weather_call "text"] None [] 12 9 2
           eq_refl eq_refl eq_refl eq_refl eq_refl eq_refl eq_refl).
Defined.

Lemma name_costs_its_tokens_and_the_surcharge_witness :
  _num_tokens_from_messages sample_encoding_for_model sample_get_encoding sample_repr
    "gpt-4" [UserPromptMessage (CStr "hi") (Some "ann")] None
  = Ok (12 + 3 + 1)
  /\ _num_tokens_from_messages sample_encoding_for_model sample_get_encoding sample_repr
       "gpt-4" [named_tool_message] None
     = _num_tokens_from_messages sample_encoding_for_model sample_get_encoding
         sample_repr "gpt-4" [ToolPromptMessage (CStr "42") None "call_1"] None.
Proof.
  split.
  - apply (proj1 (name_costs_its_tokens_and_the_surcharge sample_encoding_for_model
                    sample_get_encoding sample_repr "gpt-4" "gpt-4" (3, 1)
                    eq_refl eq_refl) hi_message "ann" 12 3);
      [reflexivity | reflexivity | discriminate | reflexivity | reflexivity].
  - apply (proj2 (name_costs_its_tokens_and_the_surcharge sample_encoding_for_model
                    sample_get_encoding sample_repr "gpt-4" "gpt-4" (3, 1)
                    eq_refl eq_refl)).
Defined.

Lemma estimate_of_concatenation_witness :
  _num_tokens_from_messages sample_encoding_for_model sample_get_encoding sample_repr
    "gpt-4" ([hi_message] ++ [named_system_message]) None
  = Ok (12 + 24 - 3).
Proof.
  exact (estimate_of_concatenation sample_encoding_for_model sample_get_encoding
           sample_repr "gpt-4" [hi_message] [named_system_message] None 12 24
           eq_refl eq_refl).
Defined.

(** A tool whose parameter schema lacks its [type]. *)
Definition untyped_tool : PromptMessageTool.t :=
  {| PromptMessageTool.name := "get_weather";
     PromptMessageTool.description := "the weather of a city";
     PromptMessageTool.parameters := [("properties", JObj [])] |}.

Lemma tool_without_type_fails_the_estimate_witness :
  exists e,
    _num_tokens_from_string sample_encoding_for_model sample_get_encoding sample_repr
      "gpt-4" "hi" (Some [untyped_tool])
    = Raise e.
Proof.
  exact (tool_without_type_fails_the_estimate sample_encoding_for_model
           sample_get_encoding sample_repr "gpt-4" "hi" [untyped_tool] untyped_tool
           (or_introl eq_refl) eq_refl).
Defined.

Lemma content_fragments_are_yielded_in_order_witness :
  chat_stream_loop "gpt-4" [hi_message] (chat_initial_state (Z * Z) "gpt-4" [hi_message])
    [content_fragment "he"; content_fragment ""; content_fragment "llo"]
  = (flat_map (content_chunk (Z * Z) [hi_message])
       [content_fragment "he"; content_fragment ""; content_fragment "llo"],
     Ok (with_content (Z * Z) (chat_initial_state (Z * Z) "gpt-4" [hi_message]) "hello")).
Proof.
  exact (content_fragments_are_yielded_in_order (Z * Z) "gpt-4" [hi_message]
           (chat_initial_state (Z * Z) "gpt-4" [hi_message])
           [content_fragment "he"; content_fragment ""; content_fragment "llo"]
           eq_refl eq_refl).
Defined.

Lemma plain_content_stream_witness :
  _handle_chat_generate_stream_response sample_usage sample_encoding_for_model
    sample_get_encoding sample_repr "gpt-4" []
    ([content_fragment "he"; content_fragment "llo"] ++ [finish_fragment "stop"])
    [hi_message] None
  = {| Generator.yielded :=
         flat_map (content_chunk (Z * Z) [hi_message])
           [content_fragment "he"; content_fragment "llo"]
         ++ map (fun chunk => set_usage chunk (12, 20))
              (finish_chunk (Z * Z) [hi_message] (finish_fragment "stop"));
       Generator.raised := None |}.
Proof.
  exact (plain_content_stream (Z * Z) sample_usage sample_encoding_for_model
           sample_get_encoding sample_repr "gpt-4" []
           [content_fragment "he"; content_fragment "llo"] (finish_fragment "stop")
           [hi_message] None 12 20 eq_refl eq_refl eq_refl eq_refl).
Defined.

Lemma wire_usage_needs_no_estimate_witness :
  exists chunks st,
    chat_stream_loop "yi-large" [hi_message]
      (chat_initial_state (Z * Z) "yi-large" [hi_message])
      [content_fragment "hi"; finish_fragment "stop"]
    = (chunks, Ok st)
    /\ _handle_chat_generate_stream_response sample_usage sample_encoding_for_model
         sample_get_encoding sample_repr "yi-large" []
         ([content_fragment "hi"; finish_fragment "stop"] ++ [usage_fragment 9 1])
         [hi_message] None
       = {| Generator.yielded := chunks ++ [set_usage (ChatState.final_chunk st) (9, 1)];
            Generator.raised := None |}.
Proof.
  eexists _, _. split; [reflexivity|].
  apply (wire_usage_needs_no_estimate (Z * Z) sample_usage sample_encoding_for_model
           sample_get_encoding sample_repr "yi-large" []
           [content_fragment "hi"; finish_fragment "stop"] (usage_fragment 9 1)
           [hi_message] None _ _
           {| CompletionUsage.prompt_tokens := 9; CompletionUsage.completion_tokens := 1 |}
           eq_refl eq_refl eq_refl); discriminate.
Defined.

Lemma legacy_call_of_any_length_witness :
  exists st,
    chat_stream_loop "gpt-4" [hi_message] (chat_initial_state (Z * Z) "gpt-4" [hi_message])
      (legacy_fragment (Some "f") (Some "{")
       :: [legacy_fragment None (Some "a"); legacy_fragment None (Some "}")]
       ++ [finish_fragment "function_call"])
    = ([], Ok st)
    /\ ChatState.final_tool_calls st
       = [{| ToolCall.id := "f";
             ToolCall.type := "function";
             ToolCall.function :=
               {| ToolCallFunction.name := "f"; ToolCallFunction.arguments := "{a}" |} |}]
    /\ ChatState.delta_assistant_message_function_call_storage st = None
    /\ [ChatState.final_chunk st]
       = finish_chunk (Z * Z) [hi_message] (finish_fragment "function_call").
Proof.
  exact (proj2 (legacy_call_of_any_length (Z * Z) "gpt-4" [hi_message]
                  (legacy_fragment (Some "f") (Some "{")) (finish_fragment "function_call")
                  [legacy_fragment None (Some "a"); legacy_fragment None (Some "}")]
                  {| ChoiceDeltaFunctionCall.name := Some "f";
                     ChoiceDeltaFunctionCall.arguments := Some "{" |}
                  ["a"; "}"] eq_refl eq_refl eq_refl)).
Defined.

(** A chat fragment that carries one tool-call fragment. *)
Definition tool_fragment (c : ChoiceDeltaToolCall.t) : ChatCompletionChunk.t :=
  fragment {| ChoiceDelta.content := None;
              ChoiceDelta.tool_calls := Some [c];
              ChoiceDelta.function_call := None |} None.

Lemma yi_models_never_yield_tool_calls_witness :
  Forall (fun chunk => chunk_tool_calls chunk = [])
    (Generator.yielded
       (_handle_chat_generate_stream_response sample_usage sample_encoding_for_model
          sample_get_encoding sample_repr "yi-large" []
          [tool_fragment (tool_call_fragment 0 (Some "call_1") (Some "get_weather")
                            (Some "{}"));
           finish_fragment "tool_calls"; usage_fragment 9 1]
          [hi_message] None)).
Proof.
  apply Forall_forall. intros chunk Hin.
  exact (yi_models_never_yield_tool_calls (Z * Z) sample_usage sample_encoding_for_model
           sample_get_encoding sample_repr "yi-large" []
           [tool_fragment (tool_call_fragment 0 (Some "call_1") (Some "get_weather")
                             (Some "{}"));
            finish_fragment "tool_calls"; usage_fragment 9 1]
           [hi_message] None chunk eq_refl Hin).
Defined.

Lemma streamed_tool_call_witness :
  exists body st,
    chat_stream_loop "gpt-4" [hi_message] (chat_initial_state (Z * Z) "gpt-4" [hi_message])
      ([tool_fragment (tool_call_fragment 0 (Some "call_1") (Some "get_weather")
                         (Some "{"));
        tool_fragment (tool_call_fragment 0 None None (Some "}"))]
       ++ [finish_fragment "tool_calls"])
    = (body
       ++ terminal_chunk (Z * Z) [hi_message] (finish_fragment "tool_calls")
            [{| ToolCall.id := "call_1";
                ToolCall.type := "";
                ToolCall.function :=
                  {| ToolCallFunction.name := "get_weather";
                     ToolCallFunction.arguments := "{}" |} |}],
       Ok st)
    /\ List.length body = 2%nat
    /\ Forall (fun c => chunk_tool_calls c = [] /\ chunk_usage c = None) body.
Proof.
  exact (streamed_tool_call (Z * Z) "gpt-4" [hi_message]
           [tool_fragment (tool_call_fragment 0 (Some "call_1") (Some "get_weather")
                             (Some "{"));
            tool_fragment (tool_call_fragment 0 None None (Some "}"))]
           (finish_fragment "tool_calls")
           (tool_call_fragment 0 (Some "call_1") (Some "get_weather") (Some "{"))
           [tool_call_fragment 0 None None (Some "}")]
           eq_refl eq_refl eq_refl
           (Forall_cons (tool_call_fragment 0 None None (Some "}")) eq_refl (Forall_nil _))
           eq_refl).
Defined.

Lemma text_completion_stream_witness :
  _handle_generate_stream_response sample_usage sample_encoding_for_model
    sample_get_encoding sample_repr "gpt-3.5-turbo-instruct" []
    ([text_fragment (Some "he") None; text_fragment (Some "llo") None]
     ++ [text_fragment None (Some "stop")])
    [hi_message]
  = {| Generator.yielded :=
         flat_map (text_chunk (Z * Z) [hi_message])
           [text_fragment (Some "he") None; text_fragment (Some "llo") None]
         ++ map (fun chunk => set_usage chunk (2, 5))
              (text_finish_chunk (Z * Z) [hi_message] (text_fragment None (Some "stop")));
       Generator.raised := None |}.
Proof.
  exact (text_completion_stream (Z * Z) sample_usage sample_encoding_for_model
           sample_get_encoding sample_repr "gpt-3.5-turbo-instruct" []
           [text_fragment (Some "he") None; text_fragment (Some "llo") None]
           (text_fragment None (Some "stop")) [hi_message] "hi" 2 5
           eq_refl eq_refl eq_refl eq_refl eq_refl).
Defined.

(** A text-completion transport that answers every request with an error,
    and a framework in which the instruct models are the completion models. *)
Definition sample_completions_create (prompt model : string) (stream : bool)
    (kwargs : Py.dict json) : result (text_response stream) :=
  Raise (RemoteError "connection refused").

Definition sample_get_model_mode (model : string) (creds : option credentials)
  : result LLMMode :=
  Ok (if Py.contains "instruct" model then COMPLETION else CHAT).

Definition weather_tool : PromptMessageTool.t :=
  {| PromptMessageTool.name := "get_weather";
     PromptMessageTool.description := "the weather of a city";
     PromptMessageTool.parameters := [("type", JStr "object")] |}.

Lemma o_series_request_has_no_max_tokens_and_no_stop_words_witness :
  exists messages kwargs r,
    _chat_generate sample_usage sample_encoding_for_model sample_get_encoding sample_repr
      sample_json_loads sample_new_client sample_chat_create sample_responses_create
      "o1-mini" [] [hi_message] [("max_tokens", JInt 100)] None (Some ["END"]) false None []
    = ([] ++ [ChatCompletionsCreate messages "o1-mini" false kwargs], r)
    /\ Py.get "max_tokens" kwargs = None
    /\ (forall v, Py.get "max_tokens" [("max_tokens", JInt 100)] = Some v ->
                  Py.get "max_completion_tokens" kwargs = Some v)
    /\ Py.get "stop" kwargs = Py.get "stop" [("max_tokens", JInt 100)].
Proof.
  exists [[("role", WStr "user"); ("content", WStr "hi")]],
    [("max_completion_tokens", JInt 100)], (Raise (RemoteError "connection refused")).
  split; [reflexivity|].
  apply (o_series_request_has_no_max_tokens_and_no_stop_words (Z * Z) sample_usage
           sample_encoding_for_model sample_get_encoding sample_repr sample_json_loads
           sample_new_client sample_chat_create sample_responses_create
           "o1-mini" [] [hi_message] [("max_tokens", JInt 100)] None (Some ["END"]) false
           None [] [[("role", WStr "user"); ("content", WStr "hi")]]
           [("max_completion_tokens", JInt 100)]
           (Raise (RemoteError "connection refused"))).
  - reflexivity.
  - repeat constructor. simpl. tauto.
  - reflexivity.
Defined.

Lemma o3_pro_ignores_stop_and_stream_witness :
  _chat_generate sample_usage sample_encoding_for_model sample_get_encoding sample_repr
    sample_json_loads sample_new_client sample_chat_create sample_responses_create
    "o3-pro" [] [hi_message] [] None (Some ["END"]) true None []
  = _chat_generate sample_usage sample_encoding_for_model sample_get_encoding sample_repr
      sample_json_loads sample_new_client sample_chat_create sample_responses_create
      "o3-pro" [] [hi_message] [] None None false None [].
Proof.
  exact (o3_pro_ignores_stop_and_stream (Z * Z) sample_usage sample_encoding_for_model
           sample_get_encoding sample_repr sample_json_loads sample_new_client
           sample_chat_create sample_responses_create
           "o3-pro" [] [hi_message] [] None (Some ["END"]) true None [] eq_refl).
Defined.

Lemma clashing_keyword_fails_before_the_request_witness :
  exists e,
    _chat_generate sample_usage sample_encoding_for_model sample_get_encoding sample_repr
      sample_json_loads sample_new_client sample_chat_create sample_responses_create
      "gpt-4" [] [hi_message] [("stream_options", JObj [])] None None true None []
    = ([], Raise e)
    /\ e = TypeError.
Proof.
  destruct (clashing_keyword_fails_before_the_request (Z * Z) sample_usage
              sample_encoding_for_model sample_get_encoding sample_repr sample_json_loads
              sample_new_client sample_chat_create sample_responses_create
              "gpt-4" [] [hi_message] [("stream_options", JObj [])] None None true None []
              "stream_options" eq_refl eq_refl
              (or_intror (or_introl (conj eq_refl eq_refl))))
    as [e [Hrun Herror]].
  exists e. split; [exact Hrun|].
  apply Herror; [reflexivity | eexists; reflexivity | eexists; reflexivity].
Defined.

Lemma tools_are_sent_with_a_tool_choice_witness :
  exists messages kwargs r,
    _chat_generate sample_usage sample_encoding_for_model sample_get_encoding sample_repr
      sample_json_loads sample_new_client sample_chat_create sample_responses_create
      "gpt-4" [] [hi_message] [] (Some [weather_tool]) None false None []
    = ([] ++ [ChatCompletionsCreate messages "gpt-4" false kwargs], r)
    /\ Py.get "tools" kwargs = Some (JArr (map tool_payload [weather_tool]))
    /\ Py.get "tool_choice" kwargs = Some (JStr "auto").
Proof.
  exists [[("role", WStr "user"); ("content", WStr "hi")]],
    [("tool_choice", JStr "auto"); ("tools", JArr (map tool_payload [weather_tool]))],
    (Raise (RemoteError "connection refused")).
  split; [reflexivity|].
  exact (tools_are_sent_with_a_tool_choice (Z * Z) sample_usage
           sample_encoding_for_model sample_get_encoding sample_repr sample_json_loads
           sample_new_client sample_chat_create sample_responses_create
           "gpt-4" [] [hi_message] [] (Some [weather_tool]) None false None []
           [[("role", WStr "user"); ("content", WStr "hi")]]
           [("tool_choice", JStr "auto"); ("tools", JArr (map tool_payload [weather_tool]))]
           (Raise (RemoteError "connection refused")) eq_refl).
Defined.

(** A prompt with two user messages, the first one with an image. *)
Definition two_questions : list PromptMessage :=
  [UserPromptMessage (CParts mixed_parts) None;
   AssistantPromptMessage (CStr "ok") None [];
   UserPromptMessage (CStr "and now?") (Some "ann")].

Lemma gpt_4_turbo_user_content_is_sent_as_text_witness :
  Forall2
    (fun m m' =>
       is_user m' = is_user m
       /\ message_name m' = message_name m
       /\ (is_user m = false -> m' = m)
       /\ (is_user m = true ->
           forall d, _convert_prompt_message_to_dict m' = Ok d ->
                     exists s, Py.get "content" d = Some (WStr s)))
    two_questions (_clear_illegal_prompt_messages "gpt-4-turbo" two_questions).
Proof.
  apply (gpt_4_turbo_user_content_is_sent_as_text "gpt-4-turbo" two_questions).
  - left. reflexivity.
  - simpl. lia.
Defined.

Lemma fine_tuned_model_is_estimated_as_its_base_witness :
  _num_tokens_from_messages sample_encoding_for_model sample_get_encoding sample_repr
    "ft:gpt-4:acme::8abc" [hi_message] None
  = _num_tokens_from_messages sample_encoding_for_model sample_get_encoding sample_repr
      "gpt-4" [hi_message] None.
Proof.
  exact (fine_tuned_model_is_estimated_as_its_base sample_encoding_for_model
           sample_get_encoding sample_repr "gpt-4" "acme::8abc" [hi_message] None eq_refl).
Defined.

Lemma newer_models_are_estimated_as_gpt_4o_witness :
  _num_tokens_from_messages sample_encoding_for_model sample_get_encoding sample_repr
    "o1-mini" [hi_message] None
  = _num_tokens_from_messages sample_encoding_for_model sample_get_encoding sample_repr
      "gpt-4o" [hi_message] None.
Proof.
  exact (newer_models_are_estimated_as_gpt_4o sample_encoding_for_model
           sample_get_encoding sample_repr "o1-mini" [hi_message] None
           (or_intror eq_refl)).
Defined.

(** The block response that holds the text of the sample stream. *)
Definition hello_completion : Completion.t :=
  {| Completion.choices :=
       [{| CompletionChoice.text := Some "hello";
           CompletionChoice.index := 0;
           CompletionChoice.finish_reason := Some "stop" |}];
     Completion.usage := None;
     Completion.model := "gpt-3.5-turbo-instruct";
     Completion.system_fingerprint := None |}.

Lemma text_stream_and_block_agree_witness :
  exists chunks final result,
    _handle_generate_stream_response sample_usage sample_encoding_for_model
      sample_get_encoding sample_repr "gpt-3.5-turbo-instruct" []
      ([text_fragment (Some "he") None; text_fragment (Some "llo") None]
       ++ [text_fragment None (Some "stop")])
      [hi_message]
    = {| Generator.yielded := chunks ++ [final]; Generator.raised := None |}
    /\ _handle_generate_response (Z * Z) sample_usage sample_encoding_for_model
         sample_get_encoding sample_repr "gpt-3.5-turbo-instruct" [] hello_completion
         [hi_message]
       = Ok result
    /\ chunk_usage final = LLMResult.usage result
    /\ chunk_usage final = Some (2, 5)
    /\ message_content (LLMResult.message result)
       = CStr (concat_all (map (chunk_text (Z * Z)) (chunks ++ [final]))).
Proof.
  exact (text_stream_and_block_agree (Z * Z) sample_usage sample_encoding_for_model
           sample_get_encoding sample_repr "gpt-3.5-turbo-instruct" []
           [text_fragment (Some "he") None; text_fragment (Some "llo") None]
           (text_fragment None (Some "stop")) hello_completion
           {| CompletionChoice.text := Some "hello";
              CompletionChoice.index := 0;
              CompletionChoice.finish_reason := Some "stop" |}
           [] [hi_message] "hi" 2 5
           eq_refl eq_refl eq_refl eq_refl eq_refl eq_refl eq_refl eq_refl).
Defined.

Lemma fine_tuned_count_is_the_count_of_the_base_witness :
  get_num_tokens sample_encoding_for_model sample_get_encoding sample_repr
    sample_get_model_mode "ft:gpt-4:acme::8abc" [] [hi_message] None
  = get_num_tokens sample_encoding_for_model sample_get_encoding sample_repr
      sample_get_model_mode "gpt-4" [] [hi_message] None.
Proof.
  exact (fine_tuned_count_is_the_count_of_the_base sample_encoding_for_model
           sample_get_encoding sample_repr sample_get_model_mode "gpt-4" "acme::8abc" []
           [hi_message] None eq_refl eq_refl).
Defined.

Lemma block_mode_fences_need_a_caller_stop_word_witness :
  exists transformed,
    transformed_prompt CHAT [hi_message] "JSON" = Ok transformed
    /\ snd (_code_block_mode_wrapper (Z * Z) sample_usage sample_encoding_for_model
              sample_get_encoding sample_repr sample_json_loads sample_new_client
              sample_chat_create sample_responses_create sample_completions_create
              sample_get_model_mode "gpt-4" [] [hi_message]
              [("response_format", JStr "JSON")] None (Some 0%nat) true None [["END"]] [])
       = _invoke (Z * Z) sample_usage sample_encoding_for_model sample_get_encoding
           sample_repr sample_json_loads sample_new_client sample_chat_create
           sample_responses_create sample_completions_create sample_get_model_mode
           "gpt-4" [] transformed (Py.del "response_format" [("response_format", JStr "JSON")])
           None (Some ["END"; (fence ++ nl)%string; (nl ++ fence)%string]) true None []
    /\ deref
         (fst (_code_block_mode_wrapper (Z * Z) sample_usage sample_encoding_for_model
                 sample_get_encoding sample_repr sample_json_loads sample_new_client
                 sample_chat_create sample_responses_create sample_completions_create
                 sample_get_model_mode "gpt-4" [] [hi_message]
                 [("response_format", JStr "JSON")] None (Some 0%nat) true None [["END"]]
                 []))
         0
       = ["END"; (fence ++ nl)%string; (nl ++ fence)%string]
    /\ snd (_code_block_mode_wrapper (Z * Z) sample_usage sample_encoding_for_model
              sample_get_encoding sample_repr sample_json_loads sample_new_client
              sample_chat_create sample_responses_create sample_completions_create
              sample_get_model_mode "gpt-4" [] [hi_message]
              [("response_format", JStr "JSON")] None None true None [] [])
       = _invoke (Z * Z) sample_usage sample_encoding_for_model sample_get_encoding
           sample_repr sample_json_loads sample_new_client sample_chat_create
           sample_responses_create sample_completions_create sample_get_model_mode
           "gpt-4" [] transformed (Py.del "response_format" [("response_format", JStr "JSON")])
           None (Some []) true None [].
Proof.
  eexists. split; [reflexivity|].
  split; [|split].
  - apply (proj1 (block_mode_fences_need_a_caller_stop_word (Z * Z) sample_usage
                    sample_encoding_for_model sample_get_encoding sample_repr
                    sample_json_loads sample_new_client sample_chat_create
                    sample_responses_create sample_completions_create
                    sample_get_model_mode "gpt-4" [] [hi_message] _
                    [("response_format", JStr "JSON")] None (Some 0%nat) true None
                    [["END"]] [] "gpt-4" CHAT "JSON" eq_refl eq_refl eq_refl eq_refl)
             0%nat eq_refl); discriminate.
  - apply (proj1 (block_mode_fences_need_a_caller_stop_word (Z * Z) sample_usage
                    sample_encoding_for_model sample_get_encoding sample_repr
                    sample_json_loads sample_new_client sample_chat_create
                    sample_responses_create sample_completions_create
                    sample_get_model_mode "gpt-4" [] [hi_message] _
                    [("response_format", JStr "JSON")] None (Some 0%nat) true None
                    [["END"]] [] "gpt-4" CHAT "JSON" eq_refl eq_refl eq_refl eq_refl)
             0%nat eq_refl); discriminate.
  - apply (proj2 (block_mode_fences_need_a_caller_stop_word (Z * Z) sample_usage
                    sample_encoding_for_model sample_get_encoding sample_repr
                    sample_json_loads sample_new_client sample_chat_create
                    sample_responses_create sample_completions_create
                    sample_get_model_mode "gpt-4" [] [hi_message] _
                    [("response_format", JStr "JSON")] None None true None
                    [] [] "gpt-4" CHAT "JSON" eq_refl eq_refl eq_refl eq_refl)).
    left. reflexivity.
Defined.

Lemma block_mode_chat_request_witness :
  exists messages kwargs r,
    snd (_code_block_mode_wrapper (Z * Z) sample_usage sample_encoding_for_model
           sample_get_encoding sample_repr sample_json_loads sample_new_client
           sample_chat_create sample_responses_create sample_completions_create
           sample_get_model_mode "gpt-4" [] [hi_message]
           [("response_format", JStr "JSON")] None None true None [] [])
    = ([] ++ [inl (ChatCompletionsCreate messages "gpt-4" true kwargs)], r)
    /\ exists first middle,
        messages
        = first :: middle
          ++ [[("role", WStr "assistant");
               ("content", WStr (nl ++ fence ++ "JSON" ++ "")%string)]]
        /\ Py.get "role" first = Some (WStr "system")
        /\ List.length middle = 1%nat
        /\ Py.get "response_format" kwargs = None.
Proof.
  exists [[("role", WStr "system");
           ("content",
            WStr (block_mode_prompt "Please output a valid JSON object." "JSON"))];
          [("role", WStr "user"); ("content", WStr "hi")];
          [("role", WStr "assistant"); ("content", WStr (nl ++ fence ++ "JSON")%string)]],
    [("stream_options", JObj [("include_usage", JBool true)])],
    (Raise (RemoteError "connection refused")).
  split; [reflexivity|].
  apply (block_mode_chat_request (Z * Z) sample_usage sample_encoding_for_model
           sample_get_encoding sample_repr sample_json_loads sample_new_client
           sample_chat_create sample_responses_create sample_completions_create
           sample_get_model_mode "gpt-4" [] [hi_message]
           [("response_format", JStr "JSON")] None None true None [] []
           "gpt-4" "JSON" _ "gpt-4" true _ (Raise (RemoteError "connection refused"))).
  - reflexivity.
  - reflexivity.
  - reflexivity.
  - repeat constructor. simpl. tauto.
  - reflexivity.
Defined.

(** The block response that holds the text of the sample chat stream. *)
Definition hello_chat_completion : ChatCompletion.t :=
  {| ChatCompletion.choices :=
       [{| ChatCompletionMessage.content := Some "hello";
           ChatCompletionMessage.tool_calls := None;
           ChatCompletionMessage.function_call := None |}];
     ChatCompletion.usage := None;
     ChatCompletion.model := "gpt-4";
     ChatCompletion.system_fingerprint := None |}.

Lemma chat_stream_and_block_agree_witness :
  exists chunks final result,
    _handle_chat_generate_stream_response sample_usage sample_encoding_for_model
      sample_get_encoding sample_repr "gpt-4" []
      ([content_fragment "he"; content_fragment "llo"] ++ [finish_fragment "stop"])
      [hi_message] None
    = {| Generator.yielded := chunks ++ [final]; Generator.raised := None |}
    /\ _handle_chat_generate_response sample_usage sample_encoding_for_model
         sample_get_encoding sample_repr "gpt-4" [] hello_chat_completion [hi_message]
         None
       = Ok result
    /\ chunk_usage final = LLMResult.usage result
    /\ message_content (LLMResult.message result)
       = CStr (concat_all (map (chunk_text (Z * Z)) (chunks ++ [final]))).
Proof.
  exact (chat_stream_and_block_agree (Z * Z) sample_usage sample_encoding_for_model
           sample_get_encoding sample_repr "gpt-4" []
           [content_fragment "he"; content_fragment "llo"] (finish_fragment "stop")
           hello_chat_completion
           {| ChatCompletionMessage.content := Some "hello";
              ChatCompletionMessage.tool_calls := None;
              ChatCompletionMessage.function_call := None |}
           [] [hi_message] None 12 20 eq_refl eq_refl eq_refl eq_refl eq_refl eq_refl
           eq_refl eq_refl eq_refl).
Defined.

(** Two predefined models, the name of the first occurring in the name of
    the second, and an account with two fine-tuned models, one of them on a
    base that is not predefined.  The framework's types are strings here. *)
Definition sample_schema (name features : string)
  : entity string string string string :=
  {| AIModelEntity.model := name;
     AIModelEntity.label := {| I18nObject.zh_Hans := name; I18nObject.en_US := name |};
     AIModelEntity.model_type := "llm";
     AIModelEntity.features := features;
     AIModelEntity.fetch_from := PREDEFINED_MODEL;
     AIModelEntity.model_properties := "chat";
     AIModelEntity.parameter_rules := "temperature";
     AIModelEntity.pricing := None |}.

Definition sample_predefined_models : list (entity string string string string) :=
  [sample_schema "gpt-4" "tool-call"; sample_schema "gpt-4o" "tool-call, vision"].

Definition sample_models_list (creds : credentials) : result (list string) :=
  Ok ["gpt-4"; "ft:gpt-4o-mini:acme::8abc"; "ft:babbage-002:acme::8abd"].

Lemma sample_names_are_distinct :
  NoDup (names string string string string sample_predefined_models).
Proof.
  repeat constructor; simpl; intros H; decompose [or] H; discriminate || assumption.
Defined.

Lemma remote_models_lists_the_fine_tunes_of_known_bases_witness :
  exists remote,
    sample_models_list [] = Ok remote
    /\ names string string string string
         [fine_tuned_entity string string string string "llm" "ft:gpt-4o-mini:acme::8abc"
            (sample_schema "gpt-4o" "tool-call, vision")]
       = filter (fun id => Py.startswith "ft:" id
                           && known_base string string string string
                                sample_predefined_models id) remote
    /\ Forall
         (fun e =>
            AIModelEntity.fetch_from e = CUSTOMIZABLE_MODEL
            /\ AIModelEntity.pricing e = Some fine_tuned_pricing
            /\ exists base before schema after,
                base_model_of (AIModelEntity.model e) = Ok base
                /\ sample_predefined_models = before ++ schema :: after
                /\ Py.contains (AIModelEntity.model schema) base = true
                /\ no_match string string string string base after = true
                /\ AIModelEntity.features e = AIModelEntity.features schema
                /\ AIModelEntity.model_properties e
                   = AIModelEntity.model_properties schema
                /\ AIModelEntity.parameter_rules e
                   = AIModelEntity.parameter_rules schema)
         [fine_tuned_entity string string string string "llm" "ft:gpt-4o-mini:acme::8abc"
            (sample_schema "gpt-4o" "tool-call, vision")].
Proof.
  exact (remote_models_lists_the_fine_tunes_of_known_bases sample_new_client
           string string string string "llm" sample_predefined_models sample_models_list
           [] _ sample_names_are_distinct eq_refl).
Defined.

(** A transport that answers. *)
Definition answering_chat_create (messages : list message_dict) (model : string)
    (stream : bool) (kwargs : Py.dict json) : result (chat_response stream) :=
  match stream return result (chat_response stream) with
  | true => Ok []
  | false => Ok hello_chat_completion
  end.

Lemma validation_pings_once_and_only_listed_fine_tunes_witness :
  validate_credentials sample_new_client answering_chat_create sample_completions_create
    sample_get_model_mode string string string string "llm" sample_predefined_models
    sample_models_list (fun _ => "error") "ft:gpt-4o-mini:acme::8abc" [] []
  = ([ModelsList;
      Create (inl (ChatCompletionsCreate
                     [[("role", WStr "user"); ("content", WStr "ping")]]
                     "ft:gpt-4o-mini:acme::8abc" false ping_parameters))],
     None)
  /\ exists ping,
       (ping = Create (inl (ChatCompletionsCreate
                              [[("role", WStr "user"); ("content", WStr "ping")]]
                              "ft:gpt-4o-mini:acme::8abc" false ping_parameters))
        \/ ping = Create (inr (CompletionsCreate "ping" "ft:gpt-4o-mini:acme::8abc" false
                                 ping_parameters)))
       /\ [ModelsList;
           Create (inl (ChatCompletionsCreate
                          [[("role", WStr "user"); ("content", WStr "ping")]]
                          "ft:gpt-4o-mini:acme::8abc" false ping_parameters))]
          = [] ++ [ModelsList; ping]
       /\ exists remote base schema,
            sample_models_list [] = Ok remote
            /\ In "ft:gpt-4o-mini:acme::8abc" remote
            /\ base_model_of "ft:gpt-4o-mini:acme::8abc" = Ok base
            /\ In schema sample_predefined_models
            /\ Py.contains (AIModelEntity.model schema) base = true.
Proof.
  split; [reflexivity|].
  destruct (validation_pings_once_and_only_listed_fine_tunes sample_new_client
              answering_chat_create sample_completions_create sample_get_model_mode
              string string string string "llm" sample_predefined_models
              sample_models_list (fun _ => "error") "ft:gpt-4o-mini:acme::8abc" [] []
              [ModelsList;
               Create (inl (ChatCompletionsCreate
                              [[("role", WStr "user"); ("content", WStr "ping")]]
                              "ft:gpt-4o-mini:acme::8abc" false ping_parameters))]
              sample_names_are_distinct eq_refl) as [ping [Hping [_ Hlisted]]].
  destruct (Hlisted eq_refl) as [Hlog Hknown].
  exists ping. split; [exact Hping|]. split; [exact Hlog | exact Hknown].
Defined.
